(** * Harbor data converters: [hgps.c] and [hsensor.c]

    A shallow embedding of the two converters and of the parts of the C
    library they call, followed by the properties of the windowed average.

    - [int] is a 32-bit two's complement integer, kept as a [Z] with the
      wrap-around written out ([CInt]).
    - [float] is IEEE binary32 ([CFloat]), built on the parameterised
      operations of [SpecFloat] (round to nearest, ties to even).
    - [fgets], [isdigit] and [sscanf] are modelled in [Libc]; the conversions
      [%d] and [%f] read one character at a time, as the C standard describes
      the input item of a conversion.  Where the standard leaves the result
      open or the GNU C library departs from it (a number too large for
      [%d], an exponent without digits for [%f]), the model follows the GNU
      C library on a platform with a 64-bit [long].
    - [printf] is modelled by the output event it produces: a constructor per
      format string, carrying the printed arguments; for [%s] that is the
      text of the buffer up to its first NUL character. *)

From Stdlib Require Import ZArith NArith List Bool Ascii String Lia.
From Stdlib Require Import Floats.SpecFloat.
Import ListNotations.

Local Open Scope Z_scope.

(* ================================================================== *)
(** ** Machine integers *)

Module CInt.

(** [int] of the C code: 32 bits, two's complement. *)
Definition wrap32 (z : Z) : Z := (z + 2 ^ 31) mod 2 ^ 32 - 2 ^ 31.

Definition in_range (z : Z) : Prop := - 2 ^ 31 <= z < 2 ^ 31.

Definition add (a b : Z) : Z := wrap32 (a + b).
Definition sub (a b : Z) : Z := wrap32 (a - b).
Definition mul (a b : Z) : Z := wrap32 (a * b).

(** C division truncates toward zero. *)
Definition div (a b : Z) : Z := wrap32 (Z.quot a b).
Definition rem (a b : Z) : Z := Z.rem a b.

End CInt.

(* ================================================================== *)
(** ** Single precision floats *)

Module CFloat.

Definition prec : Z := 24.
Definition emax : Z := 128.

Definition float : Type := spec_float.

Definition zero : float := S754_zero false.

Definition add : float -> float -> float := SFadd prec emax.
Definition sub : float -> float -> float := SFsub prec emax.
Definition div : float -> float -> float := SFdiv prec emax.

(** [x < y] and [x <= y]; both false as soon as an operand is NaN. *)
Definition ltb : float -> float -> bool := SFltb.
Definition leb : float -> float -> bool := SFleb.

Definition is_zero (x : float) : bool :=
  match x with S754_zero _ => true | _ => false end.

(** [(float) n] for an [int] [n]. *)
Definition of_int (n : Z) : float := binary_normalize prec emax n 0 false.

(** The float nearest to [m * 10^e]. *)
Definition of_decimal (neg : bool) (m : N) (e : Z) : float :=
  match m with
  | N0 => S754_zero neg
  | Npos p =>
      match e with
      | Z0 => binary_round prec emax neg p 0
      | Zpos k => binary_round prec emax neg (p * Pos.pow 10 k) 0
      | Zneg k =>
          SFdiv prec emax (S754_finite neg p 0)
                (S754_finite false (Pos.pow 10 k) 0)
      end
  end.

(** The float nearest to [m * 2^e]. *)
Definition of_binary (neg : bool) (m : N) (e : Z) : float :=
  match m with
  | N0 => S754_zero neg
  | Npos p => binary_round prec emax neg p e
  end.

End CFloat.

Abbreviation float := CFloat.float.

(* ================================================================== *)
(** ** The C library, as far as the converters use it *)

Module Libc.

Local Open Scope char_scope.

Definition code (c : ascii) : N := N_of_ascii c.

(** [isdigit] in the C locale. *)
Definition isdigit (c : ascii) : bool :=
  (N.leb 48 (code c) && N.leb (code c) 57)%bool.

(** [isspace] in the C locale: space, \t, \n, \v, \f, \r. *)
Definition isspace (c : ascii) : bool :=
  (N.eqb (code c) 32 || (N.leb 9 (code c) && N.leb (code c) 13))%bool.

Definition digit_val (c : ascii) : N := (code c - 48)%N.

(** Value of a hexadecimal digit, if [c] is one. *)
Definition hex_val (c : ascii) : option N :=
  let n := code c in
  if isdigit c then Some (n - 48)%N
  else if (N.leb 97 n && N.leb n 102)%bool then Some (n - 87)%N
  else if (N.leb 65 n && N.leb n 70)%bool then Some (n - 55)%N
  else None.

(** [tolower] on the letters of the C locale. *)
Definition tolower (c : ascii) : ascii :=
  let n := code c in
  if (N.leb 65 n && N.leb n 90)%bool then ascii_of_N (n + 32) else c.

Definition newline : ascii := "010".

(** The string that a character array holds for [printf("%s")]: the
    characters before the first NUL. *)
Fixpoint c_string (s : list ascii) : list ascii :=
  match s with
  | [] => []
  | c :: s' => if Ascii.eqb c Ascii.zero then [] else c :: c_string s'
  end.

(** *** fgets

    [fgets_all size file] is the sequence of buffers that successive calls
    [fgets(str, size, in)] return until end of file: each holds at most
    [size - 1] characters and ends after the first newline, if one comes
    before that. *)
Fixpoint fgets_from (size : nat) (room : nat) (cur : list ascii)
         (file : list ascii) : list (list ascii) :=
  match file with
  | [] => match cur with [] => [] | _ => [rev cur] end
  | c :: rest =>
      if (Ascii.eqb c newline || Nat.leb room 1)%bool
      then rev (c :: cur) :: fgets_from size (size - 1) [] rest
      else fgets_from size (room - 1) (c :: cur) rest
  end.

Definition fgets_all (size : nat) (file : list ascii) : list (list ascii) :=
  fgets_from size (size - 1) [] file.

(** *** Conversions as character automata

    A conversion reads its input item one character at a time and stops at
    the first character that cannot continue it; that character stays in
    the input.  The item read is then either a complete number or a
    matching failure. *)
Section Automaton.
Context {Q V : Type}.
Variable next : Q -> ascii -> option Q.
Variable accept : Q -> option V.

Fixpoint run (q : Q) (s : list ascii) : Q * list ascii :=
  match s with
  | [] => (q, [])
  | c :: s' =>
      match next q c with
      | Some q' => run q' s'
      | None => (q, s)
      end
  end.

Definition scan_from (q0 : Q) (s : list ascii) : option (V * list ascii) :=
  let (q, rest) := run q0 s in
  match accept q with
  | Some v => Some (v, rest)
  | None => None
  end.
End Automaton.

(** **** [%d] *)
Inductive istate : Type :=
| IStart
| ISign (neg : bool)
| IDigits (neg : bool) (m : N).

Definition inext (q : istate) (c : ascii) : option istate :=
  match q with
  | IStart =>
      if isspace c then Some IStart
      else if Ascii.eqb c "+" then Some (ISign false)
      else if Ascii.eqb c "-" then Some (ISign true)
      else if isdigit c then Some (IDigits false (digit_val c))
      else None
  | ISign neg =>
      if isdigit c then Some (IDigits neg (digit_val c)) else None
  | IDigits neg m =>
      if isdigit c then Some (IDigits neg (10 * m + digit_val c)%N) else None
  end.

(** The item is converted as [strtol] does, to a [long] of 64 bits that
    stays at [LONG_MIN] or [LONG_MAX] when the number is beyond; the value
    is then stored into an [int], which keeps its low 32 bits. *)
Definition long_saturate (z : Z) : Z :=
  Z.max (- 2 ^ 63) (Z.min z (2 ^ 63 - 1)).

Definition iaccept (q : istate) : option Z :=
  match q with
  | IDigits neg m =>
      Some (CInt.wrap32
              (long_saturate (if neg then - Z.of_N m else Z.of_N m)))
  | _ => None
  end.

Definition scan_int : list ascii -> option (Z * list ascii) :=
  scan_from inext iaccept IStart.

(** **** [%f]

    Decimal and hexadecimal numbers, [inf], [infinity] and [nan] in any
    letter case.  An item that ends in an exponent without digits ([1e],
    [1e+], [0x1p]) or in the point of a hexadecimal number without digits
    ([0x.]) is converted to the value of its numeric part, as [strtof] gives
    it; an item without any digit ([.], [+], [0x]) is a matching failure.
    In the states, [neg] is the sign read, [m] the mantissa
    read so far as a whole number, [k] the number of its digits after the
    point, [any] whether a digit of the mantissa was read, [eneg] and [x]
    the sign and the value of the exponent; [FZero] is the state after a
    first digit 0, from which the letter x starts a hexadecimal number;
    [FInf] and [FNan] hold the letters still to be read. *)
Inductive fstate : Type :=
| FStart
| FSign (neg : bool)
| FZero (neg : bool)
| FInt (neg : bool) (m : N)
| FFrac (neg : bool) (m : N) (k : N) (any : bool)
| FExp (neg : bool) (m : N) (k : N)
| FExpSign (neg : bool) (m : N) (k : N) (eneg : bool)
| FExpDigits (neg : bool) (m : N) (k : N) (eneg : bool) (x : N)
| FHex (neg : bool)
| FHexInt (neg : bool) (m : N)
| FHexFrac (neg : bool) (m : N) (k : N) (any : bool)
| FBin (neg : bool) (m : N) (k : N)
| FBinSign (neg : bool) (m : N) (k : N) (eneg : bool)
| FBinDigits (neg : bool) (m : N) (k : N) (eneg : bool) (x : N)
| FInf (neg : bool) (todo : list ascii)
| FNan (todo : list ascii).

Definition is_letter (l : ascii) (c : ascii) : bool := Ascii.eqb (tolower c) l.

(** After the optional sign. *)
Definition fnext_body (neg : bool) (c : ascii) : option fstate :=
  if Ascii.eqb c "0" then Some (FZero neg)
  else if isdigit c then Some (FInt neg (digit_val c))
  else if Ascii.eqb c "." then Some (FFrac neg 0 0 false)
  else if is_letter "i" c then Some (FInf neg ["n"; "f"; "i"; "n"; "i"; "t"; "y"])
  else if is_letter "n" c then Some (FNan ["a"; "n"])
  else None.

Definition fnext_int (neg : bool) (m : N) (c : ascii) : option fstate :=
  if isdigit c then Some (FInt neg (10 * m + digit_val c)%N)
  else if Ascii.eqb c "." then Some (FFrac neg m 0 true)
  else if is_letter "e" c then Some (FExp neg m 0)
  else None.

Definition fnext_word (todo : list ascii) (c : ascii) : option (list ascii) :=
  match todo with
  | l :: todo' => if is_letter l c then Some todo' else None
  | [] => None
  end.

Definition fnext (q : fstate) (c : ascii) : option fstate :=
  match q with
  | FStart =>
      if isspace c then Some FStart
      else if Ascii.eqb c "+" then Some (FSign false)
      else if Ascii.eqb c "-" then Some (FSign true)
      else fnext_body false c
  | FSign neg => fnext_body neg c
  | FZero neg =>
      if is_letter "x" c then Some (FHex neg) else fnext_int neg 0 c
  | FInt neg m => fnext_int neg m c
  | FFrac neg m k any =>
      if isdigit c then Some (FFrac neg (10 * m + digit_val c)%N (k + 1)%N true)
      else if (any && is_letter "e" c)%bool then Some (FExp neg m k)
      else None
  | FExp neg m k =>
      if Ascii.eqb c "+" then Some (FExpSign neg m k false)
      else if Ascii.eqb c "-" then Some (FExpSign neg m k true)
      else if isdigit c then Some (FExpDigits neg m k false (digit_val c))
      else None
  | FExpSign neg m k eneg =>
      if isdigit c then Some (FExpDigits neg m k eneg (digit_val c)) else None
  | FExpDigits neg m k eneg x =>
      if isdigit c then Some (FExpDigits neg m k eneg (10 * x + digit_val c)%N)
      else None
  | FHex neg =>
      match hex_val c with
      | Some h => Some (FHexInt neg h)
      | None => if Ascii.eqb c "." then Some (FHexFrac neg 0 0 false) else None
      end
  | FHexInt neg m =>
      match hex_val c with
      | Some h => Some (FHexInt neg (16 * m + h)%N)
      | None =>
          if Ascii.eqb c "." then Some (FHexFrac neg m 0 true)
          else if is_letter "p" c then Some (FBin neg m 0)
          else None
      end
  | FHexFrac neg m k any =>
      match hex_val c with
      | Some h => Some (FHexFrac neg (16 * m + h)%N (k + 1)%N true)
      | None =>
          if (any && is_letter "p" c)%bool then Some (FBin neg m k) else None
      end
  | FBin neg m k =>
      if Ascii.eqb c "+" then Some (FBinSign neg m k false)
      else if Ascii.eqb c "-" then Some (FBinSign neg m k true)
      else if isdigit c then Some (FBinDigits neg m k false (digit_val c))
      else None
  | FBinSign neg m k eneg =>
      if isdigit c then Some (FBinDigits neg m k eneg (digit_val c)) else None
  | FBinDigits neg m k eneg x =>
      if isdigit c then Some (FBinDigits neg m k eneg (10 * x + digit_val c)%N)
      else None
  | FInf neg todo =>
      match fnext_word todo c with
      | Some todo' => Some (FInf neg todo')
      | None => None
      end
  | FNan todo =>
      match fnext_word todo c with
      | Some todo' => Some (FNan todo')
      | None => None
      end
  end.

Definition signed (eneg : bool) (x : N) : Z :=
  if eneg then - Z.of_N x else Z.of_N x.

Definition faccept (q : fstate) : option float :=
  match q with
  | FZero neg => Some (CFloat.of_decimal neg 0 0)
  | FInt neg m => Some (CFloat.of_decimal neg m 0)
  | FFrac neg m k true => Some (CFloat.of_decimal neg m (- Z.of_N k))
  | FExp neg m k | FExpSign neg m k _ =>
      Some (CFloat.of_decimal neg m (- Z.of_N k))
  | FExpDigits neg m k eneg x =>
      Some (CFloat.of_decimal neg m (signed eneg x - Z.of_N k))
  | FHexInt neg m => Some (CFloat.of_binary neg m 0)
  | FHexFrac neg m k _ => Some (CFloat.of_binary neg m (- (4 * Z.of_N k)))
  | FBin neg m k | FBinSign neg m k _ =>
      Some (CFloat.of_binary neg m (- (4 * Z.of_N k)))
  | FBinDigits neg m k eneg x =>
      Some (CFloat.of_binary neg m (signed eneg x - 4 * Z.of_N k))
  | FInf neg [] => Some (S754_infinity neg)
  | FInf neg ["i"; "n"; "i"; "t"; "y"] => Some (S754_infinity neg)
  | FNan [] => Some S754_nan
  | _ => None
  end.

Definition scan_float : list ascii -> option (float * list ascii) :=
  scan_from fnext faccept FStart.

(** *** sscanf

    The format strings of the converters are made of [%f], [%d] and
    single separator characters.  [scan_directives] returns the values
    converted before the first failure, in order; their number is what
    [sscanf] returns.  (The converters call [sscanf] on buffers that start
    with a digit, which leaves out the return value [EOF] of an input
    failure before the first conversion.) *)
Inductive directive : Type :=
| ConvF
| ConvD
| Lit (c : ascii).

Inductive value : Type :=
| VInt (z : Z)
| VFloat (f : float).

Fixpoint scan_directives (ds : list directive) (s : list ascii) : list value :=
  match ds with
  | [] => []
  | Lit c :: ds' =>
      match s with
      | c' :: s' => if Ascii.eqb c' c then scan_directives ds' s' else []
      | [] => []
      end
  | ConvD :: ds' =>
      match scan_int s with
      | Some (z, s') => VInt z :: scan_directives ds' s'
      | None => []
      end
  | ConvF :: ds' =>
      match scan_float s with
      | Some (f, s') => VFloat f :: scan_directives ds' s'
      | None => []
      end
  end.

End Libc.

Abbreviation line := (list ascii).

(* ================================================================== *)
(** ** Division by the record count as a partial operation

    [x / navg] and [x / (float) navg] have no result when the divisor is
    zero.  The checked variants of [showAverage] below are the C functions
    with these divisions; they return [None] as soon as a division has no
    result. *)

Module Partial.

Definition div_count_f (x : float) (navg : Z) : option float :=
  let d := CFloat.of_int navg in
  if CFloat.is_zero d then None else Some (CFloat.div x d).

Definition div_count_i (x : Z) (navg : Z) : option Z :=
  if navg =? 0 then None else Some (CInt.div x navg).

Definition bind {A B : Type} (c : option A) (k : A -> option B) : option B :=
  match c with
  | Some a => k a
  | None => None
  end.

End Partial.

Notation "x <- c ;; k" := (Partial.bind c (fun x => k))
  (at level 61, c at next level, right associativity).

(** [while( fgets( str, 256, in ) ) body]: [body] is run on each buffer in
    turn, threading the local variables [st] and appending what it prints. *)
Fixpoint while_fgets {S O : Type} (body : S -> line -> S * list O) (st : S)
         (lines : list line) : S * list O :=
  match lines with
  | [] => (st, [])
  | str :: rest =>
      let (st1, out1) := body st str in
      let (st2, out2) := while_fgets body st1 rest in
      (st2, out1 ++ out2)
  end.

(* ================================================================== *)
(** ** hgps.c *)

Module Gps.

(** [GPSDATA]: the GPS record of the C code. *)
Record GPSDATA : Type := mkGPS {
  mday : Z;
  month : Z;
  year : Z;
  hour : Z;
  minute : Z;
  second : Z;
  todaySecs : Z;
  nsats : Z;
  tsecs : float;
  lat : float;
  lon : float;
  alt : float
}.

(** The arguments of the two [printf] calls that write a data line. *)
Record columns : Type := mkColumns {
  c_tsecs : float;
  c_mday : Z;
  c_month : Z;
  c_year : Z;
  c_hour : Z;
  c_minute : Z;
  c_second : Z;
  c_lat : float;
  c_lon : float;
  c_alt : float;
  c_nsats : Z
}.

Inductive output : Type :=
| Comment (text : line)               (* printf("# %s", str) *)
| Plain (c : columns)                 (* the line without averaging *)
| Averaged (c : columns) (navg : Z).  (* the line of showAverage *)

(** *** showAverage *)
Definition showAverage (navg : Z) (raw avg : GPSDATA)
  : GPSDATA * list output :=
  if navg <? 1 then (avg, [])
  else
    let n := CFloat.of_int navg in
    let a_tsecs := CFloat.div (tsecs avg) n in
    let a_lat := CFloat.div (lat avg) n in
    let a_lon := CFloat.div (lon avg) n in
    let a_alt := CFloat.div (alt avg) n in
    let a_today := CInt.div (todaySecs avg) navg in
    let a_nsats := CInt.div (nsats avg) navg in
    let hh := CInt.div a_today 3600 in
    let mm := CInt.div (CInt.sub a_today (CInt.mul hh 3600)) 60 in
    let ss := CInt.rem a_today 60 in
    let '(hh', yr, mon, md) :=
      if 24 <=? hh
      then (CInt.sub hh 24, year raw, month raw, mday raw)
      else (hh, year avg, month avg, mday avg) in
    (mkGPS (mday avg) (month avg) (year avg) (hour avg) (minute avg)
           (second avg) a_today a_nsats a_tsecs a_lat a_lon a_alt,
     [Averaged (mkColumns a_tsecs md mon yr hh' mm ss a_lat a_lon a_alt
                          a_nsats) navg]).

(** *** updateAverage *)
Definition updateAverage (navg : Z) (raw avg : GPSDATA) : Z * GPSDATA :=
  if navg <? 1 then
    (CInt.add 0 1,
     mkGPS (mday raw) (month raw) (year raw) (hour raw) (minute raw)
           (second raw)
           (CInt.add (CInt.add (CInt.mul (hour raw) 3600)
                               (CInt.mul (minute raw) 60)) (second raw))
           (nsats raw) (tsecs raw) (lat raw) (lon raw) (alt raw))
  else
    let hh := if hour raw <? hour avg then CInt.add (hour raw) 24
              else hour raw in
    (CInt.add navg 1,
     mkGPS (mday avg) (month avg) (year avg) (hour avg) (minute avg)
           (second avg)
           (CInt.add (todaySecs avg)
                     (CInt.add (CInt.add (CInt.mul hh 3600)
                                         (CInt.mul (minute raw) 60))
                               (second raw)))
           (CInt.add (nsats avg) (nsats raw))
           (CFloat.add (tsecs avg) (tsecs raw))
           (CFloat.add (lat avg) (lat raw))
           (CFloat.add (lon avg) (lon raw))
           (CFloat.add (alt avg) (alt raw))).

(** *** sscanf(str, "%f,%d/%d/%d,%d:%d:%d,%f,%f,%f,%d", ...) *)
Import Libc.
Local Open Scope char_scope.

Definition format : list directive :=
  [ConvF; Lit ","; ConvD; Lit "/"; ConvD; Lit "/"; ConvD; Lit ",";
   ConvD; Lit ":"; ConvD; Lit ":"; ConvD; Lit ",";
   ConvF; Lit ","; ConvF; Lit ","; ConvF; Lit ","; ConvD].

Local Close Scope char_scope.

Definition set_int (f : Z -> GPSDATA -> GPSDATA) (v : value) (r : GPSDATA)
  : GPSDATA :=
  match v with VInt z => f z r | VFloat _ => r end.

Definition set_float (f : float -> GPSDATA -> GPSDATA) (v : value)
           (r : GPSDATA) : GPSDATA :=
  match v with VFloat x => f x r | VInt _ => r end.

Definition set_year (z : Z) (r : GPSDATA) : GPSDATA :=
  mkGPS (mday r) (month r) z (hour r) (minute r) (second r) (todaySecs r)
        (nsats r) (tsecs r) (lat r) (lon r) (alt r).

(** The pointer arguments of the call, in order. *)
Definition targets : list (value -> GPSDATA -> GPSDATA) :=
  [ set_float (fun x r => mkGPS (mday r) (month r) (year r) (hour r)
      (minute r) (second r) (todaySecs r) (nsats r) x (lat r) (lon r) (alt r));
    set_int (fun z r => mkGPS z (month r) (year r) (hour r)
      (minute r) (second r) (todaySecs r) (nsats r) (tsecs r) (lat r) (lon r)
      (alt r));
    set_int (fun z r => mkGPS (mday r) z (year r) (hour r)
      (minute r) (second r) (todaySecs r) (nsats r) (tsecs r) (lat r) (lon r)
      (alt r));
    set_int set_year;
    set_int (fun z r => mkGPS (mday r) (month r) (year r) z
      (minute r) (second r) (todaySecs r) (nsats r) (tsecs r) (lat r) (lon r)
      (alt r));
    set_int (fun z r => mkGPS (mday r) (month r) (year r) (hour r)
      z (second r) (todaySecs r) (nsats r) (tsecs r) (lat r) (lon r) (alt r));
    set_int (fun z r => mkGPS (mday r) (month r) (year r) (hour r)
      (minute r) z (todaySecs r) (nsats r) (tsecs r) (lat r) (lon r) (alt r));
    set_float (fun x r => mkGPS (mday r) (month r) (year r) (hour r)
      (minute r) (second r) (todaySecs r) (nsats r) (tsecs r) x (lon r)
      (alt r));
    set_float (fun x r => mkGPS (mday r) (month r) (year r) (hour r)
      (minute r) (second r) (todaySecs r) (nsats r) (tsecs r) (lat r) x
      (alt r));
    set_float (fun x r => mkGPS (mday r) (month r) (year r) (hour r)
      (minute r) (second r) (todaySecs r) (nsats r) (tsecs r) (lat r) (lon r)
      x);
    set_int (fun z r => mkGPS (mday r) (month r) (year r) (hour r)
      (minute r) (second r) (todaySecs r) z (tsecs r) (lat r) (lon r)
      (alt r)) ].

Fixpoint store (ts : list (value -> GPSDATA -> GPSDATA)) (vs : list value)
         (r : GPSDATA) : GPSDATA :=
  match ts, vs with
  | t :: ts', v :: vs' => store ts' vs' (t v r)
  | _, _ => r
  end.

(** Returns the number of fields converted and the record as the call
    leaves it: the fields converted are overwritten, the others keep the
    value they had. *)
Definition sscanf (str : line) (raw : GPSDATA) : Z * GPSDATA :=
  let vs := scan_directives format str in
  (Z.of_nat (List.length vs), store targets vs raw).

(** *** main *)

(** The local variables of [main] that live across the loop. *)
Record state : Type := mkState {
  raw : GPSDATA;
  avg : GPSDATA;
  navg : Z;
  t0 : float
}.

Definition columns_of (r : GPSDATA) : columns :=
  mkColumns (tsecs r) (mday r) (month r) (year r) (hour r) (minute r)
            (second r) (lat r) (lon r) (alt r) (nsats r).

(** First character of the buffer; [fgets] never returns an empty one. *)
Definition first_char (str : line) : ascii := hd Ascii.zero str.

(** The [if( avgSecs <= 0.0 ) ... else ...] statement that ends the loop
    body: what is done with a record once it is parsed and kept. *)
Definition observe (avgSecs : float) (st : state) (raw2 : GPSDATA)
  : state * list output :=
  if CFloat.leb avgSecs CFloat.zero then
    (mkState raw2 (avg st) (navg st) (t0 st), [Plain (columns_of raw2)])
  else if (CFloat.ltb avgSecs (CFloat.sub (tsecs raw2) (t0 st))
           || CFloat.ltb (t0 st) CFloat.zero)%bool then
    let (avg1, out) := showAverage (navg st) raw2 (avg st) in
    let (navg1, avg2) := updateAverage 0 raw2 avg1 in
    (mkState raw2 avg2 navg1 (tsecs raw2), out)
  else
    let (navg1, avg1) := updateAverage (navg st) raw2 (avg st) in
    (mkState raw2 avg1 navg1 (t0 st), []).

(** One turn of the [while] loop, on the buffer [str] that [fgets]
    returned. *)
Definition step (avgSecs : float) (minSats : Z) (st : state) (str : line)
  : state * list output :=
  if negb (isdigit (first_char str)) then (st, [Comment (c_string str)])
  else
    let (n, raw1) := sscanf str (raw st) in
    if negb (n =? 11) then
      (mkState raw1 (avg st) (navg st) (t0 st), [Comment (c_string str)])
    else if nsats raw1 <? minSats then
      (mkState raw1 (avg st) (navg st) (t0 st), [Comment (c_string str)])
    else
      observe avgSecs st (set_year (CInt.add (year raw1) 2000) raw1).

Definition loop (avgSecs : float) (minSats : Z)
  : state -> list line -> state * list output :=
  while_fgets (step avgSecs minSats).

(** [raw] and [avg] are not initialised by [main]: their first contents
    [raw0] and [avg0] are arbitrary. *)
Definition init (raw0 avg0 : GPSDATA) : state :=
  mkState raw0 avg0 0 (CFloat.of_int (-1)).

(** The call of [showAverage] after the loop. *)
Definition final_flush (st : state) : list output :=
  snd (showAverage (navg st) (raw st) (avg st)).

(** What [main] writes after the line that repeats its arguments, given
    the buffers that [fgets] returns. *)
Definition process (avgSecs : float) (minSats : Z) (raw0 avg0 : GPSDATA)
           (lines : list line) : list output :=
  let (st, out) := loop avgSecs minSats (init raw0 avg0) lines in
  out ++ final_flush st.

Definition main (avgSecs : float) (minSats : Z) (raw0 avg0 : GPSDATA)
           (file : list ascii) : list output :=
  process avgSecs minSats raw0 avg0 (fgets_all 256 file).

(** *** Checked showAverage: the divisions by [navg] are partial. *)
Definition average_checked (navg : Z) (raw avg : GPSDATA)
  : option (GPSDATA * list output) :=
  a_tsecs <- Partial.div_count_f (tsecs avg) navg ;;
  a_lat <- Partial.div_count_f (lat avg) navg ;;
  a_lon <- Partial.div_count_f (lon avg) navg ;;
  a_alt <- Partial.div_count_f (alt avg) navg ;;
  a_today <- Partial.div_count_i (todaySecs avg) navg ;;
  a_nsats <- Partial.div_count_i (nsats avg) navg ;;
  let hh := CInt.div a_today 3600 in
  let mm := CInt.div (CInt.sub a_today (CInt.mul hh 3600)) 60 in
  let ss := CInt.rem a_today 60 in
  let '(hh', yr, mon, md) :=
    if 24 <=? hh
    then (CInt.sub hh 24, year raw, month raw, mday raw)
    else (hh, year avg, month avg, mday avg) in
  Some (mkGPS (mday avg) (month avg) (year avg) (hour avg) (minute avg)
              (second avg) a_today a_nsats a_tsecs a_lat a_lon a_alt,
        [Averaged (mkColumns a_tsecs md mon yr hh' mm ss a_lat a_lon a_alt
                             a_nsats) navg]).

Definition showAverage_checked (navg : Z) (raw avg : GPSDATA)
  : option (GPSDATA * list output) :=
  if navg <? 1 then Some (avg, []) else average_checked navg raw avg.

(** *** Reading the output and the input *)

(** The member counts of the averaged lines, in order. *)
Definition count_of (o : output) : list Z :=
  match o with Averaged _ n => [n] | _ => [] end.

Definition counts (out : list output) : list Z := flat_map count_of out.

(** The record that the loop body keeps from the buffer [str], read into
    a record that held [a]: [None] when the buffer is written as a
    comment. *)
Definition keep (minSats : Z) (a : GPSDATA) (str : line) : option GPSDATA :=
  if isdigit (first_char str) then
    let (n, r) := sscanf str a in
    if ((n =? 11) && negb (nsats r <? minSats))%bool
    then Some (set_year (CInt.add (year r) 2000) r)
    else None
  else None.

(** The calls of [updateAverage] that [main] makes for the records of one
    window: [navg] starts from 0. *)
Definition accumulate (rs : list GPSDATA) (avg0 : GPSDATA) : Z * GPSDATA :=
  fold_left (fun p r => updateAverage (fst p) r (snd p)) rs (0, avg0).

End Gps.

(* ================================================================== *)
(** ** hsensor.c *)

Module Sensor.

(** [SENSORDATA]: the sensor record of the C code. *)
Record SENSORDATA : Type := mkSensor {
  tsecs : float;
  tmpi : float;
  a1x : float;
  a1y : float;
  a1z : float;
  a2x : float;
  a2y : float;
  a2z : float;
  magx : float;
  magy : float;
  magz : float;
  gyrx : float;
  gyry : float;
  gyrz : float;
  humid : float;
  prss : float;
  tmpx : float;
  vbat : float
}.

(** The same operation on every field. *)
Definition lift1 (f : float -> float) (a : SENSORDATA) : SENSORDATA :=
  mkSensor
    (f (tsecs a)) (f (tmpi a)) (f (a1x a)) (f (a1y a)) (f (a1z a))
    (f (a2x a)) (f (a2y a)) (f (a2z a)) (f (magx a)) (f (magy a))
    (f (magz a)) (f (gyrx a)) (f (gyry a)) (f (gyrz a)) (f (humid a))
    (f (prss a)) (f (tmpx a)) (f (vbat a)).

Definition lift2 (f : float -> float -> float) (a b : SENSORDATA)
  : SENSORDATA :=
  mkSensor
    (f (tsecs a) (tsecs b)) (f (tmpi a) (tmpi b)) (f (a1x a) (a1x b))
    (f (a1y a) (a1y b)) (f (a1z a) (a1z b)) (f (a2x a) (a2x b))
    (f (a2y a) (a2y b)) (f (a2z a) (a2z b)) (f (magx a) (magx b))
    (f (magy a) (magy b)) (f (magz a) (magz b)) (f (gyrx a) (gyrx b))
    (f (gyry a) (gyry b)) (f (gyrz a) (gyrz b)) (f (humid a) (humid b))
    (f (prss a) (prss b)) (f (tmpx a) (tmpx b)) (f (vbat a) (vbat b)).

(** Both data lines are printed with the same format, from the eighteen
    fields.  The line of [showAverage] does not show [navg]; the event
    keeps it, as the divisor of the line, and [printed] forgets it. *)
Inductive output : Type :=
| Comment (text : line)
| Plain (r : SENSORDATA)
| Averaged (r : SENSORDATA) (navg : Z).

Inductive text : Type :=
| TComment (str : line)     (* "# %s" *)
| TData (r : SENSORDATA).   (* "%6.1f %5.1f %f ... %f\n" *)

Definition printed (o : output) : text :=
  match o with
  | Comment str => TComment str
  | Plain r => TData r
  | Averaged r _ => TData r
  end.

(** *** showAverage *)
Definition showAverage (navg : Z) (avg : SENSORDATA)
  : SENSORDATA * list output :=
  if navg <? 1 then (avg, [])
  else
    let avg' := lift1 (fun x => CFloat.div x (CFloat.of_int navg)) avg in
    (avg', [Averaged avg' navg]).

(** *** updateAverage *)
Definition updateAverage (navg : Z) (raw avg : SENSORDATA)
  : Z * SENSORDATA :=
  if navg <? 1 then (CInt.add 0 1, lift2 (fun _ x => x) avg raw)
  else (CInt.add navg 1, lift2 CFloat.add avg raw).

(** *** sscanf(str, "%f,%f,...,%f", ...) with eighteen conversions *)
Import Libc.
Local Open Scope char_scope.

Definition format : list directive :=
  [
   ConvF; Lit ","; ConvF; Lit ","; ConvF; Lit ","; ConvF; Lit ",";
   ConvF; Lit ","; ConvF; Lit ","; ConvF; Lit ","; ConvF; Lit ",";
   ConvF; Lit ","; ConvF; Lit ","; ConvF; Lit ","; ConvF; Lit ",";
   ConvF; Lit ","; ConvF; Lit ","; ConvF; Lit ","; ConvF; Lit ",";
   ConvF; Lit ","; ConvF].

Local Close Scope char_scope.

Definition set_float (f : float -> SENSORDATA -> SENSORDATA) (v : value)
           (r : SENSORDATA) : SENSORDATA :=
  match v with VFloat x => f x r | VInt _ => r end.

(** The pointer arguments of the call, in order. *)
Definition targets : list (value -> SENSORDATA -> SENSORDATA) :=
  map set_float
  [
    (fun x r =>
       mkSensor x (tmpi r) (a1x r) (a1y r) (a1z r) (a2x r) (a2y r)
       (a2z r) (magx r) (magy r) (magz r) (gyrx r) (gyry r) (gyrz r)
       (humid r) (prss r) (tmpx r) (vbat r));
    (fun x r =>
       mkSensor (tsecs r) x (a1x r) (a1y r) (a1z r) (a2x r) (a2y r)
       (a2z r) (magx r) (magy r) (magz r) (gyrx r) (gyry r) (gyrz r)
       (humid r) (prss r) (tmpx r) (vbat r));
    (fun x r =>
       mkSensor (tsecs r) (tmpi r) x (a1y r) (a1z r) (a2x r) (a2y r)
       (a2z r) (magx r) (magy r) (magz r) (gyrx r) (gyry r) (gyrz r)
       (humid r) (prss r) (tmpx r) (vbat r));
    (fun x r =>
       mkSensor (tsecs r) (tmpi r) (a1x r) x (a1z r) (a2x r) (a2y r)
       (a2z r) (magx r) (magy r) (magz r) (gyrx r) (gyry r) (gyrz r)
       (humid r) (prss r) (tmpx r) (vbat r));
    (fun x r =>
       mkSensor (tsecs r) (tmpi r) (a1x r) (a1y r) x (a2x r) (a2y r)
       (a2z r) (magx r) (magy r) (magz r) (gyrx r) (gyry r) (gyrz r)
       (humid r) (prss r) (tmpx r) (vbat r));
    (fun x r =>
       mkSensor (tsecs r) (tmpi r) (a1x r) (a1y r) (a1z r) x (a2y r)
       (a2z r) (magx r) (magy r) (magz r) (gyrx r) (gyry r) (gyrz r)
       (humid r) (prss r) (tmpx r) (vbat r));
    (fun x r =>
       mkSensor (tsecs r) (tmpi r) (a1x r) (a1y r) (a1z r) (a2x r) x
       (a2z r) (magx r) (magy r) (magz r) (gyrx r) (gyry r) (gyrz r)
       (humid r) (prss r) (tmpx r) (vbat r));
    (fun x r =>
       mkSensor (tsecs r) (tmpi r) (a1x r) (a1y r) (a1z r) (a2x r)
       (a2y r) x (magx r) (magy r) (magz r) (gyrx r) (gyry r) (gyrz r)
       (humid r) (prss r) (tmpx r) (vbat r));
    (fun x r =>
       mkSensor (tsecs r) (tmpi r) (a1x r) (a1y r) (a1z r) (a2x r)
       (a2y r) (a2z r) x (magy r) (magz r) (gyrx r) (gyry r) (gyrz r)
       (humid r) (prss r) (tmpx r) (vbat r));
    (fun x r =>
       mkSensor (tsecs r) (tmpi r) (a1x r) (a1y r) (a1z r) (a2x r)
       (a2y r) (a2z r) (magx r) x (magz r) (gyrx r) (gyry r) (gyrz r)
       (humid r) (prss r) (tmpx r) (vbat r));
    (fun x r =>
       mkSensor (tsecs r) (tmpi r) (a1x r) (a1y r) (a1z r) (a2x r)
       (a2y r) (a2z r) (magx r) (magy r) x (gyrx r) (gyry r) (gyrz r)
       (humid r) (prss r) (tmpx r) (vbat r));
    (fun x r =>
       mkSensor (tsecs r) (tmpi r) (a1x r) (a1y r) (a1z r) (a2x r)
       (a2y r) (a2z r) (magx r) (magy r) (magz r) x (gyry r) (gyrz r)
       (humid r) (prss r) (tmpx r) (vbat r));
    (fun x r =>
       mkSensor (tsecs r) (tmpi r) (a1x r) (a1y r) (a1z r) (a2x r)
       (a2y r) (a2z r) (magx r) (magy r) (magz r) (gyrx r) x (gyrz r)
       (humid r) (prss r) (tmpx r) (vbat r));
    (fun x r =>
       mkSensor (tsecs r) (tmpi r) (a1x r) (a1y r) (a1z r) (a2x r)
       (a2y r) (a2z r) (magx r) (magy r) (magz r) (gyrx r) (gyry r) x
       (humid r) (prss r) (tmpx r) (vbat r));
    (fun x r =>
       mkSensor (tsecs r) (tmpi r) (a1x r) (a1y r) (a1z r) (a2x r)
       (a2y r) (a2z r) (magx r) (magy r) (magz r) (gyrx r) (gyry r)
       (gyrz r) x (prss r) (tmpx r) (vbat r));
    (fun x r =>
       mkSensor (tsecs r) (tmpi r) (a1x r) (a1y r) (a1z r) (a2x r)
       (a2y r) (a2z r) (magx r) (magy r) (magz r) (gyrx r) (gyry r)
       (gyrz r) (humid r) x (tmpx r) (vbat r));
    (fun x r =>
       mkSensor (tsecs r) (tmpi r) (a1x r) (a1y r) (a1z r) (a2x r)
       (a2y r) (a2z r) (magx r) (magy r) (magz r) (gyrx r) (gyry r)
       (gyrz r) (humid r) (prss r) x (vbat r));
    (fun x r =>
       mkSensor (tsecs r) (tmpi r) (a1x r) (a1y r) (a1z r) (a2x r)
       (a2y r) (a2z r) (magx r) (magy r) (magz r) (gyrx r) (gyry r)
       (gyrz r) (humid r) (prss r) (tmpx r) x) ].

Fixpoint store (ts : list (value -> SENSORDATA -> SENSORDATA))
         (vs : list value) (r : SENSORDATA) : SENSORDATA :=
  match ts, vs with
  | t :: ts', v :: vs' => store ts' vs' (t v r)
  | _, _ => r
  end.

Definition sscanf (str : line) (raw : SENSORDATA) : Z * SENSORDATA :=
  let vs := scan_directives format str in
  (Z.of_nat (List.length vs), store targets vs raw).

(** *** main *)
Record state : Type := mkState {
  raw : SENSORDATA;
  avg : SENSORDATA;
  navg : Z;
  t0 : float
}.

Definition first_char (str : line) : ascii := hd Ascii.zero str.

Definition observe (avgSecs : float) (st : state) (raw1 : SENSORDATA)
  : state * list output :=
  if CFloat.leb avgSecs CFloat.zero then
    (mkState raw1 (avg st) (navg st) (t0 st), [Plain raw1])
  else if (CFloat.ltb avgSecs (CFloat.sub (tsecs raw1) (t0 st))
           || CFloat.ltb (t0 st) CFloat.zero)%bool then
    let (avg1, out) := showAverage (navg st) (avg st) in
    let (navg1, avg2) := updateAverage 0 raw1 avg1 in
    (mkState raw1 avg2 navg1 (tsecs raw1), out)
  else
    let (navg1, avg1) := updateAverage (navg st) raw1 (avg st) in
    (mkState raw1 avg1 navg1 (t0 st), []).

Definition step (avgSecs : float) (st : state) (str : line)
  : state * list output :=
  if negb (isdigit (first_char str)) then (st, [Comment (c_string str)])
  else
    let (n, raw1) := sscanf str (raw st) in
    if negb (n =? 18) then
      (mkState raw1 (avg st) (navg st) (t0 st), [Comment (c_string str)])
    else observe avgSecs st raw1.

Definition loop (avgSecs : float)
  : state -> list line -> state * list output :=
  while_fgets (step avgSecs).

Definition init (raw0 avg0 : SENSORDATA) : state :=
  mkState raw0 avg0 0 (CFloat.of_int (-1)).

Definition final_flush (st : state) : list output :=
  snd (showAverage (navg st) (avg st)).

Definition process (avgSecs : float) (raw0 avg0 : SENSORDATA)
           (lines : list line) : list output :=
  let (st, out) := loop avgSecs (init raw0 avg0) lines in
  out ++ final_flush st.

Definition main (avgSecs : float) (raw0 avg0 : SENSORDATA)
           (file : list ascii) : list output :=
  process avgSecs raw0 avg0 (fgets_all 256 file).

(** *** Checked showAverage: the divisions by [navg] are partial. *)
Definition average_checked (navg : Z) (avg : SENSORDATA)
  : option (SENSORDATA * list output) :=
  v_tsecs <- Partial.div_count_f (tsecs avg) navg ;;
  v_tmpi <- Partial.div_count_f (tmpi avg) navg ;;
  v_a1x <- Partial.div_count_f (a1x avg) navg ;;
  v_a1y <- Partial.div_count_f (a1y avg) navg ;;
  v_a1z <- Partial.div_count_f (a1z avg) navg ;;
  v_a2x <- Partial.div_count_f (a2x avg) navg ;;
  v_a2y <- Partial.div_count_f (a2y avg) navg ;;
  v_a2z <- Partial.div_count_f (a2z avg) navg ;;
  v_magx <- Partial.div_count_f (magx avg) navg ;;
  v_magy <- Partial.div_count_f (magy avg) navg ;;
  v_magz <- Partial.div_count_f (magz avg) navg ;;
  v_gyrx <- Partial.div_count_f (gyrx avg) navg ;;
  v_gyry <- Partial.div_count_f (gyry avg) navg ;;
  v_gyrz <- Partial.div_count_f (gyrz avg) navg ;;
  v_humid <- Partial.div_count_f (humid avg) navg ;;
  v_prss <- Partial.div_count_f (prss avg) navg ;;
  v_tmpx <- Partial.div_count_f (tmpx avg) navg ;;
  v_vbat <- Partial.div_count_f (vbat avg) navg ;;
  let avg' :=
    mkSensor
      v_tsecs v_tmpi v_a1x v_a1y v_a1z v_a2x v_a2y v_a2z v_magx v_magy
      v_magz v_gyrx v_gyry v_gyrz v_humid v_prss v_tmpx v_vbat in
  Some (avg', [Averaged avg' navg]).

Definition showAverage_checked (navg : Z) (avg : SENSORDATA)
  : option (SENSORDATA * list output) :=
  if navg <? 1 then Some (avg, []) else average_checked navg avg.

(** *** Reading the output and the input *)

(** The number of records behind each averaged line, in order. *)
Definition count_of (o : output) : list Z :=
  match o with Averaged _ n => [n] | _ => [] end.

Definition counts (out : list output) : list Z := flat_map count_of out.

Definition keep (a : SENSORDATA) (str : line) : option SENSORDATA :=
  if isdigit (first_char str) then
    let (n, r) := sscanf str a in
    if n =? 18 then Some r else None
  else None.

End Sensor.

(* ================================================================== *)
(** ** The specification's wording, for comparison with the code *)

Module Spec.

(** Windows of the time axis, after section 4.1 and property P4: the first
    record opens a window; a record whose elapsed seconds exceed the
    window start by more than the window length closes the open window and
    opens the next one; any other record joins the open window; the end
    of input closes the open window.  [cur] holds the open window, latest
    record first. *)
Fixpoint group (len start : float) (cur : list float) (ts : list float)
  : list (list float) :=
  match ts with
  | [] => [rev cur]
  | t :: ts' =>
      if CFloat.ltb len (CFloat.sub t start)
      then rev cur :: group len t [t] ts'
      else group len start (t :: cur) ts'
  end.

Definition windows (len : float) (ts : list float) : list (list float) :=
  match ts with
  | [] => []
  | t :: ts' => group len t [t] ts'
  end.

(** The time-of-day sum of a window, after the accumulation rule of
    section 4.1 as it is worded: the reference hour of the rollover test
    is the raw hour of the record most recently added. *)
Definition effective_hour (reference h : Z) : Z :=
  if h <? reference then h + 24 else h.

Fixpoint timeOfDaySum_from (previous : Z) (sum : Z) (hms : list (Z * Z * Z))
  : Z :=
  match hms with
  | [] => sum
  | (h, m, s) :: rest =>
      timeOfDaySum_from h
        (sum + (effective_hour previous h * 3600 + m * 60 + s)) rest
  end.

Definition timeOfDaySum_previous_hour (hms : list (Z * Z * Z)) : Z :=
  match hms with
  | [] => 0
  | (h, m, s) :: rest => timeOfDaySum_from h (h * 3600 + m * 60 + s) rest
  end.

End Spec.

(* ================================================================== *)
(** ** Reading a run

    Definitions used to state the properties: the elapsed seconds of the
    records that a run keeps, the sizes of windows, the line that a buffer
    gives without averaging. *)

Definition not_negative (x : float) : Prop := CFloat.ltb x CFloat.zero = false.


(** States reached from a digit: the sign is plus and the item is a decimal
    or hexadecimal number. *)
Definition unsigned_state (q : Libc.fstate) : Prop :=
  match q with
  | Libc.FZero neg | Libc.FInt neg _ | Libc.FFrac neg _ _ _
  | Libc.FExp neg _ _ | Libc.FExpSign neg _ _ _ | Libc.FExpDigits neg _ _ _ _
  | Libc.FHex neg | Libc.FHexInt neg _ | Libc.FHexFrac neg _ _ _
  | Libc.FBin neg _ _ | Libc.FBinSign neg _ _ _
  | Libc.FBinDigits neg _ _ _ _ => neg = false
  | _ => False
  end.

Definition sizes (ws : list (list float)) : list Z :=
  map (fun w => Z.of_nat (List.length w)) ws.

Definition elapsed_list (elapsed_of : line -> option float) (lines : list line)
  : list float :=
  flat_map (fun str => match elapsed_of str with Some t => [t] | None => [] end)
           lines.

Definition flushed (n : Z) : list Z := if n <? 1 then [] else [n].

Definition gps_elapsed_of (minSats : Z) (a : Gps.GPSDATA) (str : line)
  : option float :=
  option_map Gps.tsecs (Gps.keep minSats a str).

Definition gps_elapsed (minSats : Z) (a : Gps.GPSDATA) (lines : list line)
  : list float :=
  elapsed_list (gps_elapsed_of minSats a) lines.

Definition sensor_elapsed_of (a : Sensor.SENSORDATA) (str : line)
  : option float :=
  option_map Sensor.tsecs (Sensor.keep a str).

Definition sensor_elapsed (a : Sensor.SENSORDATA) (lines : list line)
  : list float :=
  elapsed_list (sensor_elapsed_of a) lines.

(** What a buffer gives when nothing is averaged: the columns of its record,
    or the text of the buffer as a comment. *)
Definition gps_plain (minSats : Z) (a : Gps.GPSDATA) (str : line) : Gps.output :=
  match Gps.keep minSats a str with
  | Some r => Gps.Plain (Gps.columns_of r)
  | None => Gps.Comment (Libc.c_string str)
  end.

Definition sensor_plain (a : Sensor.SENSORDATA) (str : line) : Sensor.output :=
  match Sensor.keep a str with
  | Some r => Sensor.Plain r
  | None => Sensor.Comment (Libc.c_string str)
  end.

(** A text file as lines: each line is given without the newline that ends
    it.  A line is short when [fgets(str, 256, in)] returns it whole, with
    its newline: it holds 254 characters at most. *)
Definition with_newline (b : line) : line := b ++ [Libc.newline].

Definition text_lines (bodies : list line) : list ascii :=
  List.concat (map with_newline bodies).

Definition short_line (b : line) : Prop :=
  ~ In Libc.newline b /\ (List.length b < 255)%nat.

(** The rest of a run, from the local variables [st] of [main]: the loop on
    the buffers left and the call of [showAverage] after it. *)
Definition gps_resume (avgSecs : float) (minSats : Z) (st : Gps.state)
           (lines : list line) : list Gps.output :=
  let (st', out) := Gps.loop avgSecs minSats st lines in
  out ++ Gps.final_flush st'.

Definition sensor_resume (avgSecs : float) (st : Sensor.state)
           (lines : list line) : list Sensor.output :=
  let (st', out) := Sensor.loop avgSecs st lines in
  out ++ Sensor.final_flush st'.

(* ================================================================== *)
(** ** Sample data *)

Module Sample.

Definition buffer (s : string) : line :=
  list_ascii_of_string s ++ [Libc.newline].

Definition ten : float := CFloat.of_int 10.

Definition gps_blank : Gps.GPSDATA :=
  Gps.mkGPS 0 0 0 0 0 0 0 0 CFloat.zero CFloat.zero CFloat.zero CFloat.zero.

Definition sensor_blank : Sensor.SENSORDATA :=
  Sensor.lift1 (fun _ => CFloat.zero)
    (Sensor.mkSensor CFloat.zero CFloat.zero CFloat.zero CFloat.zero
       CFloat.zero CFloat.zero CFloat.zero CFloat.zero CFloat.zero
       CFloat.zero CFloat.zero CFloat.zero CFloat.zero CFloat.zero
       CFloat.zero CFloat.zero CFloat.zero CFloat.zero).

(** A GPS record that holds only a date and a time. *)
Definition at_time (d mo y h mi s : Z) : Gps.GPSDATA :=
  Gps.mkGPS d mo y h mi s 0 8 CFloat.zero CFloat.zero CFloat.zero CFloat.zero.

(** Three fixes across midnight, one second apart or two. *)
Definition midnight : list line :=
  [ buffer "1.0,31/12/23,23:59:58,10.0000000,20.0000000,5.0,08";
    buffer "2.0,31/12/23,23:59:59,10.0000000,20.0000000,5.0,08";
    buffer "4.0,01/01/24,00:00:01,10.0000000,20.0000000,5.0,08" ].

(** Two fixes across midnight with eight satellites. *)
Definition two_fixes : list line :=
  [ buffer "1.0,31/12/23,23:59:59,10.0,20.0,5.0,08";
    buffer "2.0,01/01/24,00:00:01,10.0,20.0,5.0,08" ].

(** A fix of the next day with two satellites. *)
Definition weak_fix : line :=
  buffer "3.0,02/01/24,00:00:02,10.0,20.0,5.0,02".

Definition sensor_line : line :=
  buffer "1,2,3,4,5,6,7,8,9,10,11,12,13,14,15,16,17,18".

(** Eighteen fields, the last one [0]. *)
Definition sensor_zero_last : line :=
  list_ascii_of_string "1,2,3,4,5,6,7,8,9,10,11,12,13,14,15,16,17,0".

End Sample.

Module Run.

Import Sample.

(** A GPS record with a time axis value, a date and a time. *)
Definition fix_at (t d mo y h mi s : Z) : Gps.GPSDATA :=
  Gps.mkGPS d mo y h mi s 0 8 (CFloat.of_int t) CFloat.zero CFloat.zero
            CFloat.zero.

(** [midnight] and a fix sixteen seconds later. *)
Definition two_windows : list line :=
  midnight ++ [buffer "20.0,01/01/24,00:00:17,10.0000000,20.0000000,5.0,08"].

Definition gps_field_line : line :=
  list_ascii_of_string "1.0,31/12/23,23:59:58,10.0000000,20.0000000,5.0,08".

(** Lines without their newline: a header, two more fields, a word, a
    comment of 255 characters followed by the fields of a fix, and a comment
    with a NUL character in it. *)
Definition header : line := list_ascii_of_string "Time,Date,UTC,Lat,Lon".
Definition long_comment : line := repeat "#"%char 255 ++ gps_field_line.
Definition cut_comment : line := ["a"; "b"; Ascii.zero; "c"; "d"]%char.

Definition record_of_line (str : line) : Gps.GPSDATA :=
  match Gps.keep 0 gps_blank str with
  | Some r => r
  | None => gps_blank
  end.


(** Three records across midnight and the three turns of the loop. *)
Definition r1 : Gps.GPSDATA := fix_at 1 31 12 2023 23 59 58.
Definition r2 : Gps.GPSDATA := fix_at 2 31 12 2023 23 59 59.
Definition r3 : Gps.GPSDATA := fix_at 4 1 1 2024 0 0 1.

Definition s1 : Gps.state * list Gps.output :=
  Gps.observe (CFloat.of_int 10) (Gps.init gps_blank gps_blank) r1.
Definition s2 : Gps.state * list Gps.output :=
  Gps.observe (CFloat.of_int 10) (fst s1) r2.
Definition s3 : Gps.state * list Gps.output :=
  Gps.observe (CFloat.of_int 10) (fst s2) r3.

(** The sums of the three records. *)
Definition sums : Gps.GPSDATA :=
  Gps.mkGPS 31 12 2023 23 59 58 259198 24 (CFloat.of_int 7) CFloat.zero
            CFloat.zero CFloat.zero.

(** A file of two fixes, a weak fix, a header and a broken line. *)
Definition mixed : list line :=
  buffer "Time,Date,UTC,Lat,Lon,Alt,Sats" :: two_fixes
  ++ [weak_fix; buffer "5.0,02/01/24"].

End Run.

(* ================================================================== *)
(** ** Data lines, comments and windows of records

    Definitions used to state further properties of the two loops. *)

Definition starts_with_digit (str : line) : bool :=
  Libc.isdigit (hd Ascii.zero str).

(** The texts of the comment lines of an output, in order, and the output
    without its comment lines. *)
Definition gps_comments (out : list Gps.output) : list line :=
  flat_map (fun o => match o with Gps.Comment str => [str] | _ => [] end) out.

Definition gps_data (out : list Gps.output) : list Gps.output :=
  filter (fun o => match o with Gps.Comment _ => false | _ => true end) out.

Definition sensor_comments (out : list Sensor.output) : list line :=
  flat_map (fun o => match o with Sensor.Comment str => [str] | _ => [] end)
           out.

Definition sensor_data (out : list Sensor.output) : list Sensor.output :=
  filter (fun o => match o with Sensor.Comment _ => false | _ => true end) out.

(** Whether a buffer is written as a comment. *)
Definition gps_dropped (minSats : Z) (a : Gps.GPSDATA) (str : line) : bool :=
  match Gps.keep minSats a str with Some _ => false | None => true end.

Definition sensor_dropped (a : Sensor.SENSORDATA) (str : line) : bool :=
  match Sensor.keep a str with Some _ => false | None => true end.

(** The records kept from the buffers of a run, in order. *)
Definition gps_records (minSats : Z) (a : Gps.GPSDATA) (lines : list line)
  : list Gps.GPSDATA :=
  flat_map (fun str => match Gps.keep minSats a str with
                       | Some r => [r]
                       | None => []
                       end) lines.

Definition sensor_records (a : Sensor.SENSORDATA) (lines : list line)
  : list Sensor.SENSORDATA :=
  flat_map (fun str => match Sensor.keep a str with
                       | Some r => [r]
                       | None => []
                       end) lines.

(** Windows of records: the rule of [Spec.group] on records that carry
    their elapsed seconds [key].  The open window is [first :: rev more];
    its start is the elapsed seconds of [first]. *)
Fixpoint record_group {R : Type} (key : R -> float) (len : float) (first : R)
         (more : list R) (rs : list R) : list (list R) :=
  match rs with
  | [] => [first :: rev more]
  | r :: rs' =>
      if CFloat.ltb len (CFloat.sub (key r) (key first))
      then (first :: rev more) :: record_group key len r [] rs'
      else record_group key len first (r :: more) rs'
  end.

Definition record_windows {R : Type} (key : R -> float) (len : float)
           (rs : list R) : list (list R) :=
  match rs with
  | [] => []
  | r :: rs' => record_group key len r [] rs'
  end.

(** The field-wise sum of a window of sensor records, added in order of
    arrival, and the averaged line of the window. *)
Definition sensor_sum (first : Sensor.SENSORDATA)
           (others : list Sensor.SENSORDATA) : Sensor.SENSORDATA :=
  fold_left (Sensor.lift2 CFloat.add) others first.

Definition sensor_mean_line (w : list Sensor.SENSORDATA) : list Sensor.output :=
  match w with
  | [] => []
  | r :: rs =>
      let n := Z.of_nat (List.length w) in
      [Sensor.Averaged
         (Sensor.lift1 (fun x => CFloat.div x (CFloat.of_int n))
                       (sensor_sum r rs)) n]
  end.

(** The averaged line of a window of GPS records: the calls of
    [updateAverage] for its records, then the call of [showAverage], which
    also reads the record [trigger] that [raw] holds at that time. *)
Definition gps_window_line (w : list Gps.GPSDATA) (trigger : Gps.GPSDATA)
  : list Gps.output :=
  match w with
  | [] => []
  | r :: _ =>
      snd (Gps.showAverage (fst (Gps.accumulate w r)) trigger
                           (snd (Gps.accumulate w r)))
  end.

(** The record that [raw] holds when the line of a window is printed: the
    first record of the next window, or [last] after the last window. *)
Definition next_trigger (ws : list (list Gps.GPSDATA)) (last : Gps.GPSDATA)
  : Gps.GPSDATA :=
  match ws with
  | (r :: _) :: _ => r
  | _ => last
  end.

Fixpoint gps_window_lines (ws : list (list Gps.GPSDATA)) (last : Gps.GPSDATA)
  : list Gps.output :=
  match ws with
  | [] => []
  | w :: ws' =>
      gps_window_line w (next_trigger ws' last) ++ gps_window_lines ws' last
  end.

(** What [raw] holds after one turn of the loop on the buffer [str], and
    after the loop. *)
Definition gps_scanned (minSats : Z) (raw : Gps.GPSDATA) (str : line)
  : Gps.GPSDATA :=
  if Libc.isdigit (Gps.first_char str) then
    let (n, raw1) := Gps.sscanf str raw in
    if ((n =? 11) && negb (Gps.nsats raw1 <? minSats))%bool
    then Gps.set_year (CInt.add (Gps.year raw1) 2000) raw1
    else raw1
  else raw.

Definition gps_last_raw (minSats : Z) (raw0 : Gps.GPSDATA) (lines : list line)
  : Gps.GPSDATA :=
  fold_left (gps_scanned minSats) lines raw0.

(** A window in which no record is later than the first one by more than
    [len]. *)
Definition window_within {R : Type} (key : R -> float) (len : float)
           (w : list R) : Prop :=
  match w with
  | [] => False
  | first :: more =>
      Forall (fun r => CFloat.ltb len (CFloat.sub (key r) (key first)) = false)
             more
  end.

(** A data line that shows a clock time. *)
Definition gps_clock_line (o : Gps.output) : Prop :=
  match o with
  | Gps.Comment _ => True
  | Gps.Plain _ => False
  | Gps.Averaged c n =>
      1 <= n /\ 0 <= Gps.c_hour c < 24 /\ 0 <= Gps.c_minute c < 60 /\
      0 <= Gps.c_second c < 60
  end.

Definition gps_averaged_only (o : Gps.output) : Prop :=
  match o with
  | Gps.Comment _ => True
  | Gps.Plain _ => False
  | Gps.Averaged _ n => 1 <= n
  end.

Definition sensor_averaged_only (o : Sensor.output) : Prop :=
  match o with
  | Sensor.Comment _ => True
  | Sensor.Plain _ => False
  | Sensor.Averaged _ n => 1 <= n
  end.

(** A clock time of the day. *)
Definition valid_clock (r : Gps.GPSDATA) : Prop :=
  0 <= Gps.hour r < 24 /\ 0 <= Gps.minute r < 60 /\ 0 <= Gps.second r < 60.

(** The seconds of the record [r] since the midnight before a record of
    hour [h1]: a day is added when the hour of [r] is below [h1]. *)
Definition seconds_from (h1 : Z) (r : Gps.GPSDATA) : Z :=
  (if Gps.hour r <? h1 then Gps.hour r + 24 else Gps.hour r) * 3600
  + Gps.minute r * 60 + Gps.second r.

Definition total_seconds (h1 : Z) (rs : list Gps.GPSDATA) : Z :=
  fold_right Z.add 0 (map (seconds_from h1) rs).

(* ================================================================== *)
(** ** Tactics *)

Ltac each_char c :=
  destruct c as [[] [] [] [] [] [] [] []]; vm_compute; try discriminate;
  repeat split; try reflexivity; try congruence.

(** One directive of the format, in a hypothesis [H] that says that every
    conversion succeeded. *)
Ltac scan_step H :=
  match type of H with
  | context [match Libc.scan_float ?s with _ => _ end] =>
      destruct (Libc.scan_float s) as [[? ?]|] eqn:?;
      [|simpl in H; discriminate H]
  | context [match Libc.scan_int ?s with _ => _ end] =>
      destruct (Libc.scan_int s) as [[? ?]|] eqn:?;
      [|simpl in H; discriminate H]
  | context [match ?s with [] => _ | _ :: _ => _ end] =>
      destruct s; [simpl in H; discriminate H|]
  | context [if Ascii.eqb ?a ?b then _ else _] =>
      destruct (Ascii.eqb a b) eqn:?; [|simpl in H; discriminate H]
  end.

(* ================================================================== *)
(** * Properties *)

(** ** Machine integers *)

Lemma wrap32_id (z : Z) : CInt.in_range z -> CInt.wrap32 z = z.
Proof.
  unfold CInt.in_range, CInt.wrap32. intros H.
  rewrite Z.mod_small by lia. lia.
Qed.

Lemma add_succ (n : Z) : 0 <= n < 2 ^ 31 - 1 -> CInt.add n 1 = n + 1.
Proof.
  intros H. unfold CInt.add. apply wrap32_id. unfold CInt.in_range. lia.
Qed.

(** ** Floats: the sign of a rounded number *)

Lemma round_aux_not_negative (m e : Z) (l : location) :
  not_negative (binary_round_aux CFloat.prec CFloat.emax false m e l).
Proof.
  unfold not_negative, binary_round_aux.
  destruct (shr_fexp _ _ m e l) as [mrs1 e1].
  destruct (shr_fexp _ _ _ e1 loc_Exact) as [mrs2 e2].
  destruct (shr_m mrs2); [reflexivity | | reflexivity].
  destruct (e2 <=? _); reflexivity.
Qed.

Lemma round_not_negative (m : positive) (e : Z) :
  not_negative (binary_round CFloat.prec CFloat.emax false m e).
Proof.
  unfold binary_round. destruct (shl_align _ _ _). apply round_aux_not_negative.
Qed.

Lemma of_decimal_not_negative (m : N) (e : Z) :
  not_negative (CFloat.of_decimal false m e).
Proof.
  unfold CFloat.of_decimal. destruct m as [|p]; [reflexivity|].
  destruct e as [|k|k]; try apply round_not_negative.
  unfold SFdiv. destruct (SFdiv_core_binary _ _ _ _ _ _) as [[mz ez] lz].
  apply round_aux_not_negative.
Qed.

Lemma of_binary_not_negative (m : N) (e : Z) :
  not_negative (CFloat.of_binary false m e).
Proof.
  unfold CFloat.of_binary. destruct m; [reflexivity|]. apply round_not_negative.
Qed.

(** ** Floats: an integer other than zero converts to a float other than
    zero

    A right shift by fewer places than the mantissa has digits leaves a
    mantissa above zero; rounding shifts by no more than that when the
    exponent is at least the least one, -149. *)

Lemma shr_1_digits (r : shr_record) (p : positive) :
  shr_m r = Zpos p -> (1 < digits2_pos p)%positive ->
  exists p', shr_m (shr_1 r) = Zpos p' /\
             Zpos (digits2_pos p') = Zpos (digits2_pos p) - 1.
Proof.
  destruct r as [m b s]. cbn [shr_m]. intros -> H.
  destruct p as [p|p|]; cbn [shr_1 shr_m digits2_pos] in *.
  - exists p. split; [reflexivity | lia].
  - exists p. split; [reflexivity | lia].
  - lia.
Qed.

Lemma iter_shr_digits (k : positive) :
  forall (r : shr_record) (p : positive),
    shr_m r = Zpos p -> Zpos k < Zpos (digits2_pos p) ->
    exists p', shr_m (iter_pos shr_1 k r) = Zpos p' /\
               Zpos (digits2_pos p') = Zpos (digits2_pos p) - Zpos k.
Proof.
  induction k as [k IH|k IH|]; intros r p Hm Hk; cbn [iter_pos].
  - assert (H0 : (1 < digits2_pos p)%positive) by lia.
    destruct (shr_1_digits r p Hm H0) as (p1 & H1 & D1).
    assert (K1 : Zpos k < Zpos (digits2_pos p1)) by lia.
    destruct (IH _ p1 H1 K1) as (p2 & H2 & D2).
    assert (K2 : Zpos k < Zpos (digits2_pos p2)) by lia.
    destruct (IH _ p2 H2 K2) as (p3 & H3 & D3).
    exists p3. split; [exact H3 | lia].
  - assert (K1 : Zpos k < Zpos (digits2_pos p)) by lia.
    destruct (IH _ p Hm K1) as (p2 & H2 & D2).
    assert (K2 : Zpos k < Zpos (digits2_pos p2)) by lia.
    destruct (IH _ p2 H2 K2) as (p3 & H3 & D3).
    exists p3. split; [exact H3 | lia].
  - apply shr_1_digits; [exact Hm | lia].
Qed.

Lemma shr_record_of_loc_m (m : Z) (l : location) :
  shr_m (shr_record_of_loc m l) = m.
Proof. destruct l as [|[]]; reflexivity. Qed.

Lemma shr_fexp_positive (p : positive) (e : Z) (l : location) :
  -149 <= e ->
  exists p', shr_m (fst (shr_fexp CFloat.prec CFloat.emax (Zpos p) e l)) = Zpos p' /\
             -149 <= snd (shr_fexp CFloat.prec CFloat.emax (Zpos p) e l).
Proof.
  intros He. unfold shr_fexp, shr.
  set (s := fexp CFloat.prec CFloat.emax (Zdigits2 (Zpos p) + e) - e).
  assert (Hs : s < Zpos (digits2_pos p)).
  { unfold s, fexp, emin, CFloat.prec, CFloat.emax. simpl Zdigits2. lia. }
  destruct s as [|k|k] eqn:Es; simpl fst; simpl snd.
  - exists p. split; [apply shr_record_of_loc_m | lia].
  - assert (Hk : Zpos k < Zpos (digits2_pos p)) by lia.
    destruct (iter_shr_digits k (shr_record_of_loc (Zpos p) l) p
                (shr_record_of_loc_m _ _) Hk) as (p' & H & _).
    exists p'. split; [exact H | lia].
  - exists p. split; [apply shr_record_of_loc_m | lia].
Qed.

Lemma round_aux_not_zero (s : bool) (p : positive) (e : Z) (l : location) :
  -149 <= e ->
  CFloat.is_zero (binary_round_aux CFloat.prec CFloat.emax s (Zpos p) e l) = false.
Proof.
  intros He. unfold binary_round_aux.
  destruct (shr_fexp_positive p e l He) as (p1 & H1 & E1).
  destruct (shr_fexp CFloat.prec CFloat.emax (Zpos p) e l) as [mrs1 e1]. simpl in H1, E1.
  rewrite H1.
  assert (Hr : exists p2, round_nearest_even (Zpos p1) (loc_of_shr_record mrs1)
                          = Zpos p2).
  { unfold round_nearest_even.
    destruct (loc_of_shr_record mrs1) as [|[]]; try (eexists; reflexivity).
    destruct (Z.even (Zpos p1)); eexists; reflexivity. }
  destruct Hr as (p2 & ->).
  destruct (shr_fexp_positive p2 e1 loc_Exact E1) as (p3 & H3 & _).
  destruct (shr_fexp CFloat.prec CFloat.emax (Zpos p2) e1 loc_Exact) as [mrs2 e2].
  simpl in H3. rewrite H3. destruct (e2 <=? CFloat.emax - CFloat.prec); reflexivity.
Qed.

(** [(float) n] is not zero when [n] is not. *)
Lemma of_int_not_zero (n : Z) : n <> 0 -> CFloat.is_zero (CFloat.of_int n) = false.
Proof.
  intros Hn. unfold CFloat.of_int, binary_normalize.
  destruct n as [|p|p]; [congruence| |]; unfold binary_round;
    (destruct (shl_align p 0 (fexp CFloat.prec CFloat.emax (Zpos (digits2_pos p) + 0)))
       as [mz ez] eqn:E;
     apply round_aux_not_zero;
     unfold shl_align in E;
     destruct (fexp CFloat.prec CFloat.emax (Zpos (digits2_pos p) + 0) - 0) eqn:E';
     injection E as <- <-; try lia;
     unfold fexp, emin, CFloat.prec, CFloat.emax; lia).
Qed.

(** ** Characters *)

Lemma isdigit_facts (c : ascii) :
  Libc.isdigit c = true ->
  Libc.isspace c = false /\ Ascii.eqb c "+" = false /\ Ascii.eqb c "-" = false /\
  Ascii.eqb c "." = false /\ Libc.is_letter "i" c = false /\
  Libc.is_letter "n" c = false.
Proof. each_char c. Qed.

(** [isdigit] holds of the ten ASCII characters 0 to 9 and of no other. *)
Lemma isdigit_iff (c : ascii) :
  Libc.isdigit c = true <->
  In c ["0"; "1"; "2"; "3"; "4"; "5"; "6"; "7"; "8"; "9"]%char.
Proof.
  split.
  - destruct c as [[] [] [] [] [] [] [] []]; vm_compute; try discriminate;
      intros _; tauto.
  - intros H. repeat (destruct H as [<- | H]; [reflexivity|]). destruct H.
Qed.


(** ** Conversions read no further than one character past their item *)

Section AutomatonFacts.
Context {Q V : Type}.
Variable next : Q -> ascii -> option Q.
Variable accept : Q -> option V.



(** An invariant of the states is kept along a run. *)
Lemma run_invariant (P : Q -> Prop) :
  (forall q c q', P q -> next q c = Some q' -> P q') ->
  forall (s : list ascii) (q : Q), P q -> P (fst (Libc.run next q s)).
Proof.
  intros Hstep. induction s as [|a s IH]; intros q Hq; simpl; [exact Hq|].
  destruct (next q a) as [q1|] eqn:E; [|exact Hq].
  apply IH. eapply Hstep; eauto.
Qed.
End AutomatonFacts.




Lemma fnext_unsigned (q : Libc.fstate) (c : ascii) (q' : Libc.fstate) :
  unsigned_state q -> Libc.fnext q c = Some q' -> unsigned_state q'.
Proof.
  destruct q; simpl; try contradiction; intros -> H;
    unfold Libc.fnext_int in H;
    repeat match type of H with
           | (if ?b then _ else _) = _ => destruct b
           | match ?o with Some _ => _ | None => _ end = _ => destruct o
           end;
    try discriminate; injection H as <-; reflexivity.
Qed.

Lemma faccept_unsigned (q : Libc.fstate) (x : float) :
  unsigned_state q -> Libc.faccept q = Some x -> not_negative x.
Proof.
  destruct q; simpl; try contradiction; intros -> H;
    repeat match type of H with
           | (if ?b then _ else _) = _ => destruct b
           end;
    try discriminate; injection H as <-;
    first [apply of_decimal_not_negative | apply of_binary_not_negative
          | reflexivity].
Qed.

(** A number that starts with a digit is not negative. *)
Lemma scan_float_digit (s : list ascii) (x : float) (rest : list ascii) :
  Libc.isdigit (hd Ascii.zero s) = true ->
  Libc.scan_float s = Some (x, rest) ->
  not_negative x.
Proof.
  destruct s as [|c s]; [discriminate|]. simpl. intros Hc.
  destruct (isdigit_facts c Hc) as (Hsp & Hplus & Hminus & Hdot & Hi & Hn).
  unfold Libc.scan_float, Libc.scan_from. simpl.
  rewrite Hsp, Hplus, Hminus. unfold Libc.fnext_body. rewrite Hc.
  assert (Hq : exists q1, (if Ascii.eqb c "0" then Some (Libc.FZero false)
                           else Some (Libc.FInt false (Libc.digit_val c)))
                          = Some q1 /\ unsigned_state q1).
  { destruct (Ascii.eqb c "0"); eexists; split; reflexivity. }
  destruct Hq as (q1 & -> & Hq1).
  pose proof (run_invariant Libc.fnext unsigned_state fnext_unsigned s q1 Hq1)
    as Hinv.
  destruct (Libc.run Libc.fnext q1 s) as [q rest']. simpl in Hinv.
  destruct (Libc.faccept q) as [y|] eqn:Hacc; [|discriminate].
  intros H. injection H as <- <-. eapply faccept_unsigned; eauto.
Qed.

(** ** The windows of a run

    The two converters share the control of the loop.  The section states
    what one turn of either loop does to the count [navg] and to the window
    start [t0], and derives that the averaged lines of a run are the windows
    of [Spec.windows], one line per window, in order. *)

Section Windowing.
Context {S O : Type}.
Variable step : S -> line -> S * list O.
Variable navg : S -> Z.
Variable t0 : S -> float.
Variable count_of : O -> list Z.
Variable elapsed_of : line -> option float.
Variable len : float.

Hypothesis step_skip : forall st str,
    elapsed_of str = None ->
    navg (fst (step st str)) = navg st /\
    t0 (fst (step st str)) = t0 st /\
    flat_map count_of (snd (step st str)) = [].

Hypothesis step_keep : forall st str t,
    elapsed_of str = Some t ->
    not_negative t /\
    if (CFloat.ltb len (CFloat.sub t (t0 st))
        || CFloat.ltb (t0 st) CFloat.zero)%bool
    then navg (fst (step st str)) = 1 /\
         t0 (fst (step st str)) = t /\
         flat_map count_of (snd (step st str)) = flushed (navg st)
    else navg (fst (step st str))
         = (if navg st <? 1 then 1 else CInt.add (navg st) 1) /\
         t0 (fst (step st str)) = t0 st /\
         flat_map count_of (snd (step st str)) = [].

Let run (st : S) (lines : list line) : list Z :=
  let (st', out) := while_fgets step st lines in
  flat_map count_of out ++ flushed (navg st').

Lemma run_cons (st : S) (str : line) (rest : list line) :
  run st (str :: rest)
  = flat_map count_of (snd (step st str)) ++ run (fst (step st str)) rest.
Proof.
  unfold run. simpl. destruct (step st str) as [st1 out1]. simpl.
  destruct (while_fgets step st1 rest) as [st2 out2].
  now rewrite flat_map_app, app_assoc.
Qed.

Lemma run_open (lines : list line) :
  forall (st : S) (cur : list float),
    navg st = Z.of_nat (List.length cur) ->
    cur <> [] ->
    not_negative (t0 st) ->
    Z.of_nat (List.length cur) + Z.of_nat (List.length lines) < 2 ^ 31 ->
    run st lines
    = sizes (Spec.group len (t0 st) cur (elapsed_list elapsed_of lines)).
Proof.
  induction lines as [|str rest IH]; intros st cur Hn Hcur Ht0 Hlen.
  - unfold run, flushed. simpl. rewrite Hn, length_rev.
    destruct cur; [congruence|]. simpl List.length in *.
    destruct (Z.ltb_spec (Z.of_nat (Datatypes.S (List.length cur))) 1);
      [lia | reflexivity].
  - rewrite run_cons. simpl elapsed_list. simpl List.length in Hlen.
    destruct (elapsed_of str) as [t|] eqn:E.
    + destruct (step_keep st str t E) as [Ht Hstep].
      unfold not_negative in Ht0. rewrite Ht0, orb_false_r in Hstep.
      simpl app. simpl Spec.group.
      destruct (CFloat.ltb len (CFloat.sub t (t0 st))).
      * destruct Hstep as (H1 & H2 & H3). rewrite H3.
        rewrite (IH _ [t]); try (rewrite ?H2; assumption);
          try (simpl List.length; lia); try discriminate.
        rewrite H2. unfold flushed, sizes. simpl. rewrite Hn, length_rev.
        destruct cur; [congruence|]. simpl List.length.
        destruct (Z.ltb_spec (Z.of_nat (Datatypes.S (List.length cur))) 1);
          [lia | reflexivity].
      * destruct Hstep as (H1 & H2 & H3). rewrite H3. simpl app.
        assert (Hpos : 1 <= navg st).
        { rewrite Hn. destruct cur; [congruence | simpl; lia]. }
        rewrite (IH _ (t :: cur)); try (rewrite ?H2; assumption);
          try (simpl List.length; lia); try discriminate.
        -- now rewrite H2.
        -- rewrite H1. destruct (Z.ltb_spec (navg st) 1); [lia|].
           rewrite add_succ by lia. simpl List.length. lia.
    + destruct (step_skip st str E) as (H1 & H2 & H3). rewrite H3.
      simpl app. rewrite (IH _ cur); try (rewrite ?H1, ?H2; assumption);
        try lia.
      now rewrite H2.
Qed.

Lemma run_closed (lines : list line) :
  forall (st : S),
    navg st = 0 ->
    CFloat.ltb (t0 st) CFloat.zero = true ->
    Z.of_nat (List.length lines) < 2 ^ 31 ->
    run st lines = sizes (Spec.windows len (elapsed_list elapsed_of lines)).
Proof.
  induction lines as [|str rest IH]; intros st Hn Ht0 Hlen.
  - unfold run, flushed. simpl. now rewrite Hn.
  - rewrite run_cons. simpl elapsed_list. simpl List.length in Hlen.
    destruct (elapsed_of str) as [t|] eqn:E.
    + destruct (step_keep st str t E) as [Ht Hstep].
      rewrite Ht0, orb_true_r in Hstep. destruct Hstep as (H1 & H2 & H3).
      rewrite H3, Hn. simpl.
      rewrite (run_open rest _ [t]); try (rewrite ?H2; assumption);
        try (simpl List.length; lia); try discriminate.
      now rewrite H2.
    + destruct (step_skip st str E) as (H1 & H2 & H3). rewrite H3.
      simpl. apply IH; try lia; congruence.
Qed.
End Windowing.

(** The windows of [Spec.group] share out the records: their sizes add up to
    the number of records. *)
Lemma group_total (len : float) (ts : list float) :
  forall (start : float) (cur : list float),
    fold_right Z.add 0 (sizes (Spec.group len start cur ts))
    = Z.of_nat (List.length cur) + Z.of_nat (List.length ts).
Proof.
  induction ts as [|t ts IH]; intros start cur; simpl.
  - rewrite length_rev. lia.
  - destruct (CFloat.ltb len (CFloat.sub t start)); simpl.
    + unfold sizes in IH. rewrite IH, length_rev. simpl List.length. lia.
    + rewrite IH. simpl List.length. lia.
Qed.

Lemma windows_total (len : float) (ts : list float) :
  fold_right Z.add 0 (sizes (Spec.windows len ts)) = Z.of_nat (List.length ts).
Proof.
  destruct ts as [|t ts]; [reflexivity|]. simpl Spec.windows.
  rewrite group_total. simpl List.length. lia.
Qed.

(** The windows are consecutive runs of the records, none empty. *)
Lemma group_concat (len : float) (ts : list float) :
  forall (start : float) (cur : list float),
    List.concat (Spec.group len start cur ts) = rev cur ++ ts.
Proof.
  induction ts as [|t ts IH]; intros start cur; simpl.
  - now rewrite app_nil_r.
  - destruct (CFloat.ltb len (CFloat.sub t start)); simpl.
    + now rewrite IH.
    + rewrite IH. simpl. now rewrite <- app_assoc.
Qed.

Lemma windows_concat (len : float) (ts : list float) :
  List.concat (Spec.windows len ts) = ts.
Proof.
  destruct ts as [|t ts]; [reflexivity|]. simpl Spec.windows.
  now rewrite group_concat.
Qed.

(** ** What sscanf leaves in the record *)

Lemma gps_scan_shape (str : line) :
  List.length (Libc.scan_directives Gps.format str) = 11%nat ->
  exists t d mo y h mi s la lo al ns rest,
    Libc.scan_directives Gps.format str
    = [Libc.VFloat t; Libc.VInt d; Libc.VInt mo; Libc.VInt y; Libc.VInt h;
       Libc.VInt mi; Libc.VInt s; Libc.VFloat la; Libc.VFloat lo;
       Libc.VFloat al; Libc.VInt ns]
    /\ Libc.scan_float str = Some (t, rest).
Proof.
  unfold Gps.format. cbn [Libc.scan_directives]. intros H.
  repeat scan_step H. repeat eexists.
Qed.

Lemma gps_sscanf_count (str : line) (a b : Gps.GPSDATA) :
  fst (Gps.sscanf str a) = fst (Gps.sscanf str b).
Proof. unfold Gps.sscanf. cbn [fst]. reflexivity. Qed.

(** After eleven conversions every field but [todaySecs] comes from the
    buffer. *)
Lemma gps_sscanf_full (str : line) (a : Gps.GPSDATA) :
  fst (Gps.sscanf str a) = 11 ->
  exists c rest,
    Libc.scan_float str = Some (Gps.c_tsecs c, rest) /\
    forall b, snd (Gps.sscanf str b)
              = Gps.mkGPS (Gps.c_mday c) (Gps.c_month c) (Gps.c_year c)
                          (Gps.c_hour c) (Gps.c_minute c) (Gps.c_second c)
                          (Gps.todaySecs b) (Gps.c_nsats c) (Gps.c_tsecs c)
                          (Gps.c_lat c) (Gps.c_lon c) (Gps.c_alt c).
Proof.
  unfold Gps.sscanf. cbn [fst snd]. intros H.
  destruct (gps_scan_shape str) as
    (t & d & mo & y & h & mi & s & la & lo & al & ns & rest & Hvs & Ht);
    [lia|].
  exists (Gps.mkColumns t d mo y h mi s la lo al ns), rest. split; [exact Ht|].
  intros b. rewrite Hvs. reflexivity.
Qed.

(** *** The loop body, read through [keep] *)

Lemma gps_step_keep (avgSecs : float) (minSats : Z) (st : Gps.state)
      (str : line) (r : Gps.GPSDATA) :
  Gps.keep minSats (Gps.raw st) str = Some r ->
  Gps.step avgSecs minSats st str = Gps.observe avgSecs st r.
Proof.
  unfold Gps.keep, Gps.step.
  destruct (Libc.isdigit (Gps.first_char str)); [|discriminate].
  destruct (Gps.sscanf str (Gps.raw st)) as [n raw1].
  destruct (n =? 11); [|discriminate].
  destruct (Gps.nsats raw1 <? minSats); [discriminate|]. cbn [negb andb].
  intros H; injection H as <-; reflexivity.
Qed.

Lemma gps_step_skip (avgSecs : float) (minSats : Z) (st : Gps.state)
      (str : line) :
  Gps.keep minSats (Gps.raw st) str = None ->
  exists raw1,
    Gps.step avgSecs minSats st str
    = (Gps.mkState raw1 (Gps.avg st) (Gps.navg st) (Gps.t0 st),
       [Gps.Comment (Libc.c_string str)]).
Proof.
  unfold Gps.keep, Gps.step. destruct st as [raw avg navg t0].
  cbn [Gps.raw Gps.avg Gps.navg Gps.t0].
  destruct (Libc.isdigit (Gps.first_char str));
    [|intros _; eexists; reflexivity].
  destruct (Gps.sscanf str raw) as [n raw1].
  destruct (n =? 11); [|intros _; eexists; reflexivity].
  destruct (Gps.nsats raw1 <? minSats); [|discriminate].
  intros _; eexists; reflexivity.
Qed.

(** Whether a buffer is kept, and the columns of the record kept, do not
    depend on what the record held before. *)
Lemma gps_keep_any (minSats : Z) (a b : Gps.GPSDATA) (str : line) :
  match Gps.keep minSats a str, Gps.keep minSats b str with
  | Some r, Some r' =>
      Gps.columns_of r = Gps.columns_of r' /\ not_negative (Gps.tsecs r)
  | None, None => True
  | _, _ => False
  end.
Proof.
  unfold Gps.keep.
  destruct (Libc.isdigit (Gps.first_char str)) eqn:Hd; [|exact I].
  pose proof (gps_sscanf_full str a) as Hfull.
  pose proof (gps_sscanf_count str a b) as Hcount.
  destruct (Gps.sscanf str a) as [n ra] eqn:Ea.
  destruct (Gps.sscanf str b) as [n' rb] eqn:Eb.
  cbn [fst] in Hcount. subst n'.
  cbn [fst] in Hfull.
  destruct (Z.eqb_spec n 11) as [->|Hn]; [|exact I]. simpl.
  destruct (Hfull eq_refl) as (c & rest & Ht & Hall).
  pose proof (Hall a) as Ha. pose proof (Hall b) as Hb.
  rewrite Ea in Ha. rewrite Eb in Hb. cbn [snd] in Ha, Hb. subst ra rb.
  cbn [Gps.nsats andb].
  destruct (Gps.c_nsats c <? minSats); cbn [negb]; [exact I|].
  split; [reflexivity|].
  eapply scan_float_digit; eauto.
Qed.

(** *** The GPS loop as an instance of [Windowing] *)

Lemma gps_counts_app (o1 o2 : list Gps.output) :
  Gps.counts (o1 ++ o2) = Gps.counts o1 ++ Gps.counts o2.
Proof. apply flat_map_app. Qed.

Lemma gps_showAverage_counts (n : Z) (raw avg : Gps.GPSDATA) :
  Gps.counts (snd (Gps.showAverage n raw avg)) = flushed n.
Proof.
  unfold Gps.showAverage, flushed. destruct (n <? 1); [reflexivity|].
  destruct (24 <=? _); reflexivity.
Qed.

Lemma gps_observe_enabled (avgSecs : float) (st : Gps.state) (r : Gps.GPSDATA) :
  CFloat.leb avgSecs CFloat.zero = false ->
  if (CFloat.ltb avgSecs (CFloat.sub (Gps.tsecs r) (Gps.t0 st))
      || CFloat.ltb (Gps.t0 st) CFloat.zero)%bool
  then Gps.navg (fst (Gps.observe avgSecs st r)) = 1 /\
       Gps.t0 (fst (Gps.observe avgSecs st r)) = Gps.tsecs r /\
       Gps.counts (snd (Gps.observe avgSecs st r)) = flushed (Gps.navg st)
  else Gps.navg (fst (Gps.observe avgSecs st r))
       = (if Gps.navg st <? 1 then 1 else CInt.add (Gps.navg st) 1) /\
       Gps.t0 (fst (Gps.observe avgSecs st r)) = Gps.t0 st /\
       Gps.counts (snd (Gps.observe avgSecs st r)) = [].
Proof.
  intros Hon. unfold Gps.observe. rewrite Hon.
  destruct (_ || _)%bool.
  - pose proof (gps_showAverage_counts (Gps.navg st) r (Gps.avg st)) as Hc.
    destruct (Gps.showAverage (Gps.navg st) r (Gps.avg st)) as [avg1 out].
    unfold Gps.updateAverage. cbn [Z.ltb Z.compare fst snd Gps.navg Gps.t0].
    repeat split; exact Hc.
  - unfold Gps.updateAverage.
    destruct (Gps.navg st <? 1); cbn [fst snd Gps.navg Gps.t0];
      repeat split; reflexivity.
Qed.

Lemma gps_windowing_skip (avgSecs : float) (minSats : Z) (a : Gps.GPSDATA)
      (st : Gps.state) (str : line) :
  gps_elapsed_of minSats a str = None ->
  Gps.navg (fst (Gps.step avgSecs minSats st str)) = Gps.navg st /\
  Gps.t0 (fst (Gps.step avgSecs minSats st str)) = Gps.t0 st /\
  flat_map Gps.count_of (snd (Gps.step avgSecs minSats st str)) = [].
Proof.
  unfold gps_elapsed_of. intros H.
  pose proof (gps_keep_any minSats a (Gps.raw st) str) as Hany.
  destruct (Gps.keep minSats a str); [discriminate|].
  destruct (Gps.keep minSats (Gps.raw st) str) eqn:E; [contradiction|].
  destruct (gps_step_skip avgSecs minSats st str E) as [raw1 ->].
  repeat split.
Qed.

Lemma gps_windowing_keep (avgSecs : float) (minSats : Z) (a : Gps.GPSDATA)
      (st : Gps.state) (str : line) (t : float) :
  CFloat.leb avgSecs CFloat.zero = false ->
  gps_elapsed_of minSats a str = Some t ->
  not_negative t /\
  if (CFloat.ltb avgSecs (CFloat.sub t (Gps.t0 st))
      || CFloat.ltb (Gps.t0 st) CFloat.zero)%bool
  then Gps.navg (fst (Gps.step avgSecs minSats st str)) = 1 /\
       Gps.t0 (fst (Gps.step avgSecs minSats st str)) = t /\
       flat_map Gps.count_of (snd (Gps.step avgSecs minSats st str))
       = flushed (Gps.navg st)
  else Gps.navg (fst (Gps.step avgSecs minSats st str))
       = (if Gps.navg st <? 1 then 1 else CInt.add (Gps.navg st) 1) /\
       Gps.t0 (fst (Gps.step avgSecs minSats st str)) = Gps.t0 st /\
       flat_map Gps.count_of (snd (Gps.step avgSecs minSats st str)) = [].
Proof.
  unfold gps_elapsed_of. intros Hon H.
  pose proof (gps_keep_any minSats a (Gps.raw st) str) as Hany.
  destruct (Gps.keep minSats a str) as [r0|]; [|discriminate].
  injection H as <-.
  destruct (Gps.keep minSats (Gps.raw st) str) as [r|] eqn:E;
    [|contradiction].
  destruct Hany as [Hcols Hpos].
  assert (Ht : Gps.tsecs r0 = Gps.tsecs r).
  { change (Gps.c_tsecs (Gps.columns_of r0) = Gps.c_tsecs (Gps.columns_of r)).
    now rewrite Hcols. }
  rewrite Ht. split; [now rewrite <- Ht|].
  rewrite (gps_step_keep avgSecs minSats st str r E).
  exact (gps_observe_enabled avgSecs st r Hon).
Qed.

(** The member counts of a GPS run are the sizes of the windows. *)
Lemma gps_counts_windows (avgSecs : float) (minSats : Z)
      (raw0 avg0 a : Gps.GPSDATA) (lines : list line) :
  CFloat.leb avgSecs CFloat.zero = false ->
  Z.of_nat (List.length lines) < 2 ^ 31 ->
  Gps.counts (Gps.process avgSecs minSats raw0 avg0 lines)
  = sizes (Spec.windows avgSecs (gps_elapsed minSats a lines)).
Proof.
  intros Hon Hlen.
  pose proof (run_closed (Gps.step avgSecs minSats) Gps.navg Gps.t0
                Gps.count_of (gps_elapsed_of minSats a) avgSecs
                (gps_windowing_skip avgSecs minSats a)
                (fun st str t => gps_windowing_keep avgSecs minSats a st str t Hon)
                lines (Gps.init raw0 avg0) eq_refl eq_refl Hlen) as H.
  cbv beta in H. unfold Gps.process, Gps.loop.
  destruct (while_fgets (Gps.step avgSecs minSats) (Gps.init raw0 avg0) lines)
    as [st out].
  rewrite gps_counts_app. unfold Gps.final_flush.
  rewrite gps_showAverage_counts. exact H.
Qed.

(** *** The sensor loop as an instance of [Windowing] *)

Lemma sensor_sscanf_count (str : line) (a b : Sensor.SENSORDATA) :
  fst (Sensor.sscanf str a) = fst (Sensor.sscanf str b).
Proof. unfold Sensor.sscanf. cbn [fst]. reflexivity. Qed.

(** After eighteen conversions every field comes from the buffer. *)
Lemma sensor_sscanf_full (str : line) (a : Sensor.SENSORDATA) :
  fst (Sensor.sscanf str a) = 18 ->
  exists r rest,
    Libc.scan_float str = Some (Sensor.tsecs r, rest) /\
    forall b, snd (Sensor.sscanf str b) = r.
Proof.
  unfold Sensor.sscanf. cbn [fst snd]. intros H.
  assert (H' : List.length (Libc.scan_directives Sensor.format str) = 18%nat)
    by lia.
  clear H. revert H'. unfold Sensor.format. cbn [Libc.scan_directives].
  intros H. repeat scan_step H.
  match goal with
  | |- context [Sensor.store Sensor.targets ?vs _] =>
      exists (Sensor.store Sensor.targets vs a)
  end.
  eexists. split; [reflexivity|]. intros b. reflexivity.
Qed.

Lemma sensor_step_keep (avgSecs : float) (st : Sensor.state) (str : line)
      (r : Sensor.SENSORDATA) :
  Sensor.keep (Sensor.raw st) str = Some r ->
  Sensor.step avgSecs st str = Sensor.observe avgSecs st r.
Proof.
  unfold Sensor.keep, Sensor.step.
  destruct (Libc.isdigit (Sensor.first_char str)); [|discriminate].
  destruct (Sensor.sscanf str (Sensor.raw st)) as [n raw1].
  destruct (n =? 18); [|discriminate]. cbn [negb].
  intros H; injection H as <-; reflexivity.
Qed.

Lemma sensor_step_skip (avgSecs : float) (st : Sensor.state) (str : line) :
  Sensor.keep (Sensor.raw st) str = None ->
  exists raw1,
    Sensor.step avgSecs st str
    = (Sensor.mkState raw1 (Sensor.avg st) (Sensor.navg st) (Sensor.t0 st),
       [Sensor.Comment (Libc.c_string str)]).
Proof.
  unfold Sensor.keep, Sensor.step. destruct st as [raw avg navg t0].
  cbn [Sensor.raw Sensor.avg Sensor.navg Sensor.t0].
  destruct (Libc.isdigit (Sensor.first_char str));
    [|intros _; eexists; reflexivity].
  destruct (Sensor.sscanf str raw) as [n raw1].
  destruct (n =? 18); [discriminate|].
  intros _; eexists; reflexivity.
Qed.

(** The record kept from a buffer does not depend on what the record held
    before. *)
Lemma sensor_keep_any (a b : Sensor.SENSORDATA) (str : line) :
  Sensor.keep a str = Sensor.keep b str /\
  forall r, Sensor.keep a str = Some r -> not_negative (Sensor.tsecs r).
Proof.
  unfold Sensor.keep.
  destruct (Libc.isdigit (Sensor.first_char str)) eqn:Hd;
    [|split; [reflexivity | discriminate]].
  pose proof (sensor_sscanf_full str a) as Hfull.
  pose proof (sensor_sscanf_count str a b) as Hcount.
  destruct (Sensor.sscanf str a) as [n ra] eqn:Ea.
  destruct (Sensor.sscanf str b) as [n' rb] eqn:Eb.
  cbn [fst] in Hcount. subst n'.
  cbn [fst] in Hfull.
  destruct (Z.eqb_spec n 18) as [->|Hn]; [|split; [reflexivity | discriminate]].
  destruct (Hfull eq_refl) as (r & rest & Ht & Hall).
  pose proof (Hall a) as Ha. pose proof (Hall b) as Hb.
  rewrite Ea in Ha. rewrite Eb in Hb. cbn [snd] in Ha, Hb. subst ra rb.
  split; [reflexivity|]. intros r' H. injection H as <-.
  eapply scan_float_digit; eauto.
Qed.

Lemma sensor_counts_app (o1 o2 : list Sensor.output) :
  Sensor.counts (o1 ++ o2) = Sensor.counts o1 ++ Sensor.counts o2.
Proof. apply flat_map_app. Qed.

Lemma sensor_showAverage_counts (n : Z) (avg : Sensor.SENSORDATA) :
  Sensor.counts (snd (Sensor.showAverage n avg)) = flushed n.
Proof.
  unfold Sensor.showAverage, flushed. destruct (n <? 1); reflexivity.
Qed.

Lemma sensor_observe_enabled (avgSecs : float) (st : Sensor.state)
      (r : Sensor.SENSORDATA) :
  CFloat.leb avgSecs CFloat.zero = false ->
  if (CFloat.ltb avgSecs (CFloat.sub (Sensor.tsecs r) (Sensor.t0 st))
      || CFloat.ltb (Sensor.t0 st) CFloat.zero)%bool
  then Sensor.navg (fst (Sensor.observe avgSecs st r)) = 1 /\
       Sensor.t0 (fst (Sensor.observe avgSecs st r)) = Sensor.tsecs r /\
       Sensor.counts (snd (Sensor.observe avgSecs st r))
       = flushed (Sensor.navg st)
  else Sensor.navg (fst (Sensor.observe avgSecs st r))
       = (if Sensor.navg st <? 1 then 1 else CInt.add (Sensor.navg st) 1) /\
       Sensor.t0 (fst (Sensor.observe avgSecs st r)) = Sensor.t0 st /\
       Sensor.counts (snd (Sensor.observe avgSecs st r)) = [].
Proof.
  intros Hon. unfold Sensor.observe. rewrite Hon.
  destruct (_ || _)%bool.
  - pose proof (sensor_showAverage_counts (Sensor.navg st) (Sensor.avg st))
      as Hc.
    destruct (Sensor.showAverage (Sensor.navg st) (Sensor.avg st))
      as [avg1 out].
    unfold Sensor.updateAverage.
    cbn [Z.ltb Z.compare fst snd Sensor.navg Sensor.t0].
    repeat split; exact Hc.
  - unfold Sensor.updateAverage.
    destruct (Sensor.navg st <? 1); cbn [fst snd Sensor.navg Sensor.t0];
      repeat split; reflexivity.
Qed.

Lemma sensor_windowing_skip (avgSecs : float) (a : Sensor.SENSORDATA)
      (st : Sensor.state) (str : line) :
  sensor_elapsed_of a str = None ->
  Sensor.navg (fst (Sensor.step avgSecs st str)) = Sensor.navg st /\
  Sensor.t0 (fst (Sensor.step avgSecs st str)) = Sensor.t0 st /\
  flat_map Sensor.count_of (snd (Sensor.step avgSecs st str)) = [].
Proof.
  unfold sensor_elapsed_of. intros H.
  destruct (sensor_keep_any a (Sensor.raw st) str) as [Hany _].
  rewrite Hany in H.
  destruct (Sensor.keep (Sensor.raw st) str) eqn:E; [discriminate|].
  destruct (sensor_step_skip avgSecs st str E) as [raw1 ->].
  repeat split.
Qed.

Lemma sensor_windowing_keep (avgSecs : float) (a : Sensor.SENSORDATA)
      (st : Sensor.state) (str : line) (t : float) :
  CFloat.leb avgSecs CFloat.zero = false ->
  sensor_elapsed_of a str = Some t ->
  not_negative t /\
  if (CFloat.ltb avgSecs (CFloat.sub t (Sensor.t0 st))
      || CFloat.ltb (Sensor.t0 st) CFloat.zero)%bool
  then Sensor.navg (fst (Sensor.step avgSecs st str)) = 1 /\
       Sensor.t0 (fst (Sensor.step avgSecs st str)) = t /\
       flat_map Sensor.count_of (snd (Sensor.step avgSecs st str))
       = flushed (Sensor.navg st)
  else Sensor.navg (fst (Sensor.step avgSecs st str))
       = (if Sensor.navg st <? 1 then 1 else CInt.add (Sensor.navg st) 1) /\
       Sensor.t0 (fst (Sensor.step avgSecs st str)) = Sensor.t0 st /\
       flat_map Sensor.count_of (snd (Sensor.step avgSecs st str)) = [].
Proof.
  unfold sensor_elapsed_of. intros Hon H.
  destruct (sensor_keep_any a (Sensor.raw st) str) as [Hany Hpos].
  destruct (Sensor.keep a str) as [r|] eqn:Ea; [|discriminate].
  injection H as <-. symmetry in Hany.
  split; [now apply Hpos|].
  rewrite (sensor_step_keep avgSecs st str r Hany).
  exact (sensor_observe_enabled avgSecs st r Hon).
Qed.

(** The divisors of the averaged lines of a sensor run are the sizes of the
    windows. *)
Lemma sensor_counts_windows (avgSecs : float) (raw0 avg0 a : Sensor.SENSORDATA)
      (lines : list line) :
  CFloat.leb avgSecs CFloat.zero = false ->
  Z.of_nat (List.length lines) < 2 ^ 31 ->
  Sensor.counts (Sensor.process avgSecs raw0 avg0 lines)
  = sizes (Spec.windows avgSecs (sensor_elapsed a lines)).
Proof.
  intros Hon Hlen.
  pose proof (run_closed (Sensor.step avgSecs) Sensor.navg Sensor.t0
                Sensor.count_of (sensor_elapsed_of a) avgSecs
                (sensor_windowing_skip avgSecs a)
                (fun st str t => sensor_windowing_keep avgSecs a st str t Hon)
                lines (Sensor.init raw0 avg0) eq_refl eq_refl Hlen) as H.
  cbv beta in H. unfold Sensor.process, Sensor.loop.
  destruct (while_fgets (Sensor.step avgSecs) (Sensor.init raw0 avg0) lines)
    as [st out].
  rewrite sensor_counts_app. unfold Sensor.final_flush.
  rewrite sensor_showAverage_counts. exact H.
Qed.

(** ** Runs without averaging *)

Lemma gps_loop_disabled (avgSecs : float) (minSats : Z) (a : Gps.GPSDATA)
      (lines : list line) :
  CFloat.leb avgSecs CFloat.zero = true ->
  forall st, exists raw1,
    Gps.loop avgSecs minSats st lines
    = (Gps.mkState raw1 (Gps.avg st) (Gps.navg st) (Gps.t0 st),
       map (gps_plain minSats a) lines).
Proof.
  intros Hoff. unfold Gps.loop.
  induction lines as [|str rest IH]; intros st; simpl.
  - destruct st. eexists; reflexivity.
  - pose proof (gps_keep_any minSats a (Gps.raw st) str) as Hany.
    unfold gps_plain at 1.
    destruct (Gps.keep minSats (Gps.raw st) str) as [r|] eqn:E.
    + rewrite (gps_step_keep avgSecs minSats st str r E).
      unfold Gps.observe. rewrite Hoff.
      destruct (Gps.keep minSats a str) as [r0|]; [|contradiction].
      destruct Hany as [-> _].
      destruct (IH (Gps.mkState r (Gps.avg st) (Gps.navg st) (Gps.t0 st)))
        as [raw1 ->].
      eexists; reflexivity.
    + destruct (gps_step_skip avgSecs minSats st str E) as [raw1 ->].
      destruct (Gps.keep minSats a str); [contradiction|].
      destruct (IH (Gps.mkState raw1 (Gps.avg st) (Gps.navg st) (Gps.t0 st)))
        as [raw2 ->].
      eexists; reflexivity.
Qed.

Lemma sensor_loop_disabled (avgSecs : float) (a : Sensor.SENSORDATA)
      (lines : list line) :
  CFloat.leb avgSecs CFloat.zero = true ->
  forall st, exists raw1,
    Sensor.loop avgSecs st lines
    = (Sensor.mkState raw1 (Sensor.avg st) (Sensor.navg st) (Sensor.t0 st),
       map (sensor_plain a) lines).
Proof.
  intros Hoff. unfold Sensor.loop.
  induction lines as [|str rest IH]; intros st; simpl.
  - destruct st. eexists; reflexivity.
  - destruct (sensor_keep_any a (Sensor.raw st) str) as [Hany _].
    unfold sensor_plain at 1. rewrite Hany.
    destruct (Sensor.keep (Sensor.raw st) str) as [r|] eqn:E.
    + rewrite (sensor_step_keep avgSecs st str r E).
      unfold Sensor.observe. rewrite Hoff.
      destruct (IH (Sensor.mkState r (Sensor.avg st) (Sensor.navg st)
                                   (Sensor.t0 st))) as [raw1 ->].
      eexists; reflexivity.
    + destruct (sensor_step_skip avgSecs st str E) as [raw1 ->].
      destruct (IH (Sensor.mkState raw1 (Sensor.avg st) (Sensor.navg st)
                                   (Sensor.t0 st))) as [raw2 ->].
      eexists; reflexivity.
Qed.

Lemma positive_length_enabled (avgSecs : float) :
  CFloat.ltb CFloat.zero avgSecs = true ->
  CFloat.leb avgSecs CFloat.zero = false.
Proof. destruct avgSecs as [s|s| |s m e]; try destruct s; try discriminate; reflexivity. Qed.

(* ================================================================== *)
(** * The claims *)

(** One turn of the loop on a kept record, the window being open: an
    averaged line is printed exactly when the elapsed seconds of the record
    exceed the window start by more than the window length, and it carries
    the count reached. *)
Lemma gps_observe_open (avgSecs : float) (st : Gps.state) (r : Gps.GPSDATA) :
  CFloat.leb avgSecs CFloat.zero = false ->
  1 <= Gps.navg st ->
  not_negative (Gps.t0 st) ->
  Gps.counts (snd (Gps.observe avgSecs st r))
  = if CFloat.ltb avgSecs (CFloat.sub (Gps.tsecs r) (Gps.t0 st))
    then [Gps.navg st] else [].
Proof.
  intros Hon Hn Ht0. pose proof (gps_observe_enabled avgSecs st r Hon) as H.
  unfold not_negative in Ht0. rewrite Ht0, orb_false_r in H.
  destruct (CFloat.ltb avgSecs _); destruct H as (_ & _ & ->); [|reflexivity].
  unfold flushed. destruct (Z.ltb_spec (Gps.navg st) 1); [lia | reflexivity].
Qed.

Lemma sensor_observe_open (avgSecs : float) (st : Sensor.state)
      (r : Sensor.SENSORDATA) :
  CFloat.leb avgSecs CFloat.zero = false ->
  1 <= Sensor.navg st ->
  not_negative (Sensor.t0 st) ->
  Sensor.counts (snd (Sensor.observe avgSecs st r))
  = if CFloat.ltb avgSecs (CFloat.sub (Sensor.tsecs r) (Sensor.t0 st))
    then [Sensor.navg st] else [].
Proof.
  intros Hon Hn Ht0. pose proof (sensor_observe_enabled avgSecs st r Hon) as H.
  unfold not_negative in Ht0. rewrite Ht0, orb_false_r in H.
  destruct (CFloat.ltb avgSecs _); destruct H as (_ & _ & ->); [|reflexivity].
  unfold flushed. destruct (Z.ltb_spec (Sensor.navg st) 1); [lia | reflexivity].
Qed.

(** C3 (flush on boundary).  With a window length above zero the averaged
    lines of a run are, in order, the windows of [Spec.windows]: a window is
    closed exactly by a kept record whose elapsed seconds exceed the window
    start by more than the window length, or by the end of input, and the
    member count of each averaged line is the number of records kept since
    the previous one.  Turn by turn: with a window open, a kept record
    prints an averaged line, with the count reached, exactly when its
    elapsed seconds exceed the window start by more than the window length.
    Both converters; fewer than 2^31 buffers, so that the [int] count cannot
    wrap. *)
Theorem flush_on_boundary
        (avgSecs : float) (minSats : Z) (raw0 avg0 a : Gps.GPSDATA)
        (sraw0 savg0 sa : Sensor.SENSORDATA) (glines slines : list line) :
  CFloat.ltb CFloat.zero avgSecs = true ->
  Z.of_nat (List.length glines) < 2 ^ 31 ->
  Z.of_nat (List.length slines) < 2 ^ 31 ->
  (Gps.counts (Gps.process avgSecs minSats raw0 avg0 glines)
   = sizes (Spec.windows avgSecs (gps_elapsed minSats a glines))
   /\
   forall st r,
     1 <= Gps.navg st -> not_negative (Gps.t0 st) ->
     Gps.counts (snd (Gps.observe avgSecs st r))
     = if CFloat.ltb avgSecs (CFloat.sub (Gps.tsecs r) (Gps.t0 st))
       then [Gps.navg st] else [])
  /\
  (Sensor.counts (Sensor.process avgSecs sraw0 savg0 slines)
   = sizes (Spec.windows avgSecs (sensor_elapsed sa slines))
   /\
   forall st r,
     1 <= Sensor.navg st -> not_negative (Sensor.t0 st) ->
     Sensor.counts (snd (Sensor.observe avgSecs st r))
     = if CFloat.ltb avgSecs (CFloat.sub (Sensor.tsecs r) (Sensor.t0 st))
       then [Sensor.navg st] else []).
Proof.
  intros Hpos Hg Hs. apply positive_length_enabled in Hpos. split; split.
  - now apply gps_counts_windows.
  - intros st r. now apply gps_observe_open.
  - now apply sensor_counts_windows.
  - intros st r. now apply sensor_observe_open.
Qed.

(** C4 (count conservation), as amended.  With averaging enabled the numbers
    of records behind the averaged lines add up to the number of records
    kept, and the windows are consecutive runs of the kept records, so that
    a record is in one window and one only.  For the GPS converter that
    number is the last column of the line; the sensor converter does not
    print it. *)
Theorem count_conservation
        (avgSecs : float) (minSats : Z) (raw0 avg0 a : Gps.GPSDATA)
        (sraw0 savg0 sa : Sensor.SENSORDATA) (glines slines : list line) :
  CFloat.ltb CFloat.zero avgSecs = true ->
  Z.of_nat (List.length glines) < 2 ^ 31 ->
  Z.of_nat (List.length slines) < 2 ^ 31 ->
  (fold_right Z.add 0 (Gps.counts (Gps.process avgSecs minSats raw0 avg0 glines))
   = Z.of_nat (List.length (gps_elapsed minSats a glines))
   /\ exists ws,
       List.concat ws = gps_elapsed minSats a glines /\
       Gps.counts (Gps.process avgSecs minSats raw0 avg0 glines) = sizes ws)
  /\
  (fold_right Z.add 0 (Sensor.counts (Sensor.process avgSecs sraw0 savg0 slines))
   = Z.of_nat (List.length (sensor_elapsed sa slines))
   /\ exists ws,
       List.concat ws = sensor_elapsed sa slines /\
       Sensor.counts (Sensor.process avgSecs sraw0 savg0 slines) = sizes ws).
Proof.
  intros Hpos Hg Hs. apply positive_length_enabled in Hpos. split.
  - rewrite (gps_counts_windows avgSecs minSats raw0 avg0 a glines Hpos Hg).
    split; [apply windows_total|].
    eexists; split; [apply windows_concat | reflexivity].
  - rewrite (sensor_counts_windows avgSecs sraw0 savg0 sa slines Hpos Hs).
    split; [apply windows_total|].
    eexists; split; [apply windows_concat | reflexivity].
Qed.

(** C5 (end of input).  The output of a run is the output of the loop
    followed by that of one last call of [showAverage]: one averaged line,
    for the count [navg] of the open window, when that count is at least 1,
    and nothing otherwise; without averaging the count is 0 at the end. *)
Theorem end_of_input_flush
        (avgSecs : float) (minSats : Z) (raw0 avg0 : Gps.GPSDATA)
        (sraw0 savg0 : Sensor.SENSORDATA) (glines slines : list line) :
  (exists st out,
      Gps.loop avgSecs minSats (Gps.init raw0 avg0) glines = (st, out) /\
      Gps.process avgSecs minSats raw0 avg0 glines = out ++ Gps.final_flush st /\
      (1 <= Gps.navg st ->
       exists c, Gps.final_flush st = [Gps.Averaged c (Gps.navg st)]) /\
      (Gps.navg st < 1 -> Gps.final_flush st = []) /\
      (CFloat.leb avgSecs CFloat.zero = true -> Gps.navg st = 0))
  /\
  (exists st out,
      Sensor.loop avgSecs (Sensor.init sraw0 savg0) slines = (st, out) /\
      Sensor.process avgSecs sraw0 savg0 slines = out ++ Sensor.final_flush st /\
      (1 <= Sensor.navg st ->
       exists r, Sensor.final_flush st = [Sensor.Averaged r (Sensor.navg st)]) /\
      (Sensor.navg st < 1 -> Sensor.final_flush st = []) /\
      (CFloat.leb avgSecs CFloat.zero = true -> Sensor.navg st = 0)).
Proof.
  split.
  - unfold Gps.process.
    destruct (Gps.loop avgSecs minSats (Gps.init raw0 avg0) glines)
      as [st out] eqn:E.
    exists st, out. repeat split.
    + intros H. unfold Gps.final_flush, Gps.showAverage.
      destruct (Z.ltb_spec (Gps.navg st) 1); [lia|].
      destruct (24 <=? _); eexists; reflexivity.
    + intros H. unfold Gps.final_flush, Gps.showAverage.
      destruct (Z.ltb_spec (Gps.navg st) 1); [reflexivity | lia].
    + intros Hoff.
      destruct (gps_loop_disabled avgSecs minSats raw0 glines Hoff
                                  (Gps.init raw0 avg0)) as [raw1 H].
      rewrite H in E. injection E as <- _. reflexivity.
  - unfold Sensor.process.
    destruct (Sensor.loop avgSecs (Sensor.init sraw0 savg0) slines)
      as [st out] eqn:E.
    exists st, out. repeat split.
    + intros H. unfold Sensor.final_flush, Sensor.showAverage.
      destruct (Z.ltb_spec (Sensor.navg st) 1); [lia|].
      eexists; reflexivity.
    + intros H. unfold Sensor.final_flush, Sensor.showAverage.
      destruct (Z.ltb_spec (Sensor.navg st) 1); [reflexivity | lia].
    + intros Hoff.
      destruct (sensor_loop_disabled avgSecs sraw0 slines Hoff
                                     (Sensor.init sraw0 savg0)) as [raw1 H].
      rewrite H in E. injection E as <- _. reflexivity.
Qed.

(** C6 (no averaging).  With a window length of zero or less every buffer
    gives one line, in input order: the columns of its record when it is
    kept, the buffer as a comment otherwise; the line of a record depends on
    its buffer only ([a] is arbitrary); and the loop leaves the sums [avg],
    the count [navg] and the window start [t0] as they were, so that nothing
    is printed at the end of input. *)
Theorem no_averaging_identity
        (avgSecs : float) (minSats : Z) (raw0 avg0 a : Gps.GPSDATA)
        (sraw0 savg0 sa : Sensor.SENSORDATA) (glines slines : list line) :
  CFloat.leb avgSecs CFloat.zero = true ->
  (Gps.process avgSecs minSats raw0 avg0 glines
   = map (gps_plain minSats a) glines
   /\ exists raw1,
       fst (Gps.loop avgSecs minSats (Gps.init raw0 avg0) glines)
       = Gps.mkState raw1 avg0 0 (CFloat.of_int (-1)))
  /\
  (Sensor.process avgSecs sraw0 savg0 slines = map (sensor_plain sa) slines
   /\ exists raw1,
       fst (Sensor.loop avgSecs (Sensor.init sraw0 savg0) slines)
       = Sensor.mkState raw1 savg0 0 (CFloat.of_int (-1))).
Proof.
  intros Hoff. split.
  - destruct (gps_loop_disabled avgSecs minSats a glines Hoff
                                (Gps.init raw0 avg0)) as [raw1 H].
    unfold Gps.process. rewrite H. split.
    + unfold Gps.final_flush. cbn. apply app_nil_r.
    + exists raw1. reflexivity.
  - destruct (sensor_loop_disabled avgSecs sa slines Hoff
                                   (Sensor.init sraw0 savg0)) as [raw1 H].
    unfold Sensor.process. rewrite H. split.
    + unfold Sensor.final_flush. cbn. apply app_nil_r.
    + exists raw1. reflexivity.
Qed.

(** The checked [showAverage] always has a result, the one of
    [showAverage]: in both converters no call divides by a count of zero. *)
Lemma gps_average_checked (navg : Z) (raw avg : Gps.GPSDATA) :
  1 <= navg ->
  Gps.average_checked navg raw avg = Some (Gps.showAverage navg raw avg).
Proof.
  intros H. unfold Gps.average_checked, Gps.showAverage,
              Partial.div_count_f, Partial.div_count_i.
  cbv zeta. rewrite (of_int_not_zero navg) by lia.
  destruct (Z.eqb_spec navg 0); [lia|].
  destruct (Z.ltb_spec navg 1); [lia|].
  cbn [Partial.bind]. destruct (24 <=? _); reflexivity.
Qed.

Lemma sensor_average_checked (navg : Z) (avg : Sensor.SENSORDATA) :
  1 <= navg ->
  Sensor.average_checked navg avg = Some (Sensor.showAverage navg avg).
Proof.
  intros H. unfold Sensor.average_checked, Sensor.showAverage,
              Partial.div_count_f.
  cbv zeta. rewrite (of_int_not_zero navg) by lia.
  destruct (Z.ltb_spec navg 1); [lia|].
  reflexivity.
Qed.

Lemma showAverage_checked_total (navg : Z) (raw avg : Gps.GPSDATA)
      (savg : Sensor.SENSORDATA) :
  Gps.showAverage_checked navg raw avg = Some (Gps.showAverage navg raw avg) /\
  Sensor.showAverage_checked navg savg = Some (Sensor.showAverage navg savg).
Proof.
  unfold Gps.showAverage_checked, Sensor.showAverage_checked.
  destruct (Z.ltb_spec navg 1) as [Hlt | Hge].
  - unfold Gps.showAverage, Sensor.showAverage.
    destruct (Z.ltb_spec navg 1); [split; reflexivity | lia].
  - split; [now apply gps_average_checked | now apply sensor_average_checked].
Qed.

(** C7 (division by the count).  In [showAverage] of both converters the
    divisions by [navg] and by [(float) navg] are reached only when
    [navg >= 1], and under that guard each of them has a divisor other than
    zero: the checked function returns what [showAverage] returns.  Without
    the guard the divisions would have no result for a count of zero. *)
Theorem division_by_count_guarded
        (navg : Z) (raw avg : Gps.GPSDATA) (savg : Sensor.SENSORDATA) :
  1 <= navg ->
  (Gps.showAverage_checked navg raw avg = Gps.average_checked navg raw avg /\
   Gps.average_checked navg raw avg = Some (Gps.showAverage navg raw avg) /\
   Gps.average_checked 0 raw avg = None)
  /\
  (Sensor.showAverage_checked navg savg = Sensor.average_checked navg savg /\
   Sensor.average_checked navg savg = Some (Sensor.showAverage navg savg) /\
   Sensor.average_checked 0 savg = None).
Proof.
  intros H. unfold Gps.showAverage_checked, Sensor.showAverage_checked.
  destruct (Z.ltb_spec navg 1); [lia|].
  repeat split; try reflexivity.
  - now apply gps_average_checked.
  - now apply sensor_average_checked.
Qed.

(** ** Lines and buffers *)

Lemma c_string_id (str : list ascii) :
  ~ In Ascii.zero str -> Libc.c_string str = str.
Proof.
  induction str as [|c str IH]; intros H; [reflexivity|].
  cbn [Libc.c_string]. destruct (Ascii.eqb_spec c Ascii.zero) as [->|_].
  - exfalso. apply H. now left.
  - rewrite IH; [reflexivity|]. intros Hin. apply H. now right.
Qed.

(** [fgets] returns a line whole when the room left in the buffer exceeds
    the length of the line. *)
Lemma fgets_from_line (size : nat) (b : list ascii) :
  forall (room : nat) (cur rest : list ascii),
    ~ In Libc.newline b ->
    (List.length b < room)%nat ->
    Libc.fgets_from size room cur (b ++ Libc.newline :: rest)
    = (rev cur ++ b ++ [Libc.newline])
        :: Libc.fgets_from size (size - 1) [] rest.
Proof.
  induction b as [|c b IH]; intros room cur rest Hnl Hlen.
  - cbn [app Libc.fgets_from]. rewrite Ascii.eqb_refl. reflexivity.
  - cbn [app Libc.fgets_from List.length] in *.
    destruct (Ascii.eqb_spec c Libc.newline) as [->|_];
      [exfalso; apply Hnl; now left|].
    destruct (Nat.leb_spec room 1) as [H|_]; [lia|]. cbn [orb].
    rewrite IH; [|intros Hin; apply Hnl; now right|lia].
    cbn [rev]. now rewrite <- app_assoc.
Qed.

(** Reading starts afresh after each newline. *)
Lemma fgets_from_newline (size : nat) (p : list ascii) :
  forall (room : nat) (cur rest : list ascii),
    Libc.fgets_from size room cur (p ++ Libc.newline :: rest)
    = Libc.fgets_from size room cur (p ++ [Libc.newline])
      ++ Libc.fgets_from size (size - 1) [] rest.
Proof.
  induction p as [|c p IH]; intros room cur rest; cbn [app Libc.fgets_from].
  - rewrite Ascii.eqb_refl. reflexivity.
  - destruct (_ || _)%bool; [|apply IH].
    rewrite IH. reflexivity.
Qed.

Lemma fgets_all_lines_app (pre : list line) (rest : list ascii) :
  Libc.fgets_all 256 (text_lines pre ++ rest)
  = Libc.fgets_all 256 (text_lines pre) ++ Libc.fgets_all 256 rest.
Proof.
  unfold Libc.fgets_all.
  induction pre as [|l pre IH]; [reflexivity|].
  unfold text_lines. cbn [map List.concat]. fold (text_lines pre).
  unfold with_newline. rewrite <- !app_assoc. cbn [app].
  rewrite (fgets_from_newline 256 l _ _ (text_lines pre ++ rest)).
  rewrite (fgets_from_newline 256 l _ _ (text_lines pre)).
  rewrite IH. now rewrite app_assoc.
Qed.

(** A short line is one buffer, wherever it stands in the file. *)
Lemma fgets_line_in_file (pre : list line) (b : line) (rest : list ascii) :
  short_line b ->
  Libc.fgets_all 256 (text_lines pre ++ with_newline b ++ rest)
  = Libc.fgets_all 256 (text_lines pre)
    ++ with_newline b :: Libc.fgets_all 256 rest.
Proof.
  intros [Hnl Hlen]. rewrite fgets_all_lines_app. f_equal.
  unfold Libc.fgets_all, with_newline. rewrite <- app_assoc. cbn [app].
  now rewrite (fgets_from_line 256 b (256 - 1) [] rest Hnl Hlen).
Qed.


Lemma while_fgets_app {S O : Type} (body : S -> line -> S * list O)
      (l1 l2 : list line) :
  forall st,
    while_fgets body st (l1 ++ l2)
    = (fst (while_fgets body (fst (while_fgets body st l1)) l2),
       snd (while_fgets body st l1)
       ++ snd (while_fgets body (fst (while_fgets body st l1)) l2)).
Proof.
  induction l1 as [|str l1 IH]; intros st; cbn [app while_fgets].
  - cbn [fst snd app]. now destruct (while_fgets body st l2).
  - destruct (body st str) as [st1 out1]. rewrite IH.
    destruct (while_fgets body st1 l1) as [st2 out2]. cbn [fst snd].
    now rewrite app_assoc.
Qed.

(** A run as the run before a buffer, the turn of the loop on that
    buffer, and the rest of the run. *)
Lemma gps_process_split (avgSecs : float) (minSats : Z)
      (raw0 avg0 : Gps.GPSDATA) (pre : list line) (str : line)
      (post : list line) :
  Gps.process avgSecs minSats raw0 avg0 (pre ++ str :: post)
  = snd (Gps.loop avgSecs minSats (Gps.init raw0 avg0) pre)
    ++ snd (Gps.step avgSecs minSats
              (fst (Gps.loop avgSecs minSats (Gps.init raw0 avg0) pre)) str)
    ++ gps_resume avgSecs minSats
         (fst (Gps.step avgSecs minSats
                 (fst (Gps.loop avgSecs minSats (Gps.init raw0 avg0) pre))
                 str))
         post.
Proof.
  unfold Gps.process, gps_resume, Gps.loop. rewrite while_fgets_app.
  destruct (while_fgets (Gps.step avgSecs minSats) (Gps.init raw0 avg0) pre)
    as [st out]. cbn [fst snd while_fgets].
  destruct (Gps.step avgSecs minSats st str) as [st1 out1]. cbn [fst snd].
  destruct (while_fgets (Gps.step avgSecs minSats) st1 post) as [st2 out2].
  cbn [fst snd]. now rewrite <- !app_assoc.
Qed.

Lemma sensor_process_split (avgSecs : float) (raw0 avg0 : Sensor.SENSORDATA)
      (pre : list line) (str : line) (post : list line) :
  Sensor.process avgSecs raw0 avg0 (pre ++ str :: post)
  = snd (Sensor.loop avgSecs (Sensor.init raw0 avg0) pre)
    ++ snd (Sensor.step avgSecs
              (fst (Sensor.loop avgSecs (Sensor.init raw0 avg0) pre)) str)
    ++ sensor_resume avgSecs
         (fst (Sensor.step avgSecs
                 (fst (Sensor.loop avgSecs (Sensor.init raw0 avg0) pre)) str))
         post.
Proof.
  unfold Sensor.process, sensor_resume, Sensor.loop. rewrite while_fgets_app.
  destruct (while_fgets (Sensor.step avgSecs) (Sensor.init raw0 avg0) pre)
    as [st out]. cbn [fst snd while_fgets].
  destruct (Sensor.step avgSecs st str) as [st1 out1]. cbn [fst snd].
  destruct (while_fgets (Sensor.step avgSecs) st1 post) as [st2 out2].
  cbn [fst snd]. now rewrite <- !app_assoc.
Qed.

(** One turn of the loop on a buffer that is not a record. *)
Lemma gps_step_text (avgSecs : float) (minSats : Z) (st : Gps.state)
      (str : line) :
  Libc.isdigit (hd Ascii.zero str) = false ->
  Gps.step avgSecs minSats st str = (st, [Gps.Comment (Libc.c_string str)]).
Proof.
  intros H. unfold Gps.step, Gps.first_char. now rewrite H.
Qed.

Lemma sensor_step_text (avgSecs : float) (st : Sensor.state) (str : line) :
  Libc.isdigit (hd Ascii.zero str) = false ->
  Sensor.step avgSecs st str = (st, [Sensor.Comment (Libc.c_string str)]).
Proof.
  intros H. unfold Sensor.step, Sensor.first_char. now rewrite H.
Qed.

Lemma gps_step_short (avgSecs : float) (minSats : Z) (st : Gps.state)
      (str : line) :
  Libc.isdigit (hd Ascii.zero str) = true ->
  fst (Gps.sscanf str (Gps.raw st)) <> 11 ->
  Gps.step avgSecs minSats st str
  = (Gps.mkState (snd (Gps.sscanf str (Gps.raw st)))
                 (Gps.avg st) (Gps.navg st) (Gps.t0 st),
     [Gps.Comment (Libc.c_string str)]).
Proof.
  intros H Hn. unfold Gps.step, Gps.first_char. rewrite H. cbn [negb].
  destruct (Gps.sscanf str (Gps.raw st)) as [n raw1]. cbn [fst snd] in *.
  destruct (Z.eqb_spec n 11); [contradiction | reflexivity].
Qed.

Lemma sensor_step_short (avgSecs : float) (st : Sensor.state) (str : line) :
  Libc.isdigit (hd Ascii.zero str) = true ->
  fst (Sensor.sscanf str (Sensor.raw st)) <> 18 ->
  Sensor.step avgSecs st str
  = (Sensor.mkState (snd (Sensor.sscanf str (Sensor.raw st)))
                    (Sensor.avg st) (Sensor.navg st) (Sensor.t0 st),
     [Sensor.Comment (Libc.c_string str)]).
Proof.
  intros H Hn. unfold Sensor.step, Sensor.first_char. rewrite H. cbn [negb].
  destruct (Sensor.sscanf str (Sensor.raw st)) as [n raw1].
  cbn [fst snd] in *.
  destruct (Z.eqb_spec n 18); [contradiction | reflexivity].
Qed.

Lemma with_newline_text (b : line) :
  ~ In Ascii.zero b -> Libc.c_string (with_newline b) = with_newline b.
Proof.
  intros H. apply c_string_id. unfold with_newline. intros Hin.
  apply in_app_or in Hin. destruct Hin as [Hin | [Hin | []]];
    [now apply H | discriminate Hin].
Qed.

(** The run of [main] on a file, around one of its short lines. *)
Lemma gps_main_line (avgSecs : float) (minSats : Z) (raw0 avg0 : Gps.GPSDATA)
      (pre : list line) (b : line) (rest : list ascii) :
  short_line b ->
  Gps.main avgSecs minSats raw0 avg0
           (text_lines pre ++ with_newline b ++ rest)
  = snd (Gps.loop avgSecs minSats (Gps.init raw0 avg0)
                  (Libc.fgets_all 256 (text_lines pre)))
    ++ snd (Gps.step avgSecs minSats
              (fst (Gps.loop avgSecs minSats (Gps.init raw0 avg0)
                             (Libc.fgets_all 256 (text_lines pre))))
              (with_newline b))
    ++ gps_resume avgSecs minSats
         (fst (Gps.step avgSecs minSats
                 (fst (Gps.loop avgSecs minSats (Gps.init raw0 avg0)
                                (Libc.fgets_all 256 (text_lines pre))))
                 (with_newline b)))
         (Libc.fgets_all 256 rest).
Proof.
  intros Hb. unfold Gps.main.
  rewrite (fgets_line_in_file pre b rest Hb). apply gps_process_split.
Qed.

Lemma sensor_main_line (avgSecs : float) (raw0 avg0 : Sensor.SENSORDATA)
      (pre : list line) (b : line) (rest : list ascii) :
  short_line b ->
  Sensor.main avgSecs raw0 avg0 (text_lines pre ++ with_newline b ++ rest)
  = snd (Sensor.loop avgSecs (Sensor.init raw0 avg0)
                     (Libc.fgets_all 256 (text_lines pre)))
    ++ snd (Sensor.step avgSecs
              (fst (Sensor.loop avgSecs (Sensor.init raw0 avg0)
                                (Libc.fgets_all 256 (text_lines pre))))
              (with_newline b))
    ++ sensor_resume avgSecs
         (fst (Sensor.step avgSecs
                 (fst (Sensor.loop avgSecs (Sensor.init raw0 avg0)
                                   (Libc.fgets_all 256 (text_lines pre))))
                 (with_newline b)))
         (Libc.fgets_all 256 rest).
Proof.
  intros Hb. unfold Sensor.main.
  rewrite (fgets_line_in_file pre b rest Hb). apply sensor_process_split.
Qed.

(** C8 (lines that are not records), as amended.  Take a file and one of
    its lines [b], of at most 254 characters and ended by a newline; [pre]
    holds the lines before it and [rest] the text after it, of any
    length.  The line is one buffer of [fgets].  It is parsed exactly when
    its first character is one of the ten ASCII digits.  When it holds no
    NUL character and is not parsed, it is written as a comment that holds
    the line as it is, newline included, and the run goes on with the text
    after it from the same local variables; when its parse converts a
    number of fields other than 11 (GPS) or 18 (sensor), it is written as
    such a comment too and the run goes on, only [raw] holding what the
    conversions stored.  When it is kept as a record, the record goes to
    the averaging and the run goes on. *)
Theorem passthrough_lines
        (avgSecs : float) (minSats : Z) (raw0 avg0 : Gps.GPSDATA)
        (sraw0 savg0 : Sensor.SENSORDATA)
        (pre : list line) (b : line) (rest : list ascii) :
  short_line b ->
  ~ In Ascii.zero b ->
  let file := text_lines pre ++ with_newline b ++ rest in
  let before := Libc.fgets_all 256 (text_lines pre) in
  let after := Libc.fgets_all 256 rest in
  let str := with_newline b in
  let gout := snd (Gps.loop avgSecs minSats (Gps.init raw0 avg0) before) in
  let st := fst (Gps.loop avgSecs minSats (Gps.init raw0 avg0) before) in
  let sout := snd (Sensor.loop avgSecs (Sensor.init sraw0 savg0) before) in
  let sst := fst (Sensor.loop avgSecs (Sensor.init sraw0 savg0) before) in
  Libc.fgets_all 256 file = before ++ str :: after
  /\
  (Libc.isdigit (hd Ascii.zero str) = true <->
   In (hd Ascii.zero str) ["0"; "1"; "2"; "3"; "4"; "5"; "6"; "7"; "8"; "9"]%char)
  /\
  (Libc.isdigit (hd Ascii.zero str) = false ->
   Gps.main avgSecs minSats raw0 avg0 file
   = gout ++ Gps.Comment str :: gps_resume avgSecs minSats st after
   /\
   Sensor.main avgSecs sraw0 savg0 file
   = sout ++ Sensor.Comment str :: sensor_resume avgSecs sst after)
  /\
  (Libc.isdigit (hd Ascii.zero str) = true ->
   (fst (Gps.sscanf str (Gps.raw st)) <> 11 ->
    Gps.main avgSecs minSats raw0 avg0 file
    = gout ++ Gps.Comment str
           :: gps_resume avgSecs minSats
                (Gps.mkState (snd (Gps.sscanf str (Gps.raw st)))
                             (Gps.avg st) (Gps.navg st) (Gps.t0 st))
                after)
   /\
   (fst (Sensor.sscanf str (Sensor.raw sst)) <> 18 ->
    Sensor.main avgSecs sraw0 savg0 file
    = sout ++ Sensor.Comment str
           :: sensor_resume avgSecs
                (Sensor.mkState (snd (Sensor.sscanf str (Sensor.raw sst)))
                                (Sensor.avg sst) (Sensor.navg sst)
                                (Sensor.t0 sst))
                after))
  /\
  (forall r,
      Gps.keep minSats (Gps.raw st) str = Some r ->
      Libc.isdigit (hd Ascii.zero str) = true /\
      Gps.main avgSecs minSats raw0 avg0 file
      = gout ++ snd (Gps.observe avgSecs st r)
             ++ gps_resume avgSecs minSats (fst (Gps.observe avgSecs st r))
                           after)
  /\
  (forall r,
      Sensor.keep (Sensor.raw sst) str = Some r ->
      Libc.isdigit (hd Ascii.zero str) = true /\
      Sensor.main avgSecs sraw0 savg0 file
      = sout ++ snd (Sensor.observe avgSecs sst r)
             ++ sensor_resume avgSecs (fst (Sensor.observe avgSecs sst r))
                              after).
Proof.
  intros Hshort Hnul file before after str gout st sout sst.
  split; [now apply fgets_line_in_file|].
  unfold file.
  rewrite (gps_main_line avgSecs minSats raw0 avg0 pre b rest Hshort).
  rewrite (sensor_main_line avgSecs sraw0 savg0 pre b rest Hshort).
  fold before after str. fold gout st sout sst.
  pose proof (with_newline_text b Hnul) as Htext. fold str in Htext.
  split; [apply isdigit_iff|]. split; [|split; [|split]].
  - intros H.
    rewrite (gps_step_text avgSecs minSats st str H),
      (sensor_step_text avgSecs sst str H), Htext.
    split; reflexivity.
  - intros H. split; intros Hn.
    + rewrite (gps_step_short avgSecs minSats st str H Hn), Htext.
      reflexivity.
    + rewrite (sensor_step_short avgSecs sst str H Hn), Htext.
      reflexivity.
  - intros r Hr. split.
    + unfold Gps.keep, Gps.first_char in Hr.
      destruct (Libc.isdigit (hd Ascii.zero str));
        [reflexivity | discriminate Hr].
    + now rewrite (gps_step_keep avgSecs minSats st str r Hr).
  - intros r Hr. split.
    + unfold Sensor.keep, Sensor.first_char in Hr.
      destruct (Libc.isdigit (hd Ascii.zero str));
        [reflexivity | discriminate Hr].
    + now rewrite (sensor_step_keep avgSecs sst str r Hr).
Qed.

(** ** Text after the last field *)











(** ** The time of day of a window *)

Lemma accumulate_hour (rs : list Gps.GPSDATA) :
  forall (n : Z) (a : Gps.GPSDATA),
    1 <= n ->
    n + Z.of_nat (List.length rs) < 2 ^ 31 ->
    let p := fold_left (fun p r => Gps.updateAverage (fst p) r (snd p)) rs (n, a) in
    fst p = n + Z.of_nat (List.length rs) /\ Gps.hour (snd p) = Gps.hour a.
Proof.
  induction rs as [|r rs IH]; intros n a Hn Hlen; cbn [fold_left].
  - cbn. split; [lia | reflexivity].
  - cbn [List.length] in Hlen. cbn [fst snd].
    destruct (Gps.updateAverage n r a) as [n1 a1] eqn:E.
    assert (Hstep : n1 = n + 1 /\ Gps.hour a1 = Gps.hour a).
    { unfold Gps.updateAverage in E.
      destruct (Z.ltb_spec n 1); [lia|]. injection E as <- <-.
      rewrite add_succ by lia. split; reflexivity. }
    destruct Hstep as [-> Hh].
    destruct (IH (n + 1) a1) as [IH1 IH2]; [lia | lia |].
    cbv zeta. rewrite IH1, IH2. cbn [List.length]. split; [lia | exact Hh].
Qed.

(** C2 (reference hour), as amended.  While a window is open the hour kept
    in the accumulator is the hour of the first record of the window,
    whatever records were added since, and the rollover test of the next
    record [R] compares the hour of [R] with it: 24 is added to the hour of
    [R] exactly when it is less than the hour of the first record. *)
Theorem rollover_reference_first
        (r1 : Gps.GPSDATA) (rs : list Gps.GPSDATA) (avg0 R : Gps.GPSDATA) :
  Z.of_nat (List.length rs) < 2 ^ 31 - 1 ->
  Gps.hour (snd (Gps.accumulate (r1 :: rs) avg0)) = Gps.hour r1 /\
  fst (Gps.accumulate (r1 :: rs) avg0) = Z.of_nat (List.length rs) + 1 /\
  Gps.todaySecs (snd (Gps.updateAverage (fst (Gps.accumulate (r1 :: rs) avg0))
                                        R
                                        (snd (Gps.accumulate (r1 :: rs) avg0))))
  = CInt.add (Gps.todaySecs (snd (Gps.accumulate (r1 :: rs) avg0)))
      (CInt.add (CInt.add
         (CInt.mul (if Gps.hour R <? Gps.hour r1
                    then CInt.add (Gps.hour R) 24 else Gps.hour R) 3600)
         (CInt.mul (Gps.minute R) 60)) (Gps.second R)).
Proof.
  intros Hlen.
  assert (E : Gps.accumulate (r1 :: rs) avg0
              = fold_left (fun p r => Gps.updateAverage (fst p) r (snd p)) rs
                          (Gps.updateAverage 0 r1 avg0)) by reflexivity.
  rewrite E. clear E.
  destruct (Gps.updateAverage 0 r1 avg0) as [n1 a1] eqn:E1.
  assert (H1 : n1 = 1 /\ Gps.hour a1 = Gps.hour r1).
  { unfold Gps.updateAverage in E1. cbn [Z.ltb Z.compare] in E1.
    injection E1 as <- <-. split; reflexivity. }
  destruct H1 as [-> Hh].
  pose proof (accumulate_hour rs 1 a1 ltac:(lia) ltac:(lia)) as H.
  cbv zeta in H. destruct H as [Hn Hacc].
  destruct (fold_left _ rs (1, a1)) as [n acc]. cbn [fst snd] in *. subst n.
  split; [congruence|]. split; [lia|].
  unfold Gps.updateAverage.
  destruct (Z.ltb_spec (1 + Z.of_nat (List.length rs)) 1); [lia|].
  cbn [snd Gps.todaySecs]. now rewrite Hacc, Hh.
Qed.

(** C1 (three records across midnight), as amended.  With a window of ten
    seconds, three records at 23:59:58, 23:59:59 and 00:00:01 that fall in
    one window give at the end of input one averaged line of three members.
    The time-of-day sum is 86398 + 86399 + 86401 = 259198 and its integer
    average 86399; the hour of the average is 23, below 24, so the branch
    that keeps the date of the first record of the window is taken: the
    line shows 23:59:59 and the date of the first record. *)
Theorem rollover_average
        (raw0 avg0 r1 r2 r3 : Gps.GPSDATA) :
  (Gps.hour r1, Gps.minute r1, Gps.second r1) = (23, 59, 58) ->
  (Gps.hour r2, Gps.minute r2, Gps.second r2) = (23, 59, 59) ->
  (Gps.hour r3, Gps.minute r3, Gps.second r3) = (0, 0, 1) ->
  not_negative (Gps.tsecs r1) ->
  CFloat.ltb (CFloat.of_int 10) (CFloat.sub (Gps.tsecs r2) (Gps.tsecs r1)) = false ->
  CFloat.ltb (CFloat.of_int 10) (CFloat.sub (Gps.tsecs r3) (Gps.tsecs r1)) = false ->
  let s1 := Gps.observe (CFloat.of_int 10) (Gps.init raw0 avg0) r1 in
  let s2 := Gps.observe (CFloat.of_int 10) (fst s1) r2 in
  let s3 := Gps.observe (CFloat.of_int 10) (fst s2) r3 in
  Gps.todaySecs (Gps.avg (fst s3)) = 259198 /\
  CInt.div 259198 3 = 86399 /\
  CInt.div 86399 3600 = 23 /\
  snd s1 ++ snd s2 ++ snd s3 ++ Gps.final_flush (fst s3)
  = [Gps.Averaged
       (Gps.mkColumns
          (CFloat.div (CFloat.add (CFloat.add (Gps.tsecs r1) (Gps.tsecs r2))
                                  (Gps.tsecs r3)) (CFloat.of_int 3))
          (Gps.mday r1) (Gps.month r1) (Gps.year r1) 23 59 59
          (CFloat.div (CFloat.add (CFloat.add (Gps.lat r1) (Gps.lat r2))
                                  (Gps.lat r3)) (CFloat.of_int 3))
          (CFloat.div (CFloat.add (CFloat.add (Gps.lon r1) (Gps.lon r2))
                                  (Gps.lon r3)) (CFloat.of_int 3))
          (CFloat.div (CFloat.add (CFloat.add (Gps.alt r1) (Gps.alt r2))
                                  (Gps.alt r3)) (CFloat.of_int 3))
          (CInt.div (CInt.add (CInt.add (Gps.nsats r1) (Gps.nsats r2))
                              (Gps.nsats r3)) 3))
       3].
Proof.
  destruct r1 as [d1 mo1 y1 h1 mi1 se1 td1 n1 t1 la1 lo1 al1].
  destruct r2 as [d2 mo2 y2 h2 mi2 se2 td2 n2 t2 la2 lo2 al2].
  destruct r3 as [d3 mo3 y3 h3 mi3 se3 td3 n3 t3 la3 lo3 al3].
  cbn [Gps.hour Gps.minute Gps.second Gps.tsecs Gps.mday Gps.month Gps.year
       Gps.lat Gps.lon Gps.alt Gps.nsats].
  intros [= -> -> ->] [= -> -> ->] [= -> -> ->] Hpos H2 H3.
  unfold not_negative in Hpos.
  set (ten := CFloat.of_int 10) in *.
  assert (Hten : CFloat.leb ten CFloat.zero = false) by reflexivity.
  set (x1 := Gps.mkGPS d1 mo1 y1 23 59 58 td1 n1 t1 la1 lo1 al1).
  set (x2 := Gps.mkGPS d2 mo2 y2 23 59 59 td2 n2 t2 la2 lo2 al2).
  set (x3 := Gps.mkGPS d3 mo3 y3 0 0 1 td3 n3 t3 la3 lo3 al3).
  assert (E1 : Gps.observe ten (Gps.init raw0 avg0) x1
               = (Gps.mkState x1
                    (Gps.mkGPS d1 mo1 y1 23 59 58 86398 n1 t1 la1 lo1 al1)
                    1 t1, [])).
  { unfold Gps.observe. rewrite Hten.
    change (CFloat.ltb (Gps.t0 (Gps.init raw0 avg0)) CFloat.zero) with true.
    rewrite orb_true_r. reflexivity. }
  cbv zeta. rewrite E1. cbn [fst snd].
  assert (E2 : Gps.observe ten
                 (Gps.mkState x1
                    (Gps.mkGPS d1 mo1 y1 23 59 58 86398 n1 t1 la1 lo1 al1)
                    1 t1) x2
               = (Gps.mkState x2
                    (Gps.mkGPS d1 mo1 y1 23 59 58 172797 (CInt.add n1 n2)
                       (CFloat.add t1 t2) (CFloat.add la1 la2)
                       (CFloat.add lo1 lo2) (CFloat.add al1 al2))
                    2 t1, [])).
  { unfold Gps.observe. rewrite Hten.
    cbn [Gps.t0 Gps.tsecs x2]. rewrite H2, Hpos. reflexivity. }
  rewrite E2. cbn [fst snd].
  assert (E3 : Gps.observe ten
                 (Gps.mkState x2
                    (Gps.mkGPS d1 mo1 y1 23 59 58 172797 (CInt.add n1 n2)
                       (CFloat.add t1 t2) (CFloat.add la1 la2)
                       (CFloat.add lo1 lo2) (CFloat.add al1 al2))
                    2 t1) x3
               = (Gps.mkState x3
                    (Gps.mkGPS d1 mo1 y1 23 59 58 259198
                       (CInt.add (CInt.add n1 n2) n3)
                       (CFloat.add (CFloat.add t1 t2) t3)
                       (CFloat.add (CFloat.add la1 la2) la3)
                       (CFloat.add (CFloat.add lo1 lo2) lo3)
                       (CFloat.add (CFloat.add al1 al2) al3))
                    3 t1, [])).
  { unfold Gps.observe. rewrite Hten.
    cbn [Gps.t0 Gps.tsecs x3]. rewrite H3, Hpos. reflexivity. }
  rewrite E3. cbn [fst snd Gps.avg Gps.todaySecs].
  split; [reflexivity|]. split; [reflexivity|]. split; [reflexivity|].
  reflexivity.
Qed.

(* ================================================================== *)
(** * Concrete runs *)

(** C1, the claim as stated fails: on the three fixes of [Sample.midnight]
    the averaged line shows hour 23, not an hour brought back from 24 or
    more, and the date of the first fix, 31/12/2023, not that of the last
    one, 1/1/2024. *)
Lemma rollover_hour_below_24 :
  exists c,
    Gps.main Sample.ten 0 Sample.gps_blank Sample.gps_blank
             (List.concat Sample.midnight)
    = [Gps.Averaged c 3] /\
    (Gps.c_hour c, Gps.c_minute c, Gps.c_second c) = (23, 59, 59) /\
    ~ 24 <= CInt.div (CInt.div (86398 + 86399 + 86401) 3) 3600 /\
    (Gps.c_mday c, Gps.c_month c, Gps.c_year c) = (31, 12, 2023) /\
    (Gps.c_mday c, Gps.c_month c, Gps.c_year c) <> (1, 1, 2024).
Proof.
  eexists. split; [vm_compute; reflexivity|]. cbn.
  split; [reflexivity|]. split; [lia|]. split; [reflexivity | discriminate].
Qed.

(** The three sample records meet the hypotheses of [rollover_average]. *)
Lemma rollover_average_witness :
  not_negative (Gps.tsecs Run.r1) /\
  CFloat.ltb (CFloat.of_int 10)
             (CFloat.sub (Gps.tsecs Run.r2) (Gps.tsecs Run.r1)) = false /\
  CFloat.ltb (CFloat.of_int 10)
             (CFloat.sub (Gps.tsecs Run.r3) (Gps.tsecs Run.r1)) = false /\
  Gps.counts (snd Run.s1 ++ snd Run.s2 ++ snd Run.s3
              ++ Gps.final_flush (fst Run.s3)) = [3].
Proof.
  split; [reflexivity|]. split; [reflexivity|]. split; [reflexivity|].
  destruct (rollover_average Sample.gps_blank Sample.gps_blank
              Run.r1 Run.r2 Run.r3
              eq_refl eq_refl eq_refl eq_refl eq_refl eq_refl)
    as (_ & _ & _ & H).
  cbv zeta in H. fold Run.s1 Run.s2 Run.s3 in H. rewrite H. reflexivity.
Defined.

(** C2, the claim as stated fails: for fixes at 23:59:59, 00:00:01 and
    01:00:00 the code adds a day to the third one, whose hour is below
    that of the first, while the rule with the previous record as reference
    does not, 1 being above 0. *)
Lemma rollover_reference_not_previous :
  Gps.todaySecs
    (snd (Gps.accumulate [Sample.at_time 31 12 2023 23 59 59;
                          Sample.at_time 1 1 2024 0 0 1;
                          Sample.at_time 1 1 2024 1 0 0] Sample.gps_blank))
  = 262800 /\
  Spec.timeOfDaySum_previous_hour [(23, 59, 59); (0, 0, 1); (1, 0, 0)] = 176400 /\
  Gps.todaySecs
    (snd (Gps.accumulate [Sample.at_time 31 12 2023 23 59 59;
                          Sample.at_time 1 1 2024 0 0 1;
                          Sample.at_time 1 1 2024 1 0 0] Sample.gps_blank))
  <> Spec.timeOfDaySum_previous_hour [(23, 59, 59); (0, 0, 1); (1, 0, 0)].
Proof.
  repeat split; try (vm_compute; reflexivity). vm_compute. discriminate.
Qed.

(** Two records across midnight: the hour kept is that of the first one. *)
Lemma rollover_reference_first_witness :
  Z.of_nat (List.length [Sample.at_time 1 1 2024 0 0 1]) < 2 ^ 31 - 1 /\
  Gps.hour (snd (Gps.accumulate [Sample.at_time 31 12 2023 23 59 59;
                                 Sample.at_time 1 1 2024 0 0 1]
                                Sample.gps_blank)) = 23.
Proof.
  split; [reflexivity|].
  exact (proj1 (rollover_reference_first
                  (Sample.at_time 31 12 2023 23 59 59)
                  [Sample.at_time 1 1 2024 0 0 1] Sample.gps_blank
                  (Sample.at_time 1 1 2024 1 0 0) eq_refl)).
Defined.

(** [flush_on_boundary] on the sample files. *)
Lemma flush_on_boundary_witness :
  CFloat.ltb CFloat.zero Sample.ten = true /\
  Z.of_nat (List.length Run.two_windows) < 2 ^ 31 /\
  Z.of_nat (List.length [Sample.sensor_line; Sample.sensor_line]) < 2 ^ 31 /\
  Gps.counts (Gps.process Sample.ten 0 Sample.gps_blank Sample.gps_blank
                          Run.two_windows)
  = sizes (Spec.windows Sample.ten
             (gps_elapsed 0 Sample.gps_blank Run.two_windows)) /\
  Sensor.counts (Sensor.process Sample.ten Sample.sensor_blank
                                Sample.sensor_blank
                                [Sample.sensor_line; Sample.sensor_line])
  = sizes (Spec.windows Sample.ten
             (sensor_elapsed Sample.sensor_blank
                             [Sample.sensor_line; Sample.sensor_line])).
Proof.
  split; [reflexivity|]. split; [reflexivity|]. split; [reflexivity|].
  destruct (flush_on_boundary Sample.ten 0 Sample.gps_blank Sample.gps_blank
              Sample.gps_blank Sample.sensor_blank Sample.sensor_blank
              Sample.sensor_blank Run.two_windows
              [Sample.sensor_line; Sample.sensor_line] eq_refl eq_refl eq_refl)
    as [[Hg _] [Hs _]].
  split; [exact Hg | exact Hs].
Defined.

(** The windows of the two sample runs: three fixes then one; two sensor
    records in one window. *)
Example two_windows_counts :
  Gps.counts (Gps.process Sample.ten 0 Sample.gps_blank Sample.gps_blank
                          Run.two_windows) = [3; 1] /\
  Sensor.counts (Sensor.process Sample.ten Sample.sensor_blank
                                Sample.sensor_blank
                                [Sample.sensor_line; Sample.sensor_line]) = [2].
Proof. split; vm_compute; reflexivity. Qed.

(** C4, the claim as stated fails for the sensor converter: its averaged line
    does not show the member count.  One record and the same record twice
    give the same text, so that no reading of the text gives the number of
    records kept. *)
Lemma sensor_lines_hide_counts :
  ~ exists count_printed : list Sensor.text -> Z,
      forall lines : list line,
        count_printed
          (map Sensor.printed
               (Sensor.process Sample.ten Sample.sensor_blank
                               Sample.sensor_blank lines))
        = Z.of_nat (List.length (sensor_elapsed Sample.sensor_blank lines)).
Proof.
  intros [f H].
  pose proof (H [Sample.sensor_line]) as H1.
  pose proof (H [Sample.sensor_line; Sample.sensor_line]) as H2.
  assert (E : map Sensor.printed
                  (Sensor.process Sample.ten Sample.sensor_blank
                                  Sample.sensor_blank [Sample.sensor_line])
              = map Sensor.printed
                    (Sensor.process Sample.ten Sample.sensor_blank
                                    Sample.sensor_blank
                                    [Sample.sensor_line; Sample.sensor_line]))
    by (vm_compute; reflexivity).
  assert (L1 : Z.of_nat (List.length (sensor_elapsed Sample.sensor_blank
                                        [Sample.sensor_line])) = 1)
    by (vm_compute; reflexivity).
  assert (L2 : Z.of_nat (List.length (sensor_elapsed Sample.sensor_blank
                           [Sample.sensor_line; Sample.sensor_line])) = 2)
    by (vm_compute; reflexivity).
  rewrite L1, E in H1. rewrite L2, H1 in H2. discriminate H2.
Qed.

(** [count_conservation] on the sample files. *)
Lemma count_conservation_witness :
  CFloat.ltb CFloat.zero Sample.ten = true /\
  Z.of_nat (List.length Run.two_windows) < 2 ^ 31 /\
  Z.of_nat (List.length [Sample.sensor_line; Sample.sensor_line]) < 2 ^ 31 /\
  fold_right Z.add 0
    (Gps.counts (Gps.process Sample.ten 0 Sample.gps_blank Sample.gps_blank
                             Run.two_windows))
  = Z.of_nat (List.length (gps_elapsed 0 Sample.gps_blank Run.two_windows)) /\
  fold_right Z.add 0
    (Sensor.counts (Sensor.process Sample.ten Sample.sensor_blank
                                   Sample.sensor_blank
                                   [Sample.sensor_line; Sample.sensor_line]))
  = Z.of_nat (List.length (sensor_elapsed Sample.sensor_blank
                             [Sample.sensor_line; Sample.sensor_line])).
Proof.
  split; [reflexivity|]. split; [reflexivity|]. split; [reflexivity|].
  destruct (count_conservation Sample.ten 0 Sample.gps_blank Sample.gps_blank
              Sample.gps_blank Sample.sensor_blank Sample.sensor_blank
              Sample.sensor_blank Run.two_windows
              [Sample.sensor_line; Sample.sensor_line] eq_refl eq_refl eq_refl)
    as [[Hg _] [Hs _]].
  split; [exact Hg | exact Hs].
Defined.

(** [no_averaging_identity] on the sample files, with a window length of 0. *)
Lemma no_averaging_identity_witness :
  CFloat.leb CFloat.zero CFloat.zero = true /\
  Gps.process CFloat.zero 4 Sample.gps_blank Sample.gps_blank Run.mixed
  = map (gps_plain 4 Sample.gps_blank) Run.mixed /\
  Sensor.process CFloat.zero Sample.sensor_blank Sample.sensor_blank
                 [Sample.sensor_line; Sample.weak_fix]
  = map (sensor_plain Sample.sensor_blank) [Sample.sensor_line; Sample.weak_fix].
Proof.
  split; [reflexivity|].
  destruct (no_averaging_identity CFloat.zero 4 Sample.gps_blank
              Sample.gps_blank Sample.gps_blank Sample.sensor_blank
              Sample.sensor_blank Sample.sensor_blank Run.mixed
              [Sample.sensor_line; Sample.weak_fix] eq_refl)
    as [[Hg _] [Hs _]].
  split; [exact Hg | exact Hs].
Defined.

(** Without averaging the sample file gives a comment for its header, a line
    for each of the two fixes, and a comment for the weak fix and for the
    broken line. *)
Example mixed_plain :
  exists c1 c2,
    Gps.process CFloat.zero 4 Sample.gps_blank Sample.gps_blank Run.mixed
    = [Gps.Comment (Sample.buffer "Time,Date,UTC,Lat,Lon,Alt,Sats");
       Gps.Plain c1; Gps.Plain c2;
       Gps.Comment Sample.weak_fix;
       Gps.Comment (Sample.buffer "5.0,02/01/24")].
Proof. do 2 eexists. vm_compute. reflexivity. Qed.

(** [division_by_count_guarded] for a count of 3. *)
Lemma division_by_count_guarded_witness :
  1 <= 3 /\
  Gps.average_checked 3 Sample.gps_blank Sample.gps_blank
  = Some (Gps.showAverage 3 Sample.gps_blank Sample.gps_blank) /\
  Sensor.average_checked 3 Sample.sensor_blank
  = Some (Sensor.showAverage 3 Sample.sensor_blank).
Proof.
  split; [discriminate|].
  destruct (division_by_count_guarded 3 Sample.gps_blank Sample.gps_blank
              Sample.sensor_blank ltac:(discriminate))
    as [(_ & Hg & _) (_ & Hs & _)].
  split; [exact Hg | exact Hs].
Defined.

(** C9, on a failing input.  A fix with two satellites, below the minimum of
    four, is the last line of the file; the window before it averages to
    00:00:00 of the next day.  The fix is written as a comment and is in no
    sum and no count, but the averaged line takes its date from it,
    2/1 of year 24, the year not brought to four digits, where the run
    without that line shows 1/1/2024. *)
Theorem filtered_record_leaks_date :
  exists c c',
    Gps.main Sample.ten 4 Sample.gps_blank Sample.gps_blank
             (List.concat Sample.two_fixes)
    = [Gps.Averaged c 2] /\
    Gps.main Sample.ten 4 Sample.gps_blank Sample.gps_blank
             (List.concat (Sample.two_fixes ++ [Sample.weak_fix]))
    = [Gps.Comment Sample.weak_fix; Gps.Averaged c' 2] /\
    (Gps.c_mday c, Gps.c_month c, Gps.c_year c) = (1, 1, 2024) /\
    (Gps.c_mday c', Gps.c_month c', Gps.c_year c') = (2, 1, 24) /\
    (Gps.c_hour c', Gps.c_minute c', Gps.c_second c') = (0, 0, 0) /\
    Gps.c_tsecs c' = Gps.c_tsecs c /\ Gps.c_nsats c' = Gps.c_nsats c.
Proof.
  do 2 eexists.
  split; [vm_compute; reflexivity|]. split; [vm_compute; reflexivity|].
  cbn. repeat split.
Qed.

(** A record below the satellite minimum leaves the sums, the count and the
    window start as they were and is written as a comment, before the year
    is brought to four digits; what it leaves behind is [raw]. *)
Lemma gps_step_filtered (avgSecs : float) (minSats : Z) (st : Gps.state)
      (str : line) :
  Libc.isdigit (Gps.first_char str) = true ->
  fst (Gps.sscanf str (Gps.raw st)) = 11 ->
  Gps.nsats (snd (Gps.sscanf str (Gps.raw st))) < minSats ->
  Gps.step avgSecs minSats st str
  = (Gps.mkState (snd (Gps.sscanf str (Gps.raw st)))
                 (Gps.avg st) (Gps.navg st) (Gps.t0 st),
     [Gps.Comment (Libc.c_string str)]).
Proof.
  intros Hd Hn Hs. unfold Gps.step. rewrite Hd. cbn [negb].
  destruct (Gps.sscanf str (Gps.raw st)) as [n raw1]. cbn [fst snd] in *.
  subst n. cbn [Z.eqb Pos.eqb negb].
  destruct (Z.ltb_spec (Gps.nsats raw1) minSats); [reflexivity | lia].
Qed.


Lemma free_check (x : ascii) (b : line) :
  forallb (fun c => negb (Ascii.eqb c x)) b = true -> ~ In x b.
Proof.
  intros Hall Hin. rewrite forallb_forall in Hall. specialize (Hall _ Hin).
  now rewrite Ascii.eqb_refl in Hall.
Qed.

Lemma short_line_check (b : line) :
  forallb (fun c => negb (Ascii.eqb c Libc.newline)) b = true ->
  Nat.ltb (List.length b) 255 = true ->
  short_line b.
Proof.
  intros Hall Hlen. split; [now apply free_check | now apply Nat.ltb_lt].
Qed.


(** C8, the claim as stated fails.  A line that starts with [#] and is
    longer than a buffer is read in two parts, and the second part, which
    starts with a digit here, is parsed and written as a data line; and the
    comment of a line that holds a NUL character stops before it. *)
Lemma passthrough_per_buffer :
  hd Ascii.zero Run.long_comment = "#"%char /\
  ~ In Libc.newline Run.long_comment /\
  Gps.main CFloat.zero 0 Sample.gps_blank Sample.gps_blank
           (text_lines [Run.long_comment])
  = [Gps.Comment (repeat "#"%char 255);
     Gps.Plain (Gps.columns_of (Run.record_of_line Run.gps_field_line))] /\
  Gps.main CFloat.zero 0 Sample.gps_blank Sample.gps_blank
           (text_lines [Run.cut_comment])
  = [Gps.Comment ["a"; "b"]%char] /\
  Sensor.main CFloat.zero Sample.sensor_blank Sample.sensor_blank
              (text_lines [Run.cut_comment])
  = [Sensor.Comment ["a"; "b"]%char].
Proof.
  split; [reflexivity|]. split; [apply free_check; vm_compute; reflexivity|].
  repeat split; vm_compute; reflexivity.
Qed.

(** A record, a header and a last record without newline: the header is
    written as a comment between what the run writes before and after
    it. *)
Lemma passthrough_lines_witness :
  short_line Run.header /\
  ~ In Ascii.zero Run.header /\
  Libc.isdigit (hd Ascii.zero (with_newline Run.header)) = false /\
  Gps.main Sample.ten 0 Sample.gps_blank Sample.gps_blank
           (text_lines [Run.gps_field_line] ++ with_newline Run.header
            ++ Run.gps_field_line)
  = snd (Gps.loop Sample.ten 0 (Gps.init Sample.gps_blank Sample.gps_blank)
                  (Libc.fgets_all 256 (text_lines [Run.gps_field_line])))
    ++ Gps.Comment (with_newline Run.header)
    :: gps_resume Sample.ten 0
         (fst (Gps.loop Sample.ten 0
                 (Gps.init Sample.gps_blank Sample.gps_blank)
                 (Libc.fgets_all 256 (text_lines [Run.gps_field_line]))))
         (Libc.fgets_all 256 Run.gps_field_line).
Proof.
  assert (H1 : short_line Run.header)
    by (apply short_line_check; vm_compute; reflexivity).
  assert (H2 : ~ In Ascii.zero Run.header)
    by (apply free_check; vm_compute; reflexivity).
  assert (H3 : Libc.isdigit (hd Ascii.zero (with_newline Run.header)) = false)
    by reflexivity.
  split; [exact H1|]. split; [exact H2|]. split; [exact H3|].
  destruct (passthrough_lines Sample.ten 0 Sample.gps_blank Sample.gps_blank
              Sample.sensor_blank Sample.sensor_blank
              [Run.gps_field_line] Run.header Run.gps_field_line H1 H2)
    as (_ & _ & Htext & _).
  exact (proj1 (Htext H3)).
Defined.

(* ================================================================== *)
(** * Further properties of the loops *)

(** ** Lines that are not records *)

Lemma gps_data_app (o1 o2 : list Gps.output) :
  gps_data (o1 ++ o2) = gps_data o1 ++ gps_data o2.
Proof. apply filter_app. Qed.

Lemma sensor_data_app (o1 o2 : list Sensor.output) :
  sensor_data (o1 ++ o2) = sensor_data o1 ++ sensor_data o2.
Proof. apply filter_app. Qed.

Lemma gps_loop_cons (avgSecs : float) (minSats : Z) (st : Gps.state)
      (str : line) (rest : list line) :
  Gps.loop avgSecs minSats st (str :: rest)
  = (fst (Gps.loop avgSecs minSats (fst (Gps.step avgSecs minSats st str)) rest),
     snd (Gps.step avgSecs minSats st str)
     ++ snd (Gps.loop avgSecs minSats (fst (Gps.step avgSecs minSats st str))
                      rest)).
Proof.
  unfold Gps.loop. cbn [while_fgets].
  destruct (Gps.step avgSecs minSats st str) as [st1 out1]. cbn [fst snd].
  destruct (while_fgets (Gps.step avgSecs minSats) st1 rest); reflexivity.
Qed.

Lemma sensor_loop_cons (avgSecs : float) (st : Sensor.state) (str : line)
      (rest : list line) :
  Sensor.loop avgSecs st (str :: rest)
  = (fst (Sensor.loop avgSecs (fst (Sensor.step avgSecs st str)) rest),
     snd (Sensor.step avgSecs st str)
     ++ snd (Sensor.loop avgSecs (fst (Sensor.step avgSecs st str)) rest)).
Proof.
  unfold Sensor.loop. cbn [while_fgets].
  destruct (Sensor.step avgSecs st str) as [st1 out1]. cbn [fst snd].
  destruct (while_fgets (Sensor.step avgSecs) st1 rest); reflexivity.
Qed.

Lemma gps_process_loop (avgSecs : float) (minSats : Z) (raw0 avg0 : Gps.GPSDATA)
      (lines : list line) :
  Gps.process avgSecs minSats raw0 avg0 lines
  = snd (Gps.loop avgSecs minSats (Gps.init raw0 avg0) lines)
    ++ Gps.final_flush (fst (Gps.loop avgSecs minSats (Gps.init raw0 avg0) lines)).
Proof.
  unfold Gps.process.
  destruct (Gps.loop avgSecs minSats (Gps.init raw0 avg0) lines); reflexivity.
Qed.

Lemma sensor_process_loop (avgSecs : float) (raw0 avg0 : Sensor.SENSORDATA)
      (lines : list line) :
  Sensor.process avgSecs raw0 avg0 lines
  = snd (Sensor.loop avgSecs (Sensor.init raw0 avg0) lines)
    ++ Sensor.final_flush (fst (Sensor.loop avgSecs (Sensor.init raw0 avg0) lines)).
Proof.
  unfold Sensor.process.
  destruct (Sensor.loop avgSecs (Sensor.init raw0 avg0) lines); reflexivity.
Qed.

Lemma gps_loop_text_lines (avgSecs : float) (minSats : Z) (lines : list line) :
  forall st,
    fst (Gps.loop avgSecs minSats st lines)
    = fst (Gps.loop avgSecs minSats st (filter starts_with_digit lines)) /\
    gps_data (snd (Gps.loop avgSecs minSats st lines))
    = gps_data (snd (Gps.loop avgSecs minSats st
                              (filter starts_with_digit lines))).
Proof.
  induction lines as [|str rest IH]; intros st; [split; reflexivity|].
  cbn [filter]. destruct (starts_with_digit str) eqn:E.
  - rewrite !gps_loop_cons. cbn [fst snd]. rewrite !gps_data_app.
    destruct (IH (fst (Gps.step avgSecs minSats st str))) as [-> ->].
    split; reflexivity.
  - rewrite gps_loop_cons. cbn [fst snd]. rewrite gps_data_app.
    pose proof (gps_step_text avgSecs minSats st str E) as Hs.
    rewrite Hs. cbn [fst snd]. apply IH.
Qed.

Lemma sensor_loop_text_lines (avgSecs : float) (lines : list line) :
  forall st,
    fst (Sensor.loop avgSecs st lines)
    = fst (Sensor.loop avgSecs st (filter starts_with_digit lines)) /\
    sensor_data (snd (Sensor.loop avgSecs st lines))
    = sensor_data (snd (Sensor.loop avgSecs st
                                    (filter starts_with_digit lines))).
Proof.
  induction lines as [|str rest IH]; intros st; [split; reflexivity|].
  cbn [filter]. destruct (starts_with_digit str) eqn:E.
  - rewrite !sensor_loop_cons. cbn [fst snd]. rewrite !sensor_data_app.
    destruct (IH (fst (Sensor.step avgSecs st str))) as [-> ->].
    split; reflexivity.
  - rewrite sensor_loop_cons. cbn [fst snd]. rewrite sensor_data_app.
    pose proof (sensor_step_text avgSecs st str E) as Hs.
    rewrite Hs. cbn [fst snd]. apply IH.
Qed.

(** X1.  Buffers that do not start with a digit (headers, blank lines,
    notes) have no effect on the data lines: a run prints the same data
    lines, in the same order, as the run on the input without those
    buffers.  Both converters, with or without averaging. *)
Theorem text_lines_leave_data
        (avgSecs : float) (minSats : Z) (raw0 avg0 : Gps.GPSDATA)
        (sraw0 savg0 : Sensor.SENSORDATA) (glines slines : list line) :
  gps_data (Gps.process avgSecs minSats raw0 avg0 glines)
  = gps_data (Gps.process avgSecs minSats raw0 avg0
                          (filter starts_with_digit glines))
  /\
  sensor_data (Sensor.process avgSecs sraw0 savg0 slines)
  = sensor_data (Sensor.process avgSecs sraw0 savg0
                                (filter starts_with_digit slines)).
Proof.
  split.
  - rewrite !gps_process_loop, !gps_data_app.
    destruct (gps_loop_text_lines avgSecs minSats glines (Gps.init raw0 avg0))
      as [<- <-].
    reflexivity.
  - rewrite !sensor_process_loop, !sensor_data_app.
    destruct (sensor_loop_text_lines avgSecs slines (Sensor.init sraw0 savg0))
      as [<- <-].
    reflexivity.
Qed.

Lemma gps_comments_app (o1 o2 : list Gps.output) :
  gps_comments (o1 ++ o2) = gps_comments o1 ++ gps_comments o2.
Proof. apply flat_map_app. Qed.

Lemma sensor_comments_app (o1 o2 : list Sensor.output) :
  sensor_comments (o1 ++ o2) = sensor_comments o1 ++ sensor_comments o2.
Proof. apply flat_map_app. Qed.

(** What [showAverage] prints: nothing, or one averaged line with the count
    it was given. *)
Lemma gps_showAverage_out (n : Z) (raw avg : Gps.GPSDATA) :
  snd (Gps.showAverage n raw avg) = []
  \/ exists c, snd (Gps.showAverage n raw avg) = [Gps.Averaged c n] /\ 1 <= n.
Proof.
  unfold Gps.showAverage. destruct (Z.ltb_spec n 1); [now left | right].
  destruct (24 <=? _); eexists; (split; [reflexivity | assumption]).
Qed.

Lemma sensor_showAverage_out (n : Z) (avg : Sensor.SENSORDATA) :
  snd (Sensor.showAverage n avg) = []
  \/ exists r, snd (Sensor.showAverage n avg) = [Sensor.Averaged r n] /\ 1 <= n.
Proof.
  unfold Sensor.showAverage. destruct (Z.ltb_spec n 1); [now left | right].
  eexists; (split; [reflexivity | assumption]).
Qed.

(** What [observe] prints: one plain line without averaging; with
    averaging, what [showAverage] prints. *)
Lemma gps_observe_out (avgSecs : float) (st : Gps.state) (r : Gps.GPSDATA) :
  (CFloat.leb avgSecs CFloat.zero = true /\
   snd (Gps.observe avgSecs st r) = [Gps.Plain (Gps.columns_of r)])
  \/
  (CFloat.leb avgSecs CFloat.zero = false /\
   (snd (Gps.observe avgSecs st r) = []
    \/ exists c n, snd (Gps.observe avgSecs st r) = [Gps.Averaged c n]
                   /\ 1 <= n)).
Proof.
  unfold Gps.observe. destruct (CFloat.leb avgSecs CFloat.zero);
    [left; split; reflexivity | right; split; [reflexivity|]].
  destruct (_ || _)%bool.
  - destruct (gps_showAverage_out (Gps.navg st) r (Gps.avg st))
      as [H | (c & H & Hn)];
      destruct (Gps.showAverage (Gps.navg st) r (Gps.avg st)) as [a o];
      cbn [snd] in H; subst o;
      destruct (Gps.updateAverage 0 r a); cbn [snd];
      [now left | right; eauto].
  - destruct (Gps.updateAverage (Gps.navg st) r (Gps.avg st)). now left.
Qed.

Lemma sensor_observe_out (avgSecs : float) (st : Sensor.state)
      (r : Sensor.SENSORDATA) :
  (CFloat.leb avgSecs CFloat.zero = true /\
   snd (Sensor.observe avgSecs st r) = [Sensor.Plain r])
  \/
  (CFloat.leb avgSecs CFloat.zero = false /\
   (snd (Sensor.observe avgSecs st r) = []
    \/ exists a n, snd (Sensor.observe avgSecs st r) = [Sensor.Averaged a n]
                   /\ 1 <= n)).
Proof.
  unfold Sensor.observe. destruct (CFloat.leb avgSecs CFloat.zero);
    [left; split; reflexivity | right; split; [reflexivity|]].
  destruct (_ || _)%bool.
  - destruct (sensor_showAverage_out (Sensor.navg st) (Sensor.avg st))
      as [H | (c & H & Hn)];
      destruct (Sensor.showAverage (Sensor.navg st) (Sensor.avg st)) as [a o];
      cbn [snd] in H; subst o;
      destruct (Sensor.updateAverage 0 r a); cbn [snd];
      [now left | right; eauto].
  - destruct (Sensor.updateAverage (Sensor.navg st) r (Sensor.avg st)).
    now left.
Qed.

Lemma gps_observe_comments (avgSecs : float) (st : Gps.state)
      (r : Gps.GPSDATA) :
  gps_comments (snd (Gps.observe avgSecs st r)) = [].
Proof.
  destruct (gps_observe_out avgSecs st r)
    as [[_ ->] | [_ [-> | (c & n & -> & _)]]]; reflexivity.
Qed.

Lemma sensor_observe_comments (avgSecs : float) (st : Sensor.state)
      (r : Sensor.SENSORDATA) :
  sensor_comments (snd (Sensor.observe avgSecs st r)) = [].
Proof.
  destruct (sensor_observe_out avgSecs st r)
    as [[_ ->] | [_ [-> | (c & n & -> & _)]]]; reflexivity.
Qed.

Lemma gps_loop_comments (avgSecs : float) (minSats : Z) (a : Gps.GPSDATA)
      (lines : list line) :
  forall st,
    gps_comments (snd (Gps.loop avgSecs minSats st lines))
    = map Libc.c_string (filter (gps_dropped minSats a) lines).
Proof.
  induction lines as [|str rest IH]; intros st; [reflexivity|].
  rewrite gps_loop_cons. cbn [snd filter]. rewrite gps_comments_app, IH.
  pose proof (gps_keep_any minSats a (Gps.raw st) str) as Hany.
  destruct (Gps.keep minSats (Gps.raw st) str) as [r|] eqn:E.
  - assert (Hd : gps_dropped minSats a str = false).
    { unfold gps_dropped. destruct (Gps.keep minSats a str);
        [reflexivity | contradiction]. }
    rewrite Hd, (gps_step_keep avgSecs minSats st str r E).
    now rewrite gps_observe_comments.
  - assert (Hd : gps_dropped minSats a str = true).
    { unfold gps_dropped. destruct (Gps.keep minSats a str);
        [contradiction | reflexivity]. }
    rewrite Hd. destruct (gps_step_skip avgSecs minSats st str E) as [raw1 ->].
    reflexivity.
Qed.

Lemma sensor_loop_comments (avgSecs : float) (a : Sensor.SENSORDATA)
      (lines : list line) :
  forall st,
    sensor_comments (snd (Sensor.loop avgSecs st lines))
    = map Libc.c_string (filter (sensor_dropped a) lines).
Proof.
  induction lines as [|str rest IH]; intros st; [reflexivity|].
  rewrite sensor_loop_cons. cbn [snd filter]. rewrite sensor_comments_app, IH.
  destruct (sensor_keep_any a (Sensor.raw st) str) as [Hany _].
  assert (Hd : sensor_dropped a str
               = match Sensor.keep (Sensor.raw st) str with
                 | Some _ => false
                 | None => true
                 end).
  { unfold sensor_dropped. now rewrite Hany. }
  rewrite Hd.
  destruct (Sensor.keep (Sensor.raw st) str) as [r|] eqn:E.
  - rewrite (sensor_step_keep avgSecs st str r E).
    now rewrite sensor_observe_comments.
  - destruct (sensor_step_skip avgSecs st str E) as [raw1 ->].
    reflexivity.
Qed.

(** X2.  The comment lines of a run are the buffers that are not kept as
    records, each one once and in input order, with the text that
    [printf("# %s", str)] writes: the characters of the buffer before its
    first NUL, which is the whole buffer when it holds none.  This holds
    with or without averaging, and a buffer is kept or not whatever was
    read before it ([a] is arbitrary). *)
Theorem comments_in_order
        (avgSecs : float) (minSats : Z) (raw0 avg0 a : Gps.GPSDATA)
        (sraw0 savg0 sa : Sensor.SENSORDATA) (glines slines : list line) :
  gps_comments (Gps.process avgSecs minSats raw0 avg0 glines)
  = map Libc.c_string (filter (gps_dropped minSats a) glines)
  /\
  sensor_comments (Sensor.process avgSecs sraw0 savg0 slines)
  = map Libc.c_string (filter (sensor_dropped sa) slines)
  /\
  (forall str, ~ In Ascii.zero str -> Libc.c_string str = str).
Proof.
  split; [|split; [|exact c_string_id]].
  - rewrite gps_process_loop, gps_comments_app, (gps_loop_comments _ _ a).
    unfold Gps.final_flush.
    destruct (gps_showAverage_out
                (Gps.navg (fst (Gps.loop avgSecs minSats (Gps.init raw0 avg0)
                                         glines)))
                (Gps.raw (fst (Gps.loop avgSecs minSats (Gps.init raw0 avg0)
                                        glines)))
                (Gps.avg (fst (Gps.loop avgSecs minSats (Gps.init raw0 avg0)
                                        glines))))
      as [-> | (c & -> & _)]; apply app_nil_r.
  - rewrite sensor_process_loop, sensor_comments_app,
      (sensor_loop_comments _ sa).
    unfold Sensor.final_flush.
    destruct (sensor_showAverage_out
                (Sensor.navg (fst (Sensor.loop avgSecs
                                     (Sensor.init sraw0 savg0) slines)))
                (Sensor.avg (fst (Sensor.loop avgSecs
                                    (Sensor.init sraw0 savg0) slines))))
      as [-> | (c & -> & _)]; apply app_nil_r.
Qed.

(** ** The shape of the output with averaging *)

Lemma gps_loop_averaged_only (avgSecs : float) (minSats : Z)
      (lines : list line) :
  CFloat.leb avgSecs CFloat.zero = false ->
  forall st,
    Forall gps_averaged_only (snd (Gps.loop avgSecs minSats st lines)).
Proof.
  intros Hon. induction lines as [|str rest IH]; intros st; [constructor|].
  rewrite gps_loop_cons. cbn [snd]. apply Forall_app. split; [|apply IH].
  destruct (Gps.keep minSats (Gps.raw st) str) as [r|] eqn:E.
  - rewrite (gps_step_keep avgSecs minSats st str r E).
    destruct (gps_observe_out avgSecs st r)
      as [[Hoff _] | [_ [-> | (c & n & -> & Hn)]]];
      [congruence | constructor | repeat constructor; exact Hn].
  - destruct (gps_step_skip avgSecs minSats st str E) as [raw1 ->].
    repeat constructor.
Qed.

Lemma sensor_loop_averaged_only (avgSecs : float) (lines : list line) :
  CFloat.leb avgSecs CFloat.zero = false ->
  forall st,
    Forall sensor_averaged_only (snd (Sensor.loop avgSecs st lines)).
Proof.
  intros Hon. induction lines as [|str rest IH]; intros st; [constructor|].
  rewrite sensor_loop_cons. cbn [snd]. apply Forall_app. split; [|apply IH].
  destruct (Sensor.keep (Sensor.raw st) str) as [r|] eqn:E.
  - rewrite (sensor_step_keep avgSecs st str r E).
    destruct (sensor_observe_out avgSecs st r)
      as [[Hoff _] | [_ [-> | (c & n & -> & Hn)]]];
      [congruence | constructor | repeat constructor; exact Hn].
  - destruct (sensor_step_skip avgSecs st str E) as [raw1 ->].
    repeat constructor.
Qed.

(** X3.  With averaging enabled a run never prints the line of a single
    record, and no averaged line is printed for an empty window: every
    line is a comment or an averaged line of at least one member.  Both
    converters, for every input. *)
Theorem averaged_lines_only
        (avgSecs : float) (minSats : Z) (raw0 avg0 : Gps.GPSDATA)
        (sraw0 savg0 : Sensor.SENSORDATA) (glines slines : list line) :
  CFloat.leb avgSecs CFloat.zero = false ->
  Forall gps_averaged_only (Gps.process avgSecs minSats raw0 avg0 glines) /\
  Forall sensor_averaged_only (Sensor.process avgSecs sraw0 savg0 slines).
Proof.
  intros Hon. split.
  - rewrite gps_process_loop. apply Forall_app.
    split; [now apply gps_loop_averaged_only|].
    unfold Gps.final_flush.
    match goal with
    | |- Forall _ (snd (Gps.showAverage ?n ?r ?a)) =>
        destruct (gps_showAverage_out n r a) as [-> | (c & -> & Hn)]
    end; [constructor | repeat constructor; exact Hn].
  - rewrite sensor_process_loop. apply Forall_app.
    split; [now apply sensor_loop_averaged_only|].
    unfold Sensor.final_flush.
    match goal with
    | |- Forall _ (snd (Sensor.showAverage ?n ?a)) =>
        destruct (sensor_showAverage_out n a) as [-> | (c & -> & Hn)]
    end; [constructor | repeat constructor; exact Hn].
Qed.

Lemma averaged_lines_only_witness :
  CFloat.leb Sample.ten CFloat.zero = false /\
  Forall gps_averaged_only
         (Gps.process Sample.ten 4 Sample.gps_blank Sample.gps_blank Run.mixed).
Proof.
  split; [reflexivity|].
  exact (proj1 (averaged_lines_only Sample.ten 4 Sample.gps_blank
                  Sample.gps_blank Sample.sensor_blank Sample.sensor_blank
                  Run.mixed [] eq_refl)).
Defined.

(** ** The clock time of an averaged line *)

Lemma cint_div_nonneg (a b : Z) :
  0 <= a < 2 ^ 31 -> 1 <= b -> CInt.div a b = a / b.
Proof.
  intros Ha Hb. unfold CInt.div. rewrite Z.quot_div_nonneg by lia.
  apply wrap32_id. unfold CInt.in_range.
  assert (0 <= a / b <= a).
  { split; [apply Z.div_pos; lia|].
    apply Z.div_le_upper_bound; [lia | nia]. }
  lia.
Qed.

(** The decomposition of a time of day [t] (seconds, not negative) as
    [showAverage] computes it. *)
Lemma clock_of_seconds (t : Z) :
  0 <= t < 2 ^ 31 ->
  let hh := CInt.div t 3600 in
  let mm := CInt.div (CInt.sub t (CInt.mul hh 3600)) 60 in
  let ss := CInt.rem t 60 in
  hh = t / 3600 /\ 0 <= mm < 60 /\ 0 <= ss < 60 /\
  hh * 3600 + mm * 60 + ss = t.
Proof.
  intros Ht. cbv zeta.
  rewrite (cint_div_nonneg t 3600) by lia.
  assert (Hh : 0 <= t / 3600 * 3600 <= t).
  { pose proof (Z.div_mod t 3600 ltac:(lia)).
    pose proof (Z.mod_pos_bound t 3600 ltac:(lia)).
    assert (0 <= t / 3600) by (apply Z.div_pos; lia). lia. }
  unfold CInt.mul. rewrite wrap32_id by (unfold CInt.in_range; lia).
  unfold CInt.sub. rewrite wrap32_id by (unfold CInt.in_range; lia).
  rewrite cint_div_nonneg by lia.
  unfold CInt.rem. rewrite Z.rem_mod_nonneg by lia.
  pose proof (Z.div_mod t 3600 ltac:(lia)) as E1.
  pose proof (Z.mod_pos_bound t 3600 ltac:(lia)) as B1.
  pose proof (Z.div_mod (t - t / 3600 * 3600) 60 ltac:(lia)) as E2.
  pose proof (Z.mod_pos_bound (t - t / 3600 * 3600) 60 ltac:(lia)) as B2.
  pose proof (Z.div_mod t 60 ltac:(lia)) as E3.
  pose proof (Z.mod_pos_bound t 60 ltac:(lia)) as B3.
  assert (E4 : (t - t / 3600 * 3600) mod 60 = t mod 60).
  { replace (t - t / 3600 * 3600) with (t + (- (t / 3600) * 60) * 60) by lia.
    apply Z.mod_add. lia. }
  rewrite E4 in *.
  split; [reflexivity|].
  assert (0 <= (t - t / 3600 * 3600) / 60 < 60).
  { split; [apply Z.div_pos; lia|].
    apply Z.div_lt_upper_bound; lia. }
  repeat split; lia.
Qed.

Lemma showAverage_clock (navg : Z) (raw avg : Gps.GPSDATA) :
  1 <= navg ->
  0 <= Gps.todaySecs avg < 2 ^ 31 ->
  exists c,
    snd (Gps.showAverage navg raw avg) = [Gps.Averaged c navg] /\
    0 <= Gps.c_minute c < 60 /\ 0 <= Gps.c_second c < 60 /\
    0 <= Gps.c_hour c /\
    ((Gps.todaySecs avg / navg < 86400 /\
      Gps.c_hour c < 24 /\
      Gps.c_hour c * 3600 + Gps.c_minute c * 60 + Gps.c_second c
      = Gps.todaySecs avg / navg /\
      (Gps.c_mday c, Gps.c_month c, Gps.c_year c)
      = (Gps.mday avg, Gps.month avg, Gps.year avg))
     \/
     (86400 <= Gps.todaySecs avg / navg /\
      Gps.c_hour c * 3600 + Gps.c_minute c * 60 + Gps.c_second c
      = Gps.todaySecs avg / navg - 86400 /\
      (Gps.c_mday c, Gps.c_month c, Gps.c_year c)
      = (Gps.mday raw, Gps.month raw, Gps.year raw))).
Proof.
  intros Hn Hsum. unfold Gps.showAverage.
  destruct (Z.ltb_spec navg 1); [lia|].
  rewrite (cint_div_nonneg (Gps.todaySecs avg) navg) by lia.
  set (t := Gps.todaySecs avg / navg).
  assert (Ht : 0 <= t < 2 ^ 31).
  { unfold t. split; [apply Z.div_pos; lia|].
    apply Z.div_lt_upper_bound; nia. }
  destruct (clock_of_seconds t Ht) as (Hh & Hm & Hs & Hsum').
  cbv zeta in Hh, Hm, Hs, Hsum'.
  set (hh := CInt.div t 3600) in *.
  set (mm := CInt.div (CInt.sub t (CInt.mul hh 3600)) 60) in *.
  set (ss := CInt.rem t 60) in *.
  assert (Hh0 : 0 <= hh) by (rewrite Hh; apply Z.div_pos; lia).
  destruct (Z.leb_spec 24 hh) as [H24 | H24].
  - eexists. split; [reflexivity|]. cbn [Gps.c_minute Gps.c_second Gps.c_hour
      Gps.c_mday Gps.c_month Gps.c_year].
    unfold CInt.sub. rewrite wrap32_id by (unfold CInt.in_range; lia).
    repeat split; try lia. right. repeat split; lia.
  - eexists. split; [reflexivity|]. cbn [Gps.c_minute Gps.c_second Gps.c_hour
      Gps.c_mday Gps.c_month Gps.c_year].
    repeat split; try lia. left. repeat split; lia.
Qed.

(** X4.  The clock time of an averaged GPS line.  For a count of at least 1
    and a time-of-day sum that is not negative, [showAverage] prints minutes
    and seconds between 0 and 59 and an hour that is not negative; hour,
    minute and second add up to the integer mean [t] of the sum when [t] is
    below one day, with the date kept from the first record of the window,
    and to [t] less one day otherwise, with the date of the record [raw]. *)
Theorem averaged_clock (navg : Z) (raw avg : Gps.GPSDATA) :
  1 <= navg ->
  0 <= Gps.todaySecs avg < 2 ^ 31 ->
  exists c,
    snd (Gps.showAverage navg raw avg) = [Gps.Averaged c navg] /\
    0 <= Gps.c_minute c < 60 /\ 0 <= Gps.c_second c < 60 /\
    0 <= Gps.c_hour c /\
    ((Gps.todaySecs avg / navg < 86400 /\
      Gps.c_hour c < 24 /\
      Gps.c_hour c * 3600 + Gps.c_minute c * 60 + Gps.c_second c
      = Gps.todaySecs avg / navg /\
      (Gps.c_mday c, Gps.c_month c, Gps.c_year c)
      = (Gps.mday avg, Gps.month avg, Gps.year avg))
     \/
     (86400 <= Gps.todaySecs avg / navg /\
      Gps.c_hour c * 3600 + Gps.c_minute c * 60 + Gps.c_second c
      = Gps.todaySecs avg / navg - 86400 /\
      (Gps.c_mday c, Gps.c_month c, Gps.c_year c)
      = (Gps.mday raw, Gps.month raw, Gps.year raw))).
Proof. exact (showAverage_clock navg raw avg). Qed.

Lemma averaged_clock_witness :
  1 <= 3 /\ 0 <= Gps.todaySecs Run.sums < 2 ^ 31 /\
  exists c,
    snd (Gps.showAverage 3 Run.r3 Run.sums) = [Gps.Averaged c 3] /\
    0 <= Gps.c_minute c < 60 /\ 0 <= Gps.c_second c < 60.
Proof.
  assert (H1 : 1 <= 3) by discriminate.
  assert (H2 : 0 <= Gps.todaySecs Run.sums < 2 ^ 31)
    by (split; [discriminate | reflexivity]).
  split; [exact H1|]. split; [exact H2|].
  destruct (averaged_clock 3 Run.r3 Run.sums H1 H2) as (c & Hc & Hm & Hs & _).
  exists c. split; [exact Hc|]. split; assumption.
Defined.

(** ** The time-of-day sum of a window *)

(** Removes the wrap-around of every [int] operation whose exact result is
    in range, innermost first. *)
Ltac unwrap :=
  repeat match goal with
         | |- context [CInt.wrap32 ?z] =>
             lazymatch z with
             | context [CInt.wrap32 _] => fail
             | _ => rewrite (wrap32_id z) by (unfold CInt.in_range; lia)
             end
         end.

Lemma seconds_from_bounds (h1 : Z) (r : Gps.GPSDATA) :
  valid_clock r -> 0 <= seconds_from h1 r <= 172799.
Proof.
  unfold valid_clock, seconds_from. intros (Hh & Hm & Hs).
  destruct (Gps.hour r <? h1); lia.
Qed.

Lemma total_seconds_bounds (h1 : Z) (rs : list Gps.GPSDATA) :
  Forall valid_clock rs ->
  0 <= total_seconds h1 rs <= 172799 * Z.of_nat (List.length rs).
Proof.
  unfold total_seconds. induction 1 as [|r rs Hr _ IH]; cbn [map fold_right].
  - cbn. lia.
  - pose proof (seconds_from_bounds h1 r Hr). cbn [List.length]. lia.
Qed.

(** One more record in an open window, as long as the sum fits an [int]. *)
Lemma updateAverage_seconds (n : Z) (r a : Gps.GPSDATA) :
  1 <= n ->
  valid_clock r ->
  0 <= Gps.todaySecs a ->
  Gps.todaySecs a + 172799 < 2 ^ 31 ->
  Gps.todaySecs (snd (Gps.updateAverage n r a))
  = Gps.todaySecs a + seconds_from (Gps.hour a) r /\
  Gps.hour (snd (Gps.updateAverage n r a)) = Gps.hour a.
Proof.
  intros Hn Hr Ha Hfit. pose proof (seconds_from_bounds (Gps.hour a) r Hr) as Hb.
  unfold Gps.updateAverage. destruct (Z.ltb_spec n 1); [lia|].
  cbn [snd Gps.todaySecs Gps.hour]. split; [|reflexivity].
  unfold seconds_from in *. destruct Hr as (Hh & Hm & Hs).
  unfold CInt.add, CInt.mul.
  destruct (Gps.hour r <? Gps.hour a);
    unwrap; reflexivity.
Qed.

Lemma accumulate_seconds (rs : list Gps.GPSDATA) :
  forall (n : Z) (a : Gps.GPSDATA),
    1 <= n ->
    n + Z.of_nat (List.length rs) < 2 ^ 31 ->
    Forall valid_clock rs ->
    0 <= Gps.todaySecs a ->
    Gps.todaySecs a + 172799 * Z.of_nat (List.length rs) < 2 ^ 31 ->
    Gps.todaySecs
      (snd (fold_left (fun p r => Gps.updateAverage (fst p) r (snd p)) rs (n, a)))
    = Gps.todaySecs a + total_seconds (Gps.hour a) rs.
Proof.
  induction rs as [|r rs IH]; intros n a Hn Hlen Hrs Ha Hfit; cbn [fold_left].
  - cbn. lia.
  - inversion Hrs as [|r' rs' Hr Hrs']; subst. cbn [List.length] in Hfit, Hlen.
    cbn [fst snd].
    destruct (updateAverage_seconds n r a Hn Hr Ha ltac:(lia)) as [Hsum Hhour].
    pose proof (seconds_from_bounds (Gps.hour a) r Hr) as Hb.
    assert (Hn1 : fst (Gps.updateAverage n r a) = n + 1).
    { unfold Gps.updateAverage. destruct (Z.ltb_spec n 1); [lia|]. cbn [fst].
      apply add_succ. lia. }
    destruct (Gps.updateAverage n r a) as [n1 a1]. cbn [fst snd] in *. subst n1.
    rewrite (IH (n + 1) a1) by (try assumption; lia).
    rewrite Hsum, Hhour. unfold total_seconds. cbn [map fold_right]. lia.
Qed.

Lemma accumulate_time_sum
        (r1 : Gps.GPSDATA) (rs : list Gps.GPSDATA) (avg0 : Gps.GPSDATA)
        (lo hi : Z) :
  Forall valid_clock (r1 :: rs) ->
  Z.of_nat (List.length (r1 :: rs)) <= 12427 ->
  Forall (fun r => lo <= seconds_from (Gps.hour r1) r <= hi) (r1 :: rs) ->
  Gps.todaySecs (snd (Gps.accumulate (r1 :: rs) avg0))
  = total_seconds (Gps.hour r1) (r1 :: rs) /\
  0 <= Gps.todaySecs (snd (Gps.accumulate (r1 :: rs) avg0)) < 2 ^ 31 /\
  fst (Gps.accumulate (r1 :: rs) avg0) = Z.of_nat (List.length (r1 :: rs)) /\
  lo <= Gps.todaySecs (snd (Gps.accumulate (r1 :: rs) avg0))
        / fst (Gps.accumulate (r1 :: rs) avg0) <= hi.
Proof.
  intros Hclock Hlen Hbounds.
  inversion Hclock as [|r' rs' Hr1 Hrs]; subst.
  cbn [List.length] in Hlen.
  assert (E : Gps.accumulate (r1 :: rs) avg0
              = fold_left (fun p r => Gps.updateAverage (fst p) r (snd p)) rs
                          (Gps.updateAverage 0 r1 avg0)) by reflexivity.
  destruct (Gps.updateAverage 0 r1 avg0) as [n1 a1] eqn:E1.
  assert (H1 : n1 = 1 /\ Gps.hour a1 = Gps.hour r1 /\
               Gps.todaySecs a1 = seconds_from (Gps.hour r1) r1).
  { unfold Gps.updateAverage in E1. cbn [Z.ltb Z.compare] in E1.
    injection E1 as <- <-. cbn [Gps.hour Gps.todaySecs].
    repeat split; try reflexivity.
    unfold seconds_from. rewrite Z.ltb_irrefl.
    destruct Hr1 as (Hh & Hm & Hs). unfold CInt.add, CInt.mul.
    unwrap. reflexivity. }
  destruct H1 as (-> & Hh1 & Ht1).
  pose proof (seconds_from_bounds (Gps.hour r1) r1 Hr1) as Hb1.
  pose proof (total_seconds_bounds (Gps.hour r1) rs Hrs) as Hbs.
  assert (Hsum : Gps.todaySecs (snd (Gps.accumulate (r1 :: rs) avg0))
                 = total_seconds (Gps.hour r1) (r1 :: rs)).
  { rewrite E, (accumulate_seconds rs 1 a1) by (try assumption; lia).
    rewrite Ht1, Hh1. unfold total_seconds. cbn [map fold_right]. lia. }
  assert (Hcount : fst (Gps.accumulate (r1 :: rs) avg0)
                   = Z.of_nat (List.length (r1 :: rs))).
  { rewrite E.
    destruct (accumulate_hour rs 1 a1 ltac:(lia) ltac:(lia)) as [Hc _].
    rewrite Hc. cbn [List.length]. lia. }
  pose proof (total_seconds_bounds (Gps.hour r1) (r1 :: rs) Hclock) as Hball.
  split; [exact Hsum|]. split; [rewrite Hsum; cbn [List.length] in *; lia|].
  split; [exact Hcount|].
  rewrite Hsum, Hcount.
  assert (Hmean : forall ws,
             Forall (fun r => lo <= seconds_from (Gps.hour r1) r <= hi) ws ->
             lo * Z.of_nat (List.length ws) <= total_seconds (Gps.hour r1) ws
             <= hi * Z.of_nat (List.length ws)).
  { induction 1 as [|w ws Hw _ IHw]; unfold total_seconds in *;
      cbn [map fold_right List.length]; [cbn; lia | lia]. }
  specialize (Hmean _ Hbounds).
  set (n := Z.of_nat (List.length (r1 :: rs))) in *.
  assert (Hn : 1 <= n) by (unfold n; cbn [List.length]; lia).
  split.
  - apply Z.div_le_lower_bound; lia.
  - apply Z.div_le_upper_bound; lia.
Qed.

(** X5.  The time-of-day sum of a window.  For a window of at most 12427
    records with clock times of the day (hour 0 to 23, minute and second 0
    to 59), the sum kept by [updateAverage] does not overflow and is the
    sum, over the records, of their seconds since the midnight before the
    first record: a record whose hour is below the hour of the first one
    counts for one day more, every other one for its time of the day.  The
    integer mean of the sum lies between any two bounds that hold for each
    record. *)
Theorem window_time_sum
        (r1 : Gps.GPSDATA) (rs : list Gps.GPSDATA) (avg0 : Gps.GPSDATA)
        (lo hi : Z) :
  Forall valid_clock (r1 :: rs) ->
  Z.of_nat (List.length (r1 :: rs)) <= 12427 ->
  Forall (fun r => lo <= seconds_from (Gps.hour r1) r <= hi) (r1 :: rs) ->
  Gps.todaySecs (snd (Gps.accumulate (r1 :: rs) avg0))
  = total_seconds (Gps.hour r1) (r1 :: rs) /\
  0 <= Gps.todaySecs (snd (Gps.accumulate (r1 :: rs) avg0)) < 2 ^ 31 /\
  fst (Gps.accumulate (r1 :: rs) avg0) = Z.of_nat (List.length (r1 :: rs)) /\
  lo <= Gps.todaySecs (snd (Gps.accumulate (r1 :: rs) avg0))
        / fst (Gps.accumulate (r1 :: rs) avg0) <= hi.
Proof. exact (accumulate_time_sum r1 rs avg0 lo hi). Qed.

Lemma window_time_sum_witness :
  Forall valid_clock [Run.r1; Run.r2; Run.r3] /\
  Z.of_nat (List.length [Run.r1; Run.r2; Run.r3]) <= 12427 /\
  Forall (fun r => 86398 <= seconds_from (Gps.hour Run.r1) r <= 86401)
         [Run.r1; Run.r2; Run.r3] /\
  Gps.todaySecs (snd (Gps.accumulate [Run.r1; Run.r2; Run.r3] Sample.gps_blank))
  = total_seconds 23 [Run.r1; Run.r2; Run.r3].
Proof.
  assert (H1 : Forall valid_clock [Run.r1; Run.r2; Run.r3])
    by (repeat constructor; discriminate).
  assert (H2 : Z.of_nat (List.length [Run.r1; Run.r2; Run.r3]) <= 12427)
    by discriminate.
  assert (H3 : Forall (fun r => 86398 <= seconds_from (Gps.hour Run.r1) r
                                <= 86401) [Run.r1; Run.r2; Run.r3])
    by (repeat constructor; discriminate).
  split; [exact H1|]. split; [exact H2|]. split; [exact H3|].
  exact (proj1 (window_time_sum Run.r1 [Run.r2; Run.r3] Sample.gps_blank
                  86398 86401 H1 H2 H3)).
Defined.

(** The date kept in the sums is that of the first record of the window. *)
Lemma accumulate_date (rs : list Gps.GPSDATA) :
  forall (n : Z) (a : Gps.GPSDATA),
    1 <= n ->
    n + Z.of_nat (List.length rs) < 2 ^ 31 ->
    let p := fold_left (fun p r => Gps.updateAverage (fst p) r (snd p)) rs (n, a) in
    (Gps.mday (snd p), Gps.month (snd p), Gps.year (snd p))
    = (Gps.mday a, Gps.month a, Gps.year a).
Proof.
  induction rs as [|r rs IH]; intros n a Hn Hlen; cbn [fold_left];
    [reflexivity|].
  cbn [List.length] in Hlen. cbn [fst snd].
  destruct (Gps.updateAverage n r a) as [n1 a1] eqn:E.
  assert (Hstep : n1 = n + 1 /\
                  (Gps.mday a1, Gps.month a1, Gps.year a1)
                  = (Gps.mday a, Gps.month a, Gps.year a)).
  { unfold Gps.updateAverage in E.
    destruct (Z.ltb_spec n 1); [lia|]. injection E as <- <-.
    rewrite add_succ by lia. split; reflexivity. }
  destruct Hstep as [-> Hd]. cbv zeta in IH |- *.
  rewrite (IH (n + 1) a1) by lia. exact Hd.
Qed.

Lemma accumulate_first_date (r1 : Gps.GPSDATA) (rs : list Gps.GPSDATA)
      (avg0 : Gps.GPSDATA) :
  Z.of_nat (List.length rs) < 2 ^ 31 - 1 ->
  (Gps.mday (snd (Gps.accumulate (r1 :: rs) avg0)),
   Gps.month (snd (Gps.accumulate (r1 :: rs) avg0)),
   Gps.year (snd (Gps.accumulate (r1 :: rs) avg0)))
  = (Gps.mday r1, Gps.month r1, Gps.year r1).
Proof.
  intros Hlen.
  assert (E : Gps.accumulate (r1 :: rs) avg0
              = fold_left (fun p r => Gps.updateAverage (fst p) r (snd p)) rs
                          (Gps.updateAverage 0 r1 avg0)) by reflexivity.
  rewrite E. unfold Gps.updateAverage at 2 4 6. cbn [Z.ltb Z.compare].
  change (CInt.add 0 1) with 1.
  match goal with
  | |- context [fold_left ?f rs (1, ?a)] =>
      pose proof (accumulate_date rs 1 a ltac:(lia) ltac:(lia)) as H
  end.
  cbv zeta in H. exact H.
Qed.

Lemma window_clock
        (r1 : Gps.GPSDATA) (rs : list Gps.GPSDATA) (avg0 raw : Gps.GPSDATA) :
  Forall valid_clock (r1 :: rs) ->
  Z.of_nat (List.length (r1 :: rs)) <= 12427 ->
  exists c,
    snd (Gps.showAverage (fst (Gps.accumulate (r1 :: rs) avg0)) raw
                         (snd (Gps.accumulate (r1 :: rs) avg0)))
    = [Gps.Averaged c (Z.of_nat (List.length (r1 :: rs)))] /\
    0 <= Gps.c_hour c < 24 /\
    0 <= Gps.c_minute c < 60 /\
    0 <= Gps.c_second c < 60 /\
    ((Gps.c_mday c, Gps.c_month c, Gps.c_year c)
     = (Gps.mday r1, Gps.month r1, Gps.year r1)
     \/
     (Gps.c_mday c, Gps.c_month c, Gps.c_year c)
     = (Gps.mday raw, Gps.month raw, Gps.year raw)).
Proof.
  intros Hclock Hlen.
  assert (Hb : Forall (fun r => 0 <= seconds_from (Gps.hour r1) r <= 172799)
                      (r1 :: rs)).
  { eapply Forall_impl; [|exact Hclock].
    intros r Hr. now apply seconds_from_bounds. }
  destruct (accumulate_time_sum r1 rs avg0 0 172799 Hclock Hlen Hb)
    as (_ & Hsum & Hcount & Hmean).
  pose proof (accumulate_first_date r1 rs avg0) as Hdate.
  cbn [List.length] in Hlen.
  specialize (Hdate ltac:(lia)).
  set (acc := Gps.accumulate (r1 :: rs) avg0) in *.
  assert (Hn : 1 <= fst acc) by (rewrite Hcount; cbn [List.length]; lia).
  destruct (showAverage_clock (fst acc) raw (snd acc) Hn Hsum)
    as (c & Hc & Hm & Hs & Hh & Hcase).
  exists c. rewrite <- Hcount. split; [exact Hc|].
  destruct Hcase as [(Hlt & H24 & Heq & Hd) | (Hge & Heq & Hd)].
  - repeat split; try lia. left. now rewrite Hd.
  - repeat split; try lia. right. exact Hd.
Qed.

(** X6.  The averaged line of a window of clock times shows a clock time.
    For a window of at most 12427 records with hours 0 to 23 and minutes
    and seconds 0 to 59, whatever record triggers the line, the line
    carries the number of records as its count, an hour between 0 and 23, a
    minute and a second between 0 and 59, and the date of the first
    record of the window or that of the triggering record. *)
Theorem window_clock_valid
        (r1 : Gps.GPSDATA) (rs : list Gps.GPSDATA) (avg0 raw : Gps.GPSDATA) :
  Forall valid_clock (r1 :: rs) ->
  Z.of_nat (List.length (r1 :: rs)) <= 12427 ->
  exists c,
    snd (Gps.showAverage (fst (Gps.accumulate (r1 :: rs) avg0)) raw
                         (snd (Gps.accumulate (r1 :: rs) avg0)))
    = [Gps.Averaged c (Z.of_nat (List.length (r1 :: rs)))] /\
    0 <= Gps.c_hour c < 24 /\
    0 <= Gps.c_minute c < 60 /\
    0 <= Gps.c_second c < 60 /\
    ((Gps.c_mday c, Gps.c_month c, Gps.c_year c)
     = (Gps.mday r1, Gps.month r1, Gps.year r1)
     \/
     (Gps.c_mday c, Gps.c_month c, Gps.c_year c)
     = (Gps.mday raw, Gps.month raw, Gps.year raw)).
Proof. exact (window_clock r1 rs avg0 raw). Qed.

Lemma window_clock_valid_witness :
  Forall valid_clock [Run.r1; Run.r2; Run.r3] /\
  Z.of_nat (List.length [Run.r1; Run.r2; Run.r3]) <= 12427 /\
  exists c,
    snd (Gps.showAverage
           (fst (Gps.accumulate [Run.r1; Run.r2; Run.r3] Sample.gps_blank))
           Run.r3
           (snd (Gps.accumulate [Run.r1; Run.r2; Run.r3] Sample.gps_blank)))
    = [Gps.Averaged c 3] /\ 0 <= Gps.c_hour c < 24.
Proof.
  assert (H1 : Forall valid_clock [Run.r1; Run.r2; Run.r3])
    by (repeat constructor; discriminate).
  assert (H2 : Z.of_nat (List.length [Run.r1; Run.r2; Run.r3]) <= 12427)
    by discriminate.
  split; [exact H1|]. split; [exact H2|].
  destruct (window_clock_valid Run.r1 [Run.r2; Run.r3] Sample.gps_blank Run.r3
              H1 H2) as (c & Hc & Hh & _).
  exists c. split; [exact Hc | exact Hh].
Defined.

Lemma showAverage_nsats (n : Z) (raw avg : Gps.GPSDATA) (c : Gps.columns)
      (m : Z) :
  snd (Gps.showAverage n raw avg) = [Gps.Averaged c m] ->
  Gps.c_nsats c = CInt.div (Gps.nsats avg) n.
Proof.
  unfold Gps.showAverage. destruct (n <? 1); [discriminate|].
  destruct (24 <=? _); intros H; injection H as <- _; reflexivity.
Qed.

(** X7.  A window of one record.  The averaged line of a window that holds
    the single record [r], with a clock time of the day and a satellite
    count that fits an [int], has count 1 and shows the date, the hour, the
    minute, the second and the satellite count of [r]. *)
Theorem single_record_window (r avg0 raw : Gps.GPSDATA) :
  valid_clock r ->
  CInt.in_range (Gps.nsats r) ->
  exists c,
    snd (Gps.showAverage (fst (Gps.accumulate [r] avg0)) raw
                         (snd (Gps.accumulate [r] avg0)))
    = [Gps.Averaged c 1] /\
    (Gps.c_mday c, Gps.c_month c, Gps.c_year c)
    = (Gps.mday r, Gps.month r, Gps.year r) /\
    (Gps.c_hour c, Gps.c_minute c, Gps.c_second c)
    = (Gps.hour r, Gps.minute r, Gps.second r) /\
    Gps.c_nsats c = Gps.nsats r.
Proof.
  intros Hr Hns.
  assert (Hclock : Forall valid_clock [r])
    by (constructor; [exact Hr | constructor]).
  assert (Hb : Forall (fun x => seconds_from (Gps.hour r) r
                                <= seconds_from (Gps.hour r) x
                                <= seconds_from (Gps.hour r) r) [r])
    by (constructor; [lia | constructor]).
  destruct (accumulate_time_sum r [] avg0 _ _ Hclock ltac:(cbn; lia) Hb)
    as (Hsum & Hrange & Hcount & Hmean).
  set (acc := Gps.accumulate [r] avg0) in *.
  assert (Hn : 1 <= fst acc) by (rewrite Hcount; cbn; lia).
  destruct (showAverage_clock (fst acc) raw (snd acc) Hn Hrange)
    as (c & Hc & Hm & Hs & Hh & Hcase).
  pose proof Hc as Hc0.
  exists c. rewrite Hcount in Hc. change (Z.of_nat (List.length [r])) with 1 in Hc.
  split; [exact Hc|].
  assert (Hsec : seconds_from (Gps.hour r) r
                 = Gps.hour r * 3600 + Gps.minute r * 60 + Gps.second r).
  { unfold seconds_from. now rewrite Z.ltb_irrefl. }
  destruct Hr as (Hrh & Hrm & Hrs).
  assert (Hns' : Gps.c_nsats c = Gps.nsats r).
  { rewrite (showAverage_nsats _ _ _ _ _ Hc0), Hcount.
    change (Z.of_nat (List.length [r])) with 1.
    replace (Gps.nsats (snd acc)) with (Gps.nsats r) by reflexivity.
    unfold CInt.div. rewrite Z.quot_1_r. now apply wrap32_id. }
  destruct Hcase as [(Hlt & H24 & Heq & Hd) | (Hge & Heq & Hd)].
  - pose proof (accumulate_first_date r [] avg0 ltac:(cbn; lia)) as Hdate.
    fold acc in Hdate. rewrite Hdate in Hd.
    split; [exact Hd|]. split; [|exact Hns'].
    assert (Hc3 : Gps.c_hour c = Gps.hour r /\ Gps.c_minute c = Gps.minute r
                  /\ Gps.c_second c = Gps.second r) by lia.
    destruct Hc3 as (-> & -> & ->). reflexivity.
  - exfalso. lia.
Qed.

Lemma single_record_window_witness :
  valid_clock Run.r1 /\ CInt.in_range (Gps.nsats Run.r1) /\
  exists c,
    snd (Gps.showAverage (fst (Gps.accumulate [Run.r1] Sample.gps_blank)) Run.r2
                         (snd (Gps.accumulate [Run.r1] Sample.gps_blank)))
    = [Gps.Averaged c 1] /\
    (Gps.c_hour c, Gps.c_minute c, Gps.c_second c) = (23, 59, 58).
Proof.
  assert (H1 : valid_clock Run.r1) by (repeat split; discriminate).
  assert (H2 : CInt.in_range (Gps.nsats Run.r1))
    by (split; [discriminate | reflexivity]).
  split; [exact H1|]. split; [exact H2|].
  destruct (single_record_window Run.r1 Sample.gps_blank Run.r2 H1 H2)
    as (c & Hc & _ & Ht & _).
  exists c. split; [exact Hc | exact Ht].
Defined.

(** ** The values of the averaged sensor lines *)

Lemma sensor_copy (a r : Sensor.SENSORDATA) :
  Sensor.lift2 (fun _ x => x) a r = r.
Proof. destruct r; reflexivity. Qed.

(** A kept record when no window is open: it opens one. *)
Lemma sensor_observe_first (avgSecs : float) (st : Sensor.state)
      (r : Sensor.SENSORDATA) :
  CFloat.leb avgSecs CFloat.zero = false ->
  Sensor.navg st = 0 ->
  CFloat.ltb (Sensor.t0 st) CFloat.zero = true ->
  Sensor.observe avgSecs st r = (Sensor.mkState r r 1 (Sensor.tsecs r), []).
Proof.
  intros Hon Hn Ht. unfold Sensor.observe. rewrite Hon, Ht, orb_true_r, Hn.
  unfold Sensor.showAverage, Sensor.updateAverage. cbn [Z.ltb Z.compare].
  now rewrite sensor_copy.
Qed.

(** A kept record when a window is open: it closes the window, or joins
    it. *)
Lemma sensor_observe_next (avgSecs : float) (st : Sensor.state)
      (r : Sensor.SENSORDATA) :
  CFloat.leb avgSecs CFloat.zero = false ->
  1 <= Sensor.navg st < 2 ^ 31 - 1 ->
  not_negative (Sensor.t0 st) ->
  Sensor.observe avgSecs st r
  = if CFloat.ltb avgSecs (CFloat.sub (Sensor.tsecs r) (Sensor.t0 st))
    then (Sensor.mkState r r 1 (Sensor.tsecs r),
          [Sensor.Averaged
             (Sensor.lift1 (fun x => CFloat.div x (CFloat.of_int (Sensor.navg st)))
                           (Sensor.avg st))
             (Sensor.navg st)])
    else (Sensor.mkState r (Sensor.lift2 CFloat.add (Sensor.avg st) r)
                         (Sensor.navg st + 1) (Sensor.t0 st), []).
Proof.
  intros Hon Hn Ht. unfold not_negative in Ht. unfold Sensor.observe.
  rewrite Hon, Ht, orb_false_r.
  destruct (CFloat.ltb avgSecs _).
  - unfold Sensor.showAverage. destruct (Z.ltb_spec (Sensor.navg st) 1); [lia|].
    unfold Sensor.updateAverage. cbn [Z.ltb Z.compare].
    now rewrite sensor_copy.
  - unfold Sensor.updateAverage.
    destruct (Z.ltb_spec (Sensor.navg st) 1); [lia|].
    now rewrite add_succ by lia.
Qed.

Lemma sensor_values_open (avgSecs : float) (a : Sensor.SENSORDATA)
      (lines : list line) :
  CFloat.leb avgSecs CFloat.zero = false ->
  forall (st : Sensor.state) (first : Sensor.SENSORDATA)
         (more : list Sensor.SENSORDATA),
    Sensor.navg st = Z.of_nat (List.length (first :: more)) ->
    Sensor.avg st = sensor_sum first (rev more) ->
    Sensor.t0 st = Sensor.tsecs first ->
    not_negative (Sensor.tsecs first) ->
    Z.of_nat (List.length (first :: more)) + Z.of_nat (List.length lines)
    < 2 ^ 31 ->
    sensor_data (snd (Sensor.loop avgSecs st lines))
    ++ Sensor.final_flush (fst (Sensor.loop avgSecs st lines))
    = flat_map sensor_mean_line
               (record_group Sensor.tsecs avgSecs first more
                             (sensor_records a lines)).
Proof.
  intros Hon.
  induction lines as [|str rest IH]; intros st first more Hn Ha Ht Hpos Hlen.
  - cbn [Sensor.loop while_fgets fst snd sensor_data filter app sensor_records
         flat_map record_group]. unfold Sensor.loop. cbn [while_fgets fst snd].
    unfold Sensor.final_flush, Sensor.showAverage.
    cbn [List.length] in Hn, Hlen.
    destruct (Z.ltb_spec (Sensor.navg st) 1); [lia|].
    cbn [snd filter app]. unfold sensor_mean_line.
    cbn [List.length]. rewrite length_rev, <- Hn, Ha. reflexivity.
  - rewrite sensor_loop_cons. cbn [fst snd]. rewrite sensor_data_app.
    cbn [List.length] in Hn, Hlen.
    destruct (sensor_keep_any a (Sensor.raw st) str) as [Hany Hnn].
    unfold sensor_records. cbn [flat_map]. fold (sensor_records a rest).
    rewrite Hany.
    destruct (Sensor.keep (Sensor.raw st) str) as [r|] eqn:E.
    + rewrite (sensor_step_keep avgSecs st str r E).
      rewrite (sensor_observe_next avgSecs st r Hon) by
        (unfold not_negative in *; try rewrite Ht; try assumption; lia).
      cbn [app record_group]. rewrite Ht.
      specialize (Hnn r). rewrite Hany in Hnn. specialize (Hnn eq_refl).
      destruct (CFloat.ltb avgSecs _).
      * cbn [fst snd sensor_data filter app flat_map].
        rewrite <- (IH (Sensor.mkState r r 1 (Sensor.tsecs r)) r []);
          try reflexivity; try assumption; [|cbn [List.length]; lia].
        cbn [app]. f_equal. unfold sensor_mean_line.
        cbn [List.length]. rewrite length_rev, <- Hn, Ha. reflexivity.
      * cbn [fst snd sensor_data filter app].
        apply IH; cbn [Sensor.navg Sensor.avg Sensor.t0 List.length rev];
          try assumption; try reflexivity; try lia.
        unfold sensor_sum. rewrite fold_left_app. cbn [fold_left].
        now rewrite Ha.
    + destruct (sensor_step_skip avgSecs st str E) as [raw1 ->].
      cbn [fst snd sensor_data filter app].
      apply IH; cbn [Sensor.navg Sensor.avg Sensor.t0 List.length];
        try assumption; lia.
Qed.

Lemma sensor_values_closed (avgSecs : float) (a : Sensor.SENSORDATA)
      (lines : list line) :
  CFloat.leb avgSecs CFloat.zero = false ->
  forall (st : Sensor.state),
    Sensor.navg st = 0 ->
    CFloat.ltb (Sensor.t0 st) CFloat.zero = true ->
    Z.of_nat (List.length lines) < 2 ^ 31 ->
    sensor_data (snd (Sensor.loop avgSecs st lines))
    ++ Sensor.final_flush (fst (Sensor.loop avgSecs st lines))
    = flat_map sensor_mean_line
               (record_windows Sensor.tsecs avgSecs (sensor_records a lines)).
Proof.
  intros Hon.
  induction lines as [|str rest IH]; intros st Hn Ht Hlen.
  - unfold Sensor.loop. cbn [while_fgets fst snd sensor_data filter app].
    unfold Sensor.final_flush, Sensor.showAverage. rewrite Hn. reflexivity.
  - rewrite sensor_loop_cons. cbn [fst snd]. rewrite sensor_data_app.
    cbn [List.length] in Hlen.
    destruct (sensor_keep_any a (Sensor.raw st) str) as [Hany Hnn].
    unfold sensor_records. cbn [flat_map]. fold (sensor_records a rest).
    rewrite Hany.
    destruct (Sensor.keep (Sensor.raw st) str) as [r|] eqn:E.
    + rewrite (sensor_step_keep avgSecs st str r E).
      rewrite (sensor_observe_first avgSecs st r Hon Hn Ht).
      specialize (Hnn r). rewrite Hany in Hnn. specialize (Hnn eq_refl).
      cbn [fst snd sensor_data filter app record_windows].
      apply (sensor_values_open avgSecs a rest Hon _ r []);
        try reflexivity; try assumption.
      cbn [List.length]. lia.
    + destruct (sensor_step_skip avgSecs st str E) as [raw1 ->].
      cbn [fst snd sensor_data filter app].
      apply IH; cbn [Sensor.navg Sensor.t0]; try assumption; lia.
Qed.

Lemma sensor_final_flush_data (st : Sensor.state) :
  sensor_data (Sensor.final_flush st) = Sensor.final_flush st.
Proof.
  unfold Sensor.final_flush.
  destruct (sensor_showAverage_out (Sensor.navg st) (Sensor.avg st))
    as [-> | (r & -> & _)]; reflexivity.
Qed.

(** ** The windows of a run *)

Section Windows.

Context {R : Type} (key : R -> float) (len : float).

Lemma record_group_concat (rs : list R) :
  forall (first : R) (more : list R),
    List.concat (record_group key len first more rs)
    = first :: rev more ++ rs.
Proof.
  induction rs as [|r rs IH]; intros first more; cbn [record_group].
  - cbn [List.concat]. now rewrite !app_nil_r.
  - destruct (CFloat.ltb len _).
    + cbn [List.concat]. rewrite IH. reflexivity.
    + rewrite IH. cbn [rev]. now rewrite <- app_assoc.
Qed.

Lemma record_windows_concat (rs : list R) :
  List.concat (record_windows key len rs) = rs.
Proof.
  destruct rs as [|r rs]; [reflexivity|].
  cbn [record_windows]. now rewrite record_group_concat.
Qed.

Lemma record_group_within (rs : list R) :
  forall (first : R) (more : list R),
    window_within key len (first :: rev more) ->
    Forall (window_within key len) (record_group key len first more rs).
Proof.
  induction rs as [|r rs IH]; intros first more Hw; cbn [record_group].
  - constructor; [exact Hw | constructor].
  - destruct (CFloat.ltb len _) eqn:E.
    + constructor; [exact Hw|]. apply IH. constructor.
    + apply IH. cbn [rev]. cbn [window_within] in *.
      apply Forall_app. split; [exact Hw|].
      constructor; [exact E | constructor].
Qed.

Lemma record_windows_within (rs : list R) :
  Forall (window_within key len) (record_windows key len rs).
Proof.
  destruct rs as [|r rs]; [constructor|].
  cbn [record_windows]. apply record_group_within. constructor.
Qed.

Lemma record_group_head (rs : list R) :
  forall (first : R) (more : list R),
    exists w ws, record_group key len first more rs = (first :: w) :: ws.
Proof.
  induction rs as [|r rs IH]; intros first more; cbn [record_group].
  - now eexists; eexists.
  - destruct (CFloat.ltb len _); [now eexists; eexists | apply IH].
Qed.

End Windows.

(** X8.  The averaged lines of the sensor run.  With averaging enabled the
    data lines are, in order, one line per window of the records kept; the
    windows split the records kept, none lost or repeated, and no record of
    a window is later than its first record by more than [avgSecs] seconds.
    Each field of the line of a window is the sum of that field over the
    records of the window, added in order of arrival in single precision,
    divided by the number of records of the window as a float. *)
Theorem sensor_lines_of_windows
        (avgSecs : float) (raw0 avg0 a : Sensor.SENSORDATA)
        (lines : list line) :
  CFloat.leb avgSecs CFloat.zero = false ->
  Z.of_nat (List.length lines) < 2 ^ 31 ->
  let ws := record_windows Sensor.tsecs avgSecs (sensor_records a lines) in
  sensor_data (Sensor.process avgSecs raw0 avg0 lines)
  = flat_map sensor_mean_line ws /\
  List.concat ws = sensor_records a lines /\
  Forall (window_within Sensor.tsecs avgSecs) ws.
Proof.
  intros Hon Hlen ws. split; [|split].
  - rewrite sensor_process_loop, sensor_data_app, sensor_final_flush_data.
    now apply sensor_values_closed.
  - apply record_windows_concat.
  - apply record_windows_within.
Qed.

Lemma sensor_lines_of_windows_witness :
  CFloat.leb Sample.ten CFloat.zero = false /\
  Z.of_nat (List.length [Sample.sensor_line; Sample.sensor_zero_last]) < 2 ^ 31 /\
  let ws := record_windows Sensor.tsecs Sample.ten
              (sensor_records Sample.sensor_blank
                              [Sample.sensor_line; Sample.sensor_zero_last]) in
  sensor_data (Sensor.process Sample.ten Sample.sensor_blank
                              Sample.sensor_blank
                              [Sample.sensor_line; Sample.sensor_zero_last])
  = flat_map sensor_mean_line ws /\
  List.concat ws
  = sensor_records Sample.sensor_blank
                   [Sample.sensor_line; Sample.sensor_zero_last] /\
  Forall (window_within Sensor.tsecs Sample.ten) ws.
Proof.
  assert (Hon : CFloat.leb Sample.ten CFloat.zero = false) by reflexivity.
  assert (Hlen : Z.of_nat (List.length [Sample.sensor_line;
                                         Sample.sensor_zero_last])
                 < 2 ^ 31) by (cbn [List.length]; lia).
  split; [exact Hon|]. split; [exact Hlen|].
  exact (sensor_lines_of_windows Sample.ten Sample.sensor_blank
           Sample.sensor_blank Sample.sensor_blank _ Hon Hlen).
Defined.

(** ** The averaged lines of the GPS run *)

Lemma gps_updateAverage_columns (n : Z) (r r' avg : Gps.GPSDATA) :
  Gps.columns_of r = Gps.columns_of r' ->
  Gps.updateAverage n r avg = Gps.updateAverage n r' avg.
Proof.
  destruct r, r'. unfold Gps.columns_of.
  cbn [Gps.mday Gps.month Gps.year Gps.hour Gps.minute Gps.second Gps.nsats
       Gps.tsecs Gps.lat Gps.lon Gps.alt].
  intros H. injection H as -> -> -> -> -> -> -> -> -> -> ->. reflexivity.
Qed.

Lemma gps_showAverage_columns (n : Z) (r r' avg : Gps.GPSDATA) :
  Gps.columns_of r = Gps.columns_of r' ->
  Gps.showAverage n r avg = Gps.showAverage n r' avg.
Proof.
  destruct r, r'. unfold Gps.columns_of.
  cbn [Gps.mday Gps.month Gps.year Gps.hour Gps.minute Gps.second Gps.nsats
       Gps.tsecs Gps.lat Gps.lon Gps.alt].
  intros H. injection H as -> -> -> -> -> -> -> -> -> -> ->. reflexivity.
Qed.

Lemma gps_columns_tsecs (r r' : Gps.GPSDATA) :
  Gps.columns_of r = Gps.columns_of r' -> Gps.tsecs r = Gps.tsecs r'.
Proof.
  intros H. change (Gps.c_tsecs (Gps.columns_of r)
                    = Gps.c_tsecs (Gps.columns_of r')). now rewrite H.
Qed.

Lemma gps_first_update (r a b : Gps.GPSDATA) :
  Gps.updateAverage 0 r a = Gps.updateAverage 0 r b.
Proof. reflexivity. Qed.

Lemma gps_accumulate_snoc (first : Gps.GPSDATA) (rs : list Gps.GPSDATA)
      (r a : Gps.GPSDATA) :
  Gps.accumulate (first :: rs ++ [r]) a
  = Gps.updateAverage (fst (Gps.accumulate (first :: rs) a)) r
                      (snd (Gps.accumulate (first :: rs) a)).
Proof.
  unfold Gps.accumulate. rewrite app_comm_cons, fold_left_app. reflexivity.
Qed.

Lemma gps_accumulate_any (first : Gps.GPSDATA) (rs : list Gps.GPSDATA)
      (a b : Gps.GPSDATA) :
  Gps.accumulate (first :: rs) a = Gps.accumulate (first :: rs) b.
Proof. reflexivity. Qed.

(** A kept record when no window is open. *)
Lemma gps_observe_first (avgSecs : float) (st : Gps.state) (r : Gps.GPSDATA) :
  CFloat.leb avgSecs CFloat.zero = false ->
  Gps.navg st = 0 ->
  CFloat.ltb (Gps.t0 st) CFloat.zero = true ->
  Gps.observe avgSecs st r
  = (Gps.mkState r (snd (Gps.accumulate [r] r)) (fst (Gps.accumulate [r] r))
                 (Gps.tsecs r), []).
Proof.
  intros Hon Hn Ht. unfold Gps.observe. rewrite Hon, Ht, orb_true_r, Hn.
  reflexivity.
Qed.

(** A kept record when a window is open. *)
Lemma gps_observe_next (avgSecs : float) (st : Gps.state) (r : Gps.GPSDATA) :
  CFloat.leb avgSecs CFloat.zero = false ->
  not_negative (Gps.t0 st) ->
  Gps.observe avgSecs st r
  = if CFloat.ltb avgSecs (CFloat.sub (Gps.tsecs r) (Gps.t0 st))
    then (Gps.mkState r (snd (Gps.accumulate [r] r))
                      (fst (Gps.accumulate [r] r)) (Gps.tsecs r),
          snd (Gps.showAverage (Gps.navg st) r (Gps.avg st)))
    else (Gps.mkState r
            (snd (Gps.updateAverage (Gps.navg st) r (Gps.avg st)))
            (fst (Gps.updateAverage (Gps.navg st) r (Gps.avg st)))
            (Gps.t0 st), []).
Proof.
  intros Hon Ht. unfold not_negative in Ht. unfold Gps.observe.
  rewrite Hon, Ht, orb_false_r.
  destruct (CFloat.ltb avgSecs _).
  - destruct (Gps.showAverage (Gps.navg st) r (Gps.avg st)) as [avg1 out].
    reflexivity.
  - destruct (Gps.updateAverage (Gps.navg st) r (Gps.avg st)) as [n1 a1].
    reflexivity.
Qed.

Lemma gps_observe_raw (avgSecs : float) (st : Gps.state) (r : Gps.GPSDATA) :
  Gps.raw (fst (Gps.observe avgSecs st r)) = r.
Proof.
  unfold Gps.observe. destruct (CFloat.leb avgSecs CFloat.zero); [reflexivity|].
  destruct (_ || _)%bool.
  - destruct (Gps.showAverage _ _ _) as [avg1 out].
    destruct (Gps.updateAverage 0 r avg1). reflexivity.
  - destruct (Gps.updateAverage _ _ _). reflexivity.
Qed.

Lemma gps_step_raw (avgSecs : float) (minSats : Z) (st : Gps.state)
      (str : line) :
  Gps.raw (fst (Gps.step avgSecs minSats st str))
  = gps_scanned minSats (Gps.raw st) str.
Proof.
  unfold Gps.step, gps_scanned.
  destruct (Libc.isdigit (Gps.first_char str)); [|reflexivity].
  cbn [negb]. destruct (Gps.sscanf str (Gps.raw st)) as [n raw1].
  destruct (n =? 11); [|reflexivity]. cbn [negb andb].
  destruct (Gps.nsats raw1 <? minSats); [reflexivity|]. cbn [negb].
  apply gps_observe_raw.
Qed.

Lemma gps_loop_raw (avgSecs : float) (minSats : Z) (lines : list line) :
  forall st,
    Gps.raw (fst (Gps.loop avgSecs minSats st lines))
    = gps_last_raw minSats (Gps.raw st) lines.
Proof.
  induction lines as [|str rest IH]; intros st; [reflexivity|].
  rewrite gps_loop_cons. cbn [fst]. rewrite IH, gps_step_raw. reflexivity.
Qed.

Lemma gps_showAverage_data (n : Z) (raw avg : Gps.GPSDATA) :
  gps_data (snd (Gps.showAverage n raw avg)) = snd (Gps.showAverage n raw avg).
Proof.
  destruct (gps_showAverage_out n raw avg) as [-> | (c & -> & _)]; reflexivity.
Qed.

Lemma gps_last_raw_cons (minSats : Z) (raw : Gps.GPSDATA) (str : line)
      (rest : list line) :
  gps_last_raw minSats raw (str :: rest)
  = gps_last_raw minSats (gps_scanned minSats raw str) rest.
Proof. reflexivity. Qed.

Lemma gps_lines_open (avgSecs : float) (minSats : Z) (a : Gps.GPSDATA)
      (lines : list line) :
  CFloat.leb avgSecs CFloat.zero = false ->
  forall (st : Gps.state) (first : Gps.GPSDATA) (more : list Gps.GPSDATA),
    (Gps.navg st, Gps.avg st) = Gps.accumulate (first :: rev more) first ->
    Gps.t0 st = Gps.tsecs first ->
    not_negative (Gps.tsecs first) ->
    gps_data (snd (Gps.loop avgSecs minSats st lines))
    ++ Gps.final_flush (fst (Gps.loop avgSecs minSats st lines))
    = gps_window_lines
        (record_group Gps.tsecs avgSecs first more
                      (gps_records minSats a lines))
        (gps_last_raw minSats (Gps.raw st) lines).
Proof.
  intros Hon.
  induction lines as [|str rest IH]; intros st first more Hacc Ht Hpos.
  - unfold Gps.loop. cbn [while_fgets fst snd gps_data filter app gps_records
                          flat_map record_group gps_window_lines next_trigger
                          gps_last_raw fold_left].
    rewrite app_nil_r. unfold Gps.final_flush, gps_window_line.
    rewrite <- Hacc. reflexivity.
  - rewrite gps_loop_cons. cbn [fst snd]. rewrite gps_data_app.
    rewrite gps_last_raw_cons.
    rewrite <- (gps_step_raw avgSecs).
    unfold gps_records. cbn [flat_map]. fold (gps_records minSats a rest).
    pose proof (gps_keep_any minSats a (Gps.raw st) str) as Hany.
    destruct (Gps.keep minSats a str) as [r|] eqn:Ea;
      destruct (Gps.keep minSats (Gps.raw st) str) as [r'|] eqn:E;
      try contradiction.
    + destruct Hany as [Hcol Hnn].
      rewrite (gps_step_keep avgSecs minSats st str r' E).
      rewrite (gps_observe_next avgSecs st r' Hon) by
        (unfold not_negative in *; now rewrite Ht).
      rewrite <- (gps_columns_tsecs r r' Hcol), Ht.
      cbn [app record_group].
      destruct (CFloat.ltb avgSecs _).
      * cbn [fst snd gps_window_lines].
        rewrite gps_showAverage_data, <- app_assoc.
        destruct (record_group_head Gps.tsecs avgSecs
                    (gps_records minSats a rest) r []) as (w & ws & Hhead).
        rewrite <- (IH _ r []); [| |reflexivity|exact Hnn].
        -- f_equal. rewrite Hhead. cbn [next_trigger].
           unfold gps_window_line. rewrite <- Hacc. cbn [fst snd].
           now rewrite (gps_showAverage_columns _ r r').
        -- cbn [Gps.navg Gps.avg rev app]. unfold Gps.accumulate.
           cbn [fold_left fst snd].
           rewrite <- (gps_updateAverage_columns 0 r r' r' Hcol).
           rewrite (gps_first_update r r' r).
           now destruct (Gps.updateAverage 0 r r).
      * cbn [fst snd gps_data filter app].
        apply IH; cbn [Gps.navg Gps.avg Gps.t0]; try assumption;
          try reflexivity.
        cbn [rev]. rewrite gps_accumulate_snoc, <- Hacc. cbn [fst snd].
        rewrite <- (gps_updateAverage_columns (Gps.navg st) r r' (Gps.avg st)
                      Hcol).
        now destruct (Gps.updateAverage (Gps.navg st) r (Gps.avg st)).
    + destruct (gps_step_skip avgSecs minSats st str E) as [raw1 ->].
      cbn [fst snd gps_data filter app].
      apply IH; cbn [Gps.navg Gps.avg Gps.t0]; assumption.
Qed.

Lemma gps_lines_closed (avgSecs : float) (minSats : Z) (a : Gps.GPSDATA)
      (lines : list line) :
  CFloat.leb avgSecs CFloat.zero = false ->
  forall (st : Gps.state),
    Gps.navg st = 0 ->
    CFloat.ltb (Gps.t0 st) CFloat.zero = true ->
    gps_data (snd (Gps.loop avgSecs minSats st lines))
    ++ Gps.final_flush (fst (Gps.loop avgSecs minSats st lines))
    = gps_window_lines
        (record_windows Gps.tsecs avgSecs (gps_records minSats a lines))
        (gps_last_raw minSats (Gps.raw st) lines).
Proof.
  intros Hon.
  induction lines as [|str rest IH]; intros st Hn Ht.
  - unfold Gps.loop. cbn [while_fgets fst snd gps_data filter app].
    unfold Gps.final_flush, Gps.showAverage. rewrite Hn. reflexivity.
  - rewrite gps_loop_cons. cbn [fst snd]. rewrite gps_data_app.
    rewrite gps_last_raw_cons.
    rewrite <- (gps_step_raw avgSecs).
    unfold gps_records. cbn [flat_map]. fold (gps_records minSats a rest).
    pose proof (gps_keep_any minSats a (Gps.raw st) str) as Hany.
    destruct (Gps.keep minSats a str) as [r|] eqn:Ea;
      destruct (Gps.keep minSats (Gps.raw st) str) as [r'|] eqn:E;
      try contradiction.
    + destruct Hany as [Hcol Hnn].
      rewrite (gps_step_keep avgSecs minSats st str r' E).
      rewrite (gps_observe_first avgSecs st r' Hon Hn Ht).
      cbn [fst snd gps_data filter app record_windows].
      apply (gps_lines_open avgSecs minSats a rest Hon _ r []);
        cbn [Gps.navg Gps.avg Gps.t0 rev app]; try assumption.
      * unfold Gps.accumulate. cbn [fold_left fst snd].
        rewrite <- (gps_updateAverage_columns 0 r r' r' Hcol).
        rewrite (gps_first_update r r' r).
        now destruct (Gps.updateAverage 0 r r).
      * symmetry. now apply gps_columns_tsecs.
    + destruct (gps_step_skip avgSecs minSats st str E) as [raw1 ->].
      cbn [fst snd gps_data filter app].
      apply IH; cbn [Gps.navg Gps.t0]; assumption.
Qed.

Lemma gps_final_flush_data (st : Gps.state) :
  gps_data (Gps.final_flush st) = Gps.final_flush st.
Proof. apply gps_showAverage_data. Qed.

Lemma gps_run_lines (avgSecs : float) (minSats : Z) (raw0 avg0 a : Gps.GPSDATA)
      (lines : list line) :
  CFloat.leb avgSecs CFloat.zero = false ->
  gps_data (Gps.process avgSecs minSats raw0 avg0 lines)
  = gps_window_lines
      (record_windows Gps.tsecs avgSecs (gps_records minSats a lines))
      (gps_last_raw minSats raw0 lines).
Proof.
  intros Hon.
  rewrite gps_process_loop, gps_data_app, gps_final_flush_data.
  now apply (gps_lines_closed avgSecs minSats a lines Hon
               (Gps.init raw0 avg0)).
Qed.

(** X9.  The averaged lines of the GPS run.  With averaging enabled the
    data lines are, in order, one line per window of the records kept;
    the windows split the records kept, none lost or repeated, and no
    record of a window is later than its first record by more than
    [avgSecs] seconds.  The line of a window is what [showAverage] prints
    after the calls of [updateAverage] for the records of the window, with
    [raw] holding the first record of the next window; for the last window
    [raw] holds what the last buffer that starts with a digit left in it,
    kept or not. *)
Theorem gps_lines_of_windows
        (avgSecs : float) (minSats : Z) (raw0 avg0 a : Gps.GPSDATA)
        (lines : list line) :
  CFloat.leb avgSecs CFloat.zero = false ->
  let ws := record_windows Gps.tsecs avgSecs (gps_records minSats a lines) in
  gps_data (Gps.process avgSecs minSats raw0 avg0 lines)
  = gps_window_lines ws (gps_last_raw minSats raw0 lines) /\
  List.concat ws = gps_records minSats a lines /\
  Forall (window_within Gps.tsecs avgSecs) ws.
Proof.
  intros Hon ws. split; [|split].
  - now apply gps_run_lines.
  - apply record_windows_concat.
  - apply record_windows_within.
Qed.

Lemma gps_lines_of_windows_witness :
  CFloat.leb Sample.ten CFloat.zero = false /\
  let ws := record_windows Gps.tsecs Sample.ten
                           (gps_records 4 Sample.gps_blank Run.mixed) in
  gps_data (Gps.process Sample.ten 4 Sample.gps_blank Sample.gps_blank
                        Run.mixed)
  = gps_window_lines ws (gps_last_raw 4 Sample.gps_blank Run.mixed) /\
  List.concat ws = gps_records 4 Sample.gps_blank Run.mixed /\
  Forall (window_within Gps.tsecs Sample.ten) ws.
Proof.
  assert (Hon : CFloat.leb Sample.ten CFloat.zero = false) by reflexivity.
  split; [exact Hon|].
  exact (gps_lines_of_windows Sample.ten 4 Sample.gps_blank Sample.gps_blank
           Sample.gps_blank Run.mixed Hon).
Defined.

(** ** Clock times along a run *)

Lemma gps_records_length (minSats : Z) (a : Gps.GPSDATA) (lines : list line) :
  (List.length (gps_records minSats a lines) <= List.length lines)%nat.
Proof.
  induction lines as [|str rest IH]; [apply Nat.le_refl|].
  unfold gps_records. cbn [flat_map]. fold (gps_records minSats a rest).
  destruct (Gps.keep minSats a str); cbn [app List.length]; lia.
Qed.

Lemma concat_member_length {A : Type} (ws : list (list A)) (w : list A) :
  In w ws -> (List.length w <= List.length (List.concat ws))%nat.
Proof.
  induction ws as [|w' ws IH]; intros Hin; [contradiction|].
  cbn [List.concat]. rewrite length_app.
  destruct Hin as [-> | Hin]; [lia|]. specialize (IH Hin). lia.
Qed.

Lemma gps_data_forall (P : Gps.output -> Prop) (out : list Gps.output) :
  (forall str, P (Gps.Comment str)) ->
  Forall P (gps_data out) -> Forall P out.
Proof.
  intros Hc. induction out as [|o out IH]; intros H; [constructor|].
  unfold gps_data in H. cbn [filter] in H. fold (gps_data out) in H.
  destruct o as [str | c | c n].
  - constructor; [apply Hc | now apply IH].
  - inversion H; subst. constructor; [assumption | now apply IH].
  - inversion H; subst. constructor; [assumption | now apply IH].
Qed.

Lemma gps_window_line_clock (w : list Gps.GPSDATA) (trigger : Gps.GPSDATA) :
  Forall valid_clock w ->
  Z.of_nat (List.length w) <= 12427 ->
  Forall gps_clock_line (gps_window_line w trigger).
Proof.
  intros Hclock Hlen. destruct w as [|r1 rs]; [constructor|].
  unfold gps_window_line.
  destruct (window_clock r1 rs r1 trigger Hclock Hlen)
    as (c & -> & Hh & Hm & Hs & _).
  constructor; [|constructor]. cbn [gps_clock_line List.length].
  repeat split; try lia.
Qed.

Lemma gps_window_lines_clock (ws : list (list Gps.GPSDATA))
      (last : Gps.GPSDATA) :
  Forall (fun w => Forall valid_clock w /\ Z.of_nat (List.length w) <= 12427)
         ws ->
  Forall gps_clock_line (gps_window_lines ws last).
Proof.
  induction ws as [|w ws IH]; intros H; [constructor|].
  inversion H as [|w' ws' [Hc Hl] Hrest]; subst.
  cbn [gps_window_lines]. apply Forall_app. split.
  - now apply gps_window_line_clock.
  - now apply IH.
Qed.

(** X10.  Clock times along the GPS run.  With averaging enabled, when the
    records kept from an input of at most 12427 buffers all carry a clock
    time of the day (hour 0 to 23, minute and second 0 to 59), the run
    prints comments and averaged lines only, and every averaged line
    carries a count of at least 1, an hour between 0 and 23 and a minute
    and a second between 0 and 59: the rollover of the hour never shows an
    hour of 24 or more, and the time-of-day sum never overflows. *)
Theorem run_clock_valid
        (avgSecs : float) (minSats : Z) (raw0 avg0 a : Gps.GPSDATA)
        (lines : list line) :
  CFloat.leb avgSecs CFloat.zero = false ->
  Forall valid_clock (gps_records minSats a lines) ->
  Z.of_nat (List.length lines) <= 12427 ->
  Forall gps_clock_line (Gps.process avgSecs minSats raw0 avg0 lines).
Proof.
  intros Hon Hclock Hlen.
  apply gps_data_forall; [intros str; exact I|].
  rewrite (gps_run_lines avgSecs minSats raw0 avg0 a lines Hon).
  apply gps_window_lines_clock.
  pose proof (record_windows_concat Gps.tsecs avgSecs
                (gps_records minSats a lines)) as Hcat.
  pose proof (gps_records_length minSats a lines) as Hle.
  set (ws := record_windows Gps.tsecs avgSecs (gps_records minSats a lines))
    in *.
  rewrite <- Hcat in Hclock, Hle.
  apply Forall_forall. intros w Hin. split.
  - rewrite Forall_concat in Hclock.
    rewrite Forall_forall in Hclock. now apply Hclock.
  - pose proof (concat_member_length ws w Hin). lia.
Qed.

Lemma run_clock_valid_witness :
  CFloat.leb Sample.ten CFloat.zero = false /\
  Forall valid_clock (gps_records 4 Sample.gps_blank Run.two_windows) /\
  Z.of_nat (List.length Run.two_windows) <= 12427 /\
  Forall gps_clock_line
         (Gps.process Sample.ten 4 Sample.gps_blank Sample.gps_blank
                      Run.two_windows).
Proof.
  assert (Hon : CFloat.leb Sample.ten CFloat.zero = false) by reflexivity.
  assert (Hclock : Forall valid_clock
                          (gps_records 4 Sample.gps_blank Run.two_windows))
    by (vm_compute; repeat constructor; discriminate).
  assert (Hlen : Z.of_nat (List.length Run.two_windows) <= 12427)
    by (vm_compute; discriminate).
  split; [exact Hon|]. split; [exact Hclock|]. split; [exact Hlen|].
  exact (run_clock_valid Sample.ten 4 Sample.gps_blank Sample.gps_blank
           Sample.gps_blank Run.two_windows Hon Hclock Hlen).
Defined.

(** ** The start of the first window *)

Lemma gps_keep_nonneg (minSats : Z) (a : Gps.GPSDATA) (str : line)
      (r : Gps.GPSDATA) :
  Gps.keep minSats a str = Some r -> not_negative (Gps.tsecs r).
Proof.
  intros E. pose proof (gps_keep_any minSats a a str) as H.
  rewrite E in H. apply H.
Qed.

Lemma gps_step_t0 (avgSecs : float) (minSats : Z) (st : Gps.state)
      (str : line) :
  CFloat.leb avgSecs CFloat.zero = false ->
  match Gps.keep minSats (Gps.raw st) str with
  | Some r =>
      not_negative (Gps.tsecs r) /\
      (Gps.t0 (fst (Gps.step avgSecs minSats st str)) = Gps.tsecs r \/
       CFloat.ltb (Gps.t0 st) CFloat.zero = false /\
       Gps.t0 (fst (Gps.step avgSecs minSats st str)) = Gps.t0 st)
  | None => Gps.t0 (fst (Gps.step avgSecs minSats st str)) = Gps.t0 st
  end.
Proof.
  intros Hon. destruct (Gps.keep minSats (Gps.raw st) str) as [r|] eqn:E.
  - split; [exact (gps_keep_nonneg _ _ _ _ E)|].
    rewrite (gps_step_keep avgSecs minSats st str r E).
    pose proof (gps_observe_enabled avgSecs st r Hon) as H.
    destruct (CFloat.ltb avgSecs _); cbn [orb] in H.
    + left. apply H.
    + destruct (CFloat.ltb (Gps.t0 st) CFloat.zero).
      * left. apply H.
      * right. split; [reflexivity | apply H].
  - destruct (gps_step_skip avgSecs minSats st str E) as [raw1 ->].
    reflexivity.
Qed.

Lemma sensor_step_t0 (avgSecs : float) (st : Sensor.state) (str : line) :
  CFloat.leb avgSecs CFloat.zero = false ->
  match Sensor.keep (Sensor.raw st) str with
  | Some r =>
      not_negative (Sensor.tsecs r) /\
      (Sensor.t0 (fst (Sensor.step avgSecs st str)) = Sensor.tsecs r \/
       CFloat.ltb (Sensor.t0 st) CFloat.zero = false /\
       Sensor.t0 (fst (Sensor.step avgSecs st str)) = Sensor.t0 st)
  | None => Sensor.t0 (fst (Sensor.step avgSecs st str)) = Sensor.t0 st
  end.
Proof.
  intros Hon. destruct (Sensor.keep (Sensor.raw st) str) as [r|] eqn:E.
  - split;
      [exact (proj2 (sensor_keep_any (Sensor.raw st) (Sensor.raw st) str) r E)|].
    rewrite (sensor_step_keep avgSecs st str r E).
    pose proof (sensor_observe_enabled avgSecs st r Hon) as H.
    destruct (CFloat.ltb avgSecs _); cbn [orb] in H.
    + left. apply H.
    + destruct (CFloat.ltb (Sensor.t0 st) CFloat.zero).
      * left. apply H.
      * right. split; [reflexivity | apply H].
  - destruct (sensor_step_skip avgSecs st str E) as [raw1 ->].
    reflexivity.
Qed.

Lemma gps_t0_stays (avgSecs : float) (minSats : Z) (lines : list line) :
  CFloat.leb avgSecs CFloat.zero = false ->
  forall st,
    not_negative (Gps.t0 st) ->
    not_negative (Gps.t0 (fst (Gps.loop avgSecs minSats st lines))).
Proof.
  intros Hon. induction lines as [|str rest IH]; intros st Ht; [exact Ht|].
  rewrite gps_loop_cons. cbn [fst]. apply IH.
  pose proof (gps_step_t0 avgSecs minSats st str Hon) as H.
  destruct (Gps.keep minSats (Gps.raw st) str) as [r|].
  - destruct H as [Hr [-> | [_ ->]]]; assumption.
  - now rewrite H.
Qed.

Lemma sensor_t0_stays (avgSecs : float) (lines : list line) :
  CFloat.leb avgSecs CFloat.zero = false ->
  forall st,
    not_negative (Sensor.t0 st) ->
    not_negative (Sensor.t0 (fst (Sensor.loop avgSecs st lines))).
Proof.
  intros Hon. induction lines as [|str rest IH]; intros st Ht; [exact Ht|].
  rewrite sensor_loop_cons. cbn [fst]. apply IH.
  pose proof (sensor_step_t0 avgSecs st str Hon) as H.
  destruct (Sensor.keep (Sensor.raw st) str) as [r|].
  - destruct H as [Hr [-> | [_ ->]]]; assumption.
  - now rewrite H.
Qed.

Lemma gps_t0_sentinel (avgSecs : float) (minSats : Z) (a : Gps.GPSDATA)
      (lines : list line) :
  CFloat.leb avgSecs CFloat.zero = false ->
  forall st,
    CFloat.ltb (Gps.t0 st) CFloat.zero = true ->
    (CFloat.ltb (Gps.t0 (fst (Gps.loop avgSecs minSats st lines))) CFloat.zero
     = true
     <-> gps_records minSats a lines = []).
Proof.
  intros Hon. induction lines as [|str rest IH]; intros st Ht.
  - split; [reflexivity | intros _; exact Ht].
  - rewrite gps_loop_cons. cbn [fst].
    unfold gps_records. cbn [flat_map]. fold (gps_records minSats a rest).
    pose proof (gps_keep_any minSats a (Gps.raw st) str) as Hany.
    pose proof (gps_step_t0 avgSecs minSats st str Hon) as H.
    destruct (Gps.keep minSats a str) as [r|];
      destruct (Gps.keep minSats (Gps.raw st) str) as [r'|];
      try contradiction.
    + destruct H as [Hr [H | [H _]]]; [|rewrite Ht in H; discriminate H].
      assert (Hs : not_negative
                     (Gps.t0 (fst (Gps.step avgSecs minSats st str))))
        by (now rewrite H).
      pose proof (gps_t0_stays avgSecs minSats rest Hon _ Hs) as Hf.
      unfold not_negative in Hf. rewrite Hf.
      split; intros H0; discriminate H0.
    + cbn [app]. apply IH. now rewrite H.
Qed.

Lemma sensor_t0_sentinel (avgSecs : float) (a : Sensor.SENSORDATA)
      (lines : list line) :
  CFloat.leb avgSecs CFloat.zero = false ->
  forall st,
    CFloat.ltb (Sensor.t0 st) CFloat.zero = true ->
    (CFloat.ltb (Sensor.t0 (fst (Sensor.loop avgSecs st lines))) CFloat.zero
     = true
     <-> sensor_records a lines = []).
Proof.
  intros Hon. induction lines as [|str rest IH]; intros st Ht.
  - split; [reflexivity | intros _; exact Ht].
  - rewrite sensor_loop_cons. cbn [fst].
    unfold sensor_records. cbn [flat_map]. fold (sensor_records a rest).
    destruct (sensor_keep_any a (Sensor.raw st) str) as [Hany _].
    pose proof (sensor_step_t0 avgSecs st str Hon) as H.
    rewrite Hany.
    destruct (Sensor.keep (Sensor.raw st) str) as [r|].
    + destruct H as [Hr [H | [H _]]]; [|rewrite Ht in H; discriminate H].
      assert (Hs : not_negative (Sensor.t0 (fst (Sensor.step avgSecs st str))))
        by (now rewrite H).
      pose proof (sensor_t0_stays avgSecs rest Hon _ Hs) as Hf.
      unfold not_negative in Hf. rewrite Hf.
      split; intros H0; discriminate H0.
    + cbn [app]. apply IH. now rewrite H.
Qed.

(** X11.  The start value of [t0].  [main] sets [t0] to -1 to mean that no
    window was opened yet.  With averaging enabled, [t0] is negative at the
    end of the loop exactly when no record was kept: a kept record comes
    from a buffer that starts with a digit, so its elapsed seconds are not
    negative (and not a NaN), and once a record is kept [t0] holds the
    elapsed seconds of a kept record.  The test [t0 < 0.0] of the loop so
    holds for the first kept record and for no later one.  Both
    converters. *)
Theorem sentinel_until_first_record
        (avgSecs : float) (minSats : Z) (raw0 avg0 a : Gps.GPSDATA)
        (sraw0 savg0 sa : Sensor.SENSORDATA) (glines slines : list line) :
  CFloat.leb avgSecs CFloat.zero = false ->
  (CFloat.ltb
     (Gps.t0 (fst (Gps.loop avgSecs minSats (Gps.init raw0 avg0) glines)))
     CFloat.zero = true
   <-> gps_records minSats a glines = [])
  /\
  (CFloat.ltb
     (Sensor.t0 (fst (Sensor.loop avgSecs (Sensor.init sraw0 savg0) slines)))
     CFloat.zero = true
   <-> sensor_records sa slines = []).
Proof.
  intros Hon. split.
  - now apply gps_t0_sentinel.
  - now apply sensor_t0_sentinel.
Qed.

Lemma sentinel_until_first_record_witness :
  CFloat.leb Sample.ten CFloat.zero = false /\
  (CFloat.ltb
     (Gps.t0 (fst (Gps.loop Sample.ten 4 (Gps.init Sample.gps_blank
                                                   Sample.gps_blank)
                            [Sample.weak_fix])))
     CFloat.zero = true
   <-> gps_records 4 Sample.gps_blank [Sample.weak_fix] = []).
Proof.
  assert (Hon : CFloat.leb Sample.ten CFloat.zero = false) by reflexivity.
  split; [exact Hon|].
  exact (proj1 (sentinel_until_first_record Sample.ten 4 Sample.gps_blank
                  Sample.gps_blank Sample.gps_blank Sample.sensor_blank
                  Sample.sensor_blank Sample.sensor_blank [Sample.weak_fix] []
                  Hon)).
Defined.

(** ** A file without data *)

Lemma fgets_from_concat (size : nat) (file : list ascii) :
  forall (room : nat) (cur : list ascii),
    List.concat (Libc.fgets_from size room cur file) = rev cur ++ file.
Proof.
  induction file as [|c rest IH]; intros room cur; cbn [Libc.fgets_from].
  - destruct cur as [|c cur]; [reflexivity|].
    cbn [List.concat]. reflexivity.
  - destruct (_ || _)%bool.
    + cbn [List.concat]. rewrite IH. cbn [rev app].
      now rewrite <- app_assoc.
    + rewrite IH. cbn [rev]. now rewrite <- app_assoc.
Qed.

Lemma gps_loop_all_text (avgSecs : float) (minSats : Z) (lines : list line) :
  Forall (fun b => starts_with_digit b = false) lines ->
  forall st,
    Gps.loop avgSecs minSats st lines
    = (st, map (fun b => Gps.Comment (Libc.c_string b)) lines).
Proof.
  induction 1 as [|str rest Hstr Hrest IH]; intros st; [reflexivity|].
  rewrite gps_loop_cons.
  rewrite (gps_step_text avgSecs minSats st str Hstr). cbn [fst snd].
  rewrite IH. reflexivity.
Qed.

Lemma sensor_loop_all_text (avgSecs : float) (lines : list line) :
  Forall (fun b => starts_with_digit b = false) lines ->
  forall st,
    Sensor.loop avgSecs st lines
    = (st, map (fun b => Sensor.Comment (Libc.c_string b)) lines).
Proof.
  induction 1 as [|str rest Hstr Hrest IH]; intros st; [reflexivity|].
  rewrite sensor_loop_cons.
  rewrite (sensor_step_text avgSecs st str Hstr). cbn [fst snd].
  rewrite IH. reflexivity.
Qed.

Lemma gps_comments_map (lines : list line) :
  gps_comments (map (fun b => Gps.Comment (Libc.c_string b)) lines)
  = map Libc.c_string lines.
Proof.
  induction lines as [|str rest IH]; [reflexivity|].
  cbn [map]. unfold gps_comments. cbn [flat_map app]. f_equal. exact IH.
Qed.

Lemma sensor_comments_map (lines : list line) :
  sensor_comments (map (fun b => Sensor.Comment (Libc.c_string b)) lines)
  = map Libc.c_string lines.
Proof.
  induction lines as [|str rest IH]; [reflexivity|].
  cbn [map]. unfold sensor_comments. cbn [flat_map app]. f_equal. exact IH.
Qed.

(** The buffers of a file without NUL character hold none. *)
Lemma fgets_texts (file : list ascii) :
  ~ In Ascii.zero file ->
  map Libc.c_string (Libc.fgets_all 256 file) = Libc.fgets_all 256 file.
Proof.
  intros Hnul. rewrite <- (map_id (Libc.fgets_all 256 file)) at 2.
  apply map_ext_in. intros b Hb. apply c_string_id. intros Hin.
  apply Hnul. unfold Libc.fgets_all in Hb.
  pose proof (fgets_from_concat 256 file (256 - 1) []) as Hcat.
  cbn [rev app] in Hcat. rewrite <- Hcat.
  apply in_concat. exists b. split; assumption.
Qed.

(** X12.  A file without data.  When no buffer that [fgets] returns starts
    with a digit, both converters write one comment per buffer and no data
    line, whatever the averaging length; the text of a comment is the
    buffer up to its first NUL character.  When the file holds no NUL
    character, the texts of the comments put end to end are the file,
    character for character: the buffers of 255 characters at most into
    which [fgets] cuts a long line lose nothing. *)
Theorem text_file_echo
        (avgSecs : float) (minSats : Z) (raw0 avg0 : Gps.GPSDATA)
        (sraw0 savg0 : Sensor.SENSORDATA) (file : list ascii) :
  Forall (fun b => starts_with_digit b = false) (Libc.fgets_all 256 file) ->
  Gps.main avgSecs minSats raw0 avg0 file
  = map (fun b => Gps.Comment (Libc.c_string b)) (Libc.fgets_all 256 file) /\
  Sensor.main avgSecs sraw0 savg0 file
  = map (fun b => Sensor.Comment (Libc.c_string b))
        (Libc.fgets_all 256 file) /\
  (~ In Ascii.zero file ->
   List.concat (gps_comments (Gps.main avgSecs minSats raw0 avg0 file))
   = file /\
   List.concat (sensor_comments (Sensor.main avgSecs sraw0 savg0 file))
   = file).
Proof.
  intros Htext.
  assert (Hg : Gps.main avgSecs minSats raw0 avg0 file
               = map (fun b => Gps.Comment (Libc.c_string b))
                     (Libc.fgets_all 256 file)).
  { unfold Gps.main. rewrite gps_process_loop.
    rewrite (gps_loop_all_text avgSecs minSats _ Htext). cbn [fst snd].
    apply app_nil_r. }
  assert (Hs : Sensor.main avgSecs sraw0 savg0 file
               = map (fun b => Sensor.Comment (Libc.c_string b))
                     (Libc.fgets_all 256 file)).
  { unfold Sensor.main. rewrite sensor_process_loop.
    rewrite (sensor_loop_all_text avgSecs _ Htext). cbn [fst snd].
    apply app_nil_r. }
  split; [exact Hg|]. split; [exact Hs|]. intros Hnul.
  rewrite Hg, Hs, gps_comments_map, sensor_comments_map.
  rewrite (fgets_texts file Hnul).
  split; unfold Libc.fgets_all; now rewrite fgets_from_concat.
Qed.

Lemma text_file_echo_witness :
  Forall (fun b => starts_with_digit b = false)
         (Libc.fgets_all 256 (Sample.buffer "Time,Date,UTC"
                              ++ list_ascii_of_string "end")) /\
  ~ In Ascii.zero (Sample.buffer "Time,Date,UTC"
                   ++ list_ascii_of_string "end") /\
  List.concat
    (gps_comments
       (Gps.main Sample.ten 4 Sample.gps_blank Sample.gps_blank
                 (Sample.buffer "Time,Date,UTC"
                  ++ list_ascii_of_string "end")))
  = Sample.buffer "Time,Date,UTC" ++ list_ascii_of_string "end".
Proof.
  assert (H : Forall (fun b => starts_with_digit b = false)
                     (Libc.fgets_all 256 (Sample.buffer "Time,Date,UTC"
                                          ++ list_ascii_of_string "end")))
    by (vm_compute; repeat constructor).
  assert (Hnul : ~ In Ascii.zero (Sample.buffer "Time,Date,UTC"
                                  ++ list_ascii_of_string "end"))
    by (apply free_check; vm_compute; reflexivity).
  split; [exact H|]. split; [exact Hnul|].
  destruct (text_file_echo Sample.ten 4 Sample.gps_blank Sample.gps_blank
              Sample.sensor_blank Sample.sensor_blank _ H) as (_ & _ & Hecho).
  exact (proj1 (Hecho Hnul)).
Defined.
